(** * pdfo: a shallow embedding of the PDF compression CLI and of the
      version-bump script, with the properties of their specification.

    Two programs are modelled:
    - [scripts/bump_version.py] in [Module BumpVersion];
    - [pdfo.py] in [Module Pdfo].

    Python state (the file system, the output streams) is threaded through a
    small state-and-exception monad in which, as in Python, the effects done
    before an exception is raised stay done. *)

From Stdlib Require Import ZArith String Ascii List Lia Bool.
From Stdlib Require Import Decimal DecimalFacts DecimalString DecimalZ.
From stdpp Require Import gmap strings list.
Import ListNotations.

Local Open Scope string_scope.
Local Open Scope list_scope.
Local Open Scope Z_scope.

(** ** Outcomes and the state/exception monad *)

(** What running a piece of Python code gives: a value, or a raised
    exception of type [E]. *)
Inductive outcome (E A : Type) : Type :=
| Return (a : A)
| Raise (e : E).
Arguments Return {E A} a.
Arguments Raise {E A} e.

(** A computation over a world [W]: the world is returned in both cases. *)
Definition M (W E A : Type) : Type := W -> outcome E A * W.

Definition ret {W E A} (a : A) : M W E A := fun w => (Return a, w).

Definition raise {W E A} (e : E) : M W E A := fun w => (Raise e, w).

Definition bind {W E A B} (c : M W E A) (k : A -> M W E B) : M W E B :=
  fun w =>
    match c w with
    | (Return a, w') => k a w'
    | (Raise e, w') => (Raise e, w')
    end.

(** [try: c except: h] where [catches e] says whether the [except] clause
    matches the exception. *)
Definition try_except {W E A} (c : M W E A) (catches : E -> bool)
    (h : E -> M W E A) : M W E A :=
  fun w =>
    match c w with
    | (Return a, w') => (Return a, w')
    | (Raise e, w') => if catches e then h e w' else (Raise e, w')
    end.

#[global] Instance M_ret {W E} : MRet (M W E) := fun A => @ret W E A.
#[global] Instance M_bind {W E} : MBind (M W E) := fun A B k c => @bind W E A B c k.

(** ** Python strings

    A [string] stands for a Python [str] whose code points are below 256. *)

(** The decimal numeral of an integer: what [str()] gives for an [int] when
    it gives anything (see [BumpVersion.py_str] for when it does not). *)
Definition str_of_Z (z : Z) : string := NilZero.string_of_int (Z.to_int z).

Definition code (c : ascii) : nat := nat_of_ascii c.

(** [str.isdecimal] on one character, which is what [\d] matches. *)
Definition is_digit (c : ascii) : bool :=
  (48 <=? code c)%nat && (code c <=? 57)%nat.

(** [str.isspace] on one character, which is what [\s] matches: TAB..CR,
    FS..US, space, NEL and NBSP. *)
Definition is_space (c : ascii) : bool :=
  ((9 <=? code c)%nat && (code c <=? 13)%nat)
  || ((28 <=? code c)%nat && (code c <=? 32)%nat)
  || (code c =? 133)%nat || (code c =? 160)%nat.

Definition newline : ascii := ascii_of_nat 10.
Definition carriage_return : ascii := ascii_of_nat 13.

(** The double quote, as a string. *)
Definition dquote : string := String (ascii_of_nat 34) "".

Fixpoint concat_str (l : list string) : string :=
  match l with
  | [] => ""
  | s :: l' => s +:+ concat_str l'
  end.

Fixpoint take_str (n : nat) (s : string) : string :=
  match n, s with
  | S n', String c s' => String c (take_str n' s')
  | _, _ => ""
  end.

Fixpoint drop_str (n : nat) (s : string) : string :=
  match n, s with
  | S n', String _ s' => drop_str n' s'
  | _, _ => s
  end.

(** [s.split(sep)] for a one-character separator. *)
Fixpoint split_on (sep : ascii) (s : string) : list string :=
  match s with
  | "" => [""]
  | String c s' =>
      if Ascii.eqb c sep then "" :: split_on sep s'
      else match split_on sep s' with
           | [] => [String c ""]
           | p :: ps => String c p :: ps
           end
  end.

(** Every character of [s] is in the class [cls]. *)
Fixpoint all_chars (cls : ascii -> bool) (s : string) : bool :=
  match s with
  | "" => true
  | String c s' => cls c && all_chars cls s'
  end.

(** A decimal component of a version: one digit or more. *)
Definition is_digits (s : string) : bool :=
  match s with
  | "" => false
  | _ => all_chars is_digit s
  end.

(** ** Python floats

    A [float] is a binary64 number: a sign, and a magnitude
    [mantissa * 2 ^ exponent] whose mantissa has 53 bits
    ([2 ^ 52 <= mantissa < 2 ^ 53]); zero has mantissa 0 and exponent 0.
    The exponent is left unbounded: the floats met here are quotients of
    file sizes (below [2 ^ 63]) and a hundred times them, far from the
    overflow and underflow thresholds of binary64. *)
Inductive pyfloat := Float (negative : bool) (mantissa exponent : Z).



(** [n / d] rounded to the nearest integer, ties going to the even one, for
    [0 <= n] and [0 < d]. *)
Definition div_half_even (n d : Z) : Z :=
  let q := n / d in
  let r := n mod d in
  if 2 * r <? d then q
  else if d <? 2 * r then q + 1
  else if Z.even q then q else q + 1.

(** The float nearest to [n / d], ties going to the even mantissa, for
    [0 <= n] and [0 < d]: with [top] the power of two that [n / d] reaches,
    the mantissa is [n / d] scaled by [2 ^ (52 - top)] and rounded. *)
Definition round_float (negative : bool) (n d : Z) : pyfloat :=
  if n =? 0 then Float negative 0 0
  else
    let l := Z.log2 n - Z.log2 d in
    let top := if d * 2 ^ Z.max 0 l <=? n * 2 ^ Z.max 0 (- l) then l else l - 1 in
    let e := top - 52 in
    let m := div_half_even (n * 2 ^ Z.max 0 (- e)) (d * 2 ^ Z.max 0 e) in
    if m =? 2 ^ 53 then Float negative (2 ^ 52) (e + 1) else Float negative m e.

(** [a / b] on two [int]s, [b] not zero: the quotient correctly rounded. *)
Definition int_truediv (a b : Z) : pyfloat :=
  round_float (xorb (a <? 0) (b <? 0)) (Z.abs a) (Z.abs b).

(** [x * k] for a float [x] and an [int] [k] that a float holds exactly,
    [0 < k < 2 ^ 53]: the product correctly rounded. *)
Definition float_mul_int (x : pyfloat) (k : Z) : pyfloat :=
  match x with
  | Float s m e => round_float s (m * k * 2 ^ Z.max 0 e) (2 ^ Z.max 0 (- e))
  end.

(** [f"{x:.1f}"]: the decimal with one digit after the point nearest to
    [x], ties going to the even digit. *)
Definition format_1f (x : pyfloat) : string :=
  match x with
  | Float s m e =>
      let t := div_half_even (m * 10 * 2 ^ Z.max 0 e) (2 ^ Z.max 0 (- e)) in
      (if s then "-" else "") +:+ str_of_Z (t / 10) +:+ "." +:+ str_of_Z (t mod 10)
  end.

Module BumpVersion.

(** *** The fragment of [re] that [VERSION_RE] uses *)

Inductive charclass := Digit | Space.

Definition in_class (k : charclass) (c : ascii) : bool :=
  match k with
  | Digit => is_digit c
  | Space => is_space c
  end.

(** One element of a pattern; a pattern is a sequence of them.  [Bol] and
    [Eol] are [^] and [$] under [(?m)]; [Star] and [Plus] are the greedy
    repetitions of a character class; [GroupOpen], [GroupClose] delimit the
    capturing group. *)
Inductive item :=
| Bol
| Eol
| Lit (s : string)
| Star (k : charclass)
| Plus (k : charclass)
| GroupOpen
| GroupClose.

Definition at_bol (prev : option ascii) : bool :=
  match prev with
  | None => true
  | Some c => Ascii.eqb c newline
  end.

Definition at_eol (s : string) : bool :=
  match s with
  | "" => true
  | String c _ => Ascii.eqb c newline
  end.

Fixpoint strip_prefix (p s : string) : option string :=
  match p, s with
  | "", _ => Some s
  | String a p', String b s' => if Ascii.eqb a b then strip_prefix p' s' else None
  | String _ _, "" => None
  end.

Fixpoint last_char (s : string) (prev : option ascii) : option ascii :=
  match s with
  | "" => prev
  | String c s' => last_char s' (Some c)
  end.

Definition cons_piece (p : string) (r : option (list string)) : option (list string) :=
  match r with
  | Some ps => Some (p :: ps)
  | None => None
  end.

Definition grow_piece (c : ascii) (r : option (list string)) : option (list string) :=
  match r with
  | Some (p :: ps) => Some (String c p :: ps)
  | _ => None
  end.

(** The greedy repetition: take as many characters of the class as there
    are, and give them back one at a time while the rest of the pattern,
    [k], fails. *)
Fixpoint match_star (k : option ascii -> string -> option (list string))
    (cls : ascii -> bool) (prev : option ascii) (s : string)
    : option (list string) :=
  match s with
  | String c s' =>
      if cls c then
        match grow_piece c (match_star k cls (Some c) s') with
        | Some r => Some r
        | None => cons_piece "" (k prev s)
        end
      else cons_piece "" (k prev s)
  | "" => cons_piece "" (k prev s)
  end.

(** The backtracking matcher anchored where [s] starts; [prev] is the
    character before that place.  The result lists what each item of the
    pattern consumed. *)
Fixpoint match_items (items : list item) (prev : option ascii) (s : string)
    : option (list string) :=
  match items with
  | [] => Some []
  | Bol :: tl =>
      if at_bol prev then cons_piece "" (match_items tl prev s) else None
  | Eol :: tl =>
      if at_eol s then cons_piece "" (match_items tl prev s) else None
  | Lit l :: tl =>
      match strip_prefix l s with
      | Some rest => cons_piece l (match_items tl (last_char l prev) rest)
      | None => None
      end
  | Star k :: tl => match_star (match_items tl) (in_class k) prev s
  | Plus k :: tl =>
      match s with
      | String c s' =>
          if in_class k c
          then grow_piece c (match_star (match_items tl) (in_class k) (Some c) s')
          else None
      | "" => None
      end
  | GroupOpen :: tl => cons_piece "" (match_items tl prev s)
  | GroupClose :: tl => cons_piece "" (match_items tl prev s)
  end.

(** A match object: where the match starts and what each item consumed. *)
Record Match := { m_start : nat; m_pieces : list string }.

Definition matched (m : Match) : string := concat_str (m_pieces m).

Definition m_end (m : Match) : nat := (m_start m + String.length (matched m))%nat.

(** What the items between [GroupOpen] and [GroupClose] consumed. *)
Fixpoint group_of (items : list item) (pieces : list string) (inside : bool)
    : string :=
  match items, pieces with
  | GroupOpen :: tl, _ :: ps => group_of tl ps true
  | GroupClose :: tl, _ :: ps => group_of tl ps false
  | _ :: tl, p :: ps =>
      if inside then p +:+ group_of tl ps inside else group_of tl ps inside
  | _, _ => ""
  end.

(** [pattern.search(text)] scanning from the place [pos], where [s] is the
    text from [pos] on. *)
Fixpoint search_from (items : list item) (prev : option ascii) (s : string)
    (pos : nat) : option Match :=
  match match_items items prev s with
  | Some ps => Some {| m_start := pos; m_pieces := ps |}
  | None =>
      match s with
      | "" => None
      | String c s' => search_from items (Some c) s' (S pos)
      end
  end.

Definition re_search (items : list item) (text : string) : option Match :=
  search_from items None text 0.

(** [pattern.subn(repl, text, count=1)] for a pattern that matches no
    empty string and a replacement [repl] that holds no backslash, which
    [re] then inserts as it is ([plain] below); a replacement with a
    backslash is a template that [re] expands or refuses, and is outside
    of what this definition describes. *)
Definition re_subn1 (items : list item) (repl text : string) : string * Z :=
  match re_search items text with
  | Some m => (take_str (m_start m) text +:+ repl +:+ drop_str (m_end m) text, 1)
  | None => (text, 0)
  end.

(** The pattern of [VERSION_RE]: under [(?m)], a line start, [version],
    white space, [=], white space, a double quote, the group of three
    dot-separated runs of digits, a double quote, white space, a line end. *)
Definition VERSION_RE : list item :=
  [ Bol; Lit "version"; Star Space; Lit "="; Star Space; Lit dquote;
    GroupOpen; Plus Digit; Lit "."; Plus Digit; Lit "."; Plus Digit; GroupClose;
    Lit dquote; Star Space; Eol ].

Definition group1 (m : Match) : string := group_of VERSION_RE (m_pieces m) false.

(** What an item of a pattern may consume. *)
Definition piece_ok (it : item) (p : string) : Prop :=
  match it with
  | Bol | Eol | GroupOpen | GroupClose => p = ""
  | Lit l => p = l
  | Star k => all_chars (in_class k) p = true
  | Plus k => p <> "" /\ all_chars (in_class k) p = true
  end.

(** A replacement that [re] takes literally: no backslash in it. *)
Definition plain (repl : string) : bool :=
  all_chars (fun c => negb (Ascii.eqb c "\")) repl.

(** *** [int(x)] on a string, base 10, and [str(n)] on an [int] *)

(** The white space [int()] strips at both ends: TAB..CR and space, and
    NEL and NBSP (which it first turns into spaces); the separators FS..US
    are not stripped. *)
Definition int_space (c : ascii) : bool :=
  ((9 <=? code c)%nat && (code c <=? 13)%nat)
  || (code c =? 32)%nat || (code c =? 133)%nat || (code c =? 160)%nat.

Fixpoint lstrip (s : string) : string :=
  match s with
  | String c s' => if int_space c then lstrip s' else s
  | "" => ""
  end.

Fixpoint rstrip (s : string) : string :=
  match s with
  | "" => ""
  | String c s' =>
      match rstrip s' with
      | "" => if int_space c then "" else String c ""
      | r => String c r
      end
  end.

(** [sys.int_info.default_max_str_digits]: [int()] refuses a literal with
    more digits, and [str()] an [int] with more digits. *)
Definition max_str_digits : nat := 4300.

Fixpoint count_digits (s : string) : nat :=
  match s with
  | "" => 0
  | String c s' => if is_digit c then S (count_digits s') else count_digits s'
  end.

Definition digit_value (c : ascii) : Z := Z.of_nat (code c) - 48.

(** The digits after the first one; a single underscore may stand between
    two digits. *)
Fixpoint parse_digits (s : string) (acc : Z) : option Z :=
  match s with
  | "" => Some acc
  | String c s' =>
      if is_digit c then parse_digits s' (10 * acc + digit_value c)
      else if Ascii.eqb c "_" then
        match s' with
        | String d s'' =>
            if is_digit d then parse_digits s'' (10 * acc + digit_value d)
            else None
        | "" => None
        end
      else None
  end.

Definition parse_unsigned (s : string) : option Z :=
  match s with
  | String c s' => if is_digit c then parse_digits s' (digit_value c) else None
  | "" => None
  end.

(** [int(x)]: [None] when it raises [ValueError], for a literal that is
    not a decimal numeral or has more than [max_str_digits] digits. *)
Definition py_int (x : string) : option Z :=
  let t := rstrip (lstrip x) in
  if (max_str_digits <? count_digits t)%nat then None
  else
    match t with
    | String c r =>
        if Ascii.eqb c "+" then parse_unsigned r
        else if Ascii.eqb c "-" then option_map Z.opp (parse_unsigned r)
        else parse_unsigned t
    | "" => None
    end.

(** [str(n)] returns when [n] has at most [max_str_digits] digits. *)
Definition fits (n : Z) : bool :=
  (String.length (str_of_Z (Z.abs n)) <=? max_str_digits)%nat.

(** *** The script *)

(** The exceptions of the script.  [ValueError_int] is the [ValueError] of
    [int()], [ValueError_str] the one of [str()] on an [int] with too many
    digits, [ValueError_unpack] the one of an unpacking that does not find
    three values.  [ReadError] stands for whatever [Path.read_text] raises
    on a path that cannot be read as text: [FileNotFoundError],
    [IsADirectoryError], [PermissionError] or [UnicodeDecodeError]. *)
Inductive exn :=
| ValueError (msg : string)
| ValueError_int (literal : string)
| ValueError_str
| ValueError_unpack (got : nat)
| ReadError (path : string)
| SystemExit (msg : string).

#[global] Instance outcome_ret : MRet (outcome exn) := fun A a => Return a.
#[global] Instance outcome_bind : MBind (outcome exn) :=
  fun A B k c => match c with Return a => k a | Raise e => Raise e end.

Definition int_ (x : string) : outcome exn Z :=
  match py_int x with
  | Some z => Return z
  | None => Raise (ValueError_int x)
  end.

(** [major, minor, patch = (int(x) for x in parts)]: the generator is
    consumed one element at a time, a fourth element is converted before
    the unpacking is found too long. *)
Definition unpack3 (parts : list string) : outcome exn (Z * Z * Z) :=
  match parts with
  | [] => Raise (ValueError_unpack 0)
  | [a] => _ ← int_ a; Raise (ValueError_unpack 1)
  | [a; b] => _ ← int_ a; _ ← int_ b; Raise (ValueError_unpack 2)
  | [a; b; c] => x ← int_ a; y ← int_ b; z ← int_ c; Return (x, y, z)
  | a :: b :: c :: d :: _ =>
      _ ← int_ a; _ ← int_ b; _ ← int_ c; _ ← int_ d; Raise (ValueError_unpack 4)
  end.

(** [str(n)], which is also how an f-string formats an [int]. *)
Definition py_str (n : Z) : outcome exn string :=
  if fits n then Return (str_of_Z n) else Raise ValueError_str.

(** [f"{major}.{minor}.{patch}"] *)
Definition format_version (major minor patch : Z) : outcome exn string :=
  a ← py_str major;
  b ← py_str minor;
  c ← py_str patch;
  Return (a +:+ "." +:+ b +:+ "." +:+ c).

Definition bump_version (version bump : string) : outcome exn string :=
  '(major, minor, patch) ← unpack3 (split_on "." version);
  if String.eqb bump "major" then format_version (major + 1) 0 0
  else if String.eqb bump "minor" then format_version major (minor + 1) 0
  else if String.eqb bump "patch" then format_version major minor (patch + 1)
  else Raise (ValueError ("Unknown bump type: " +:+ bump)).

Definition read_version (text : string) : outcome exn string :=
  match re_search VERSION_RE text with
  | None => Raise (ValueError "Could not find version in pyproject.toml")
  | Some m => Return (group1 m)
  end.

(** The files that can be read as text, with their contents, and what was
    printed. *)
Record World := { fs : gmap string string; stdout : list string }.

Abbreviation script := (M World exn).

Definition lift {A} (r : outcome exn A) : script A := fun w => (r, w).

(** Reading in text mode turns CR LF and CR into LF. *)
Fixpoint universal_newlines (s : string) : string :=
  match s with
  | "" => ""
  | String c s' =>
      if Ascii.eqb c carriage_return then
        match s' with
        | String d s'' =>
            if Ascii.eqb d newline then String newline (universal_newlines s'')
            else String newline (universal_newlines s')
        | "" => String newline ""
        end
      else String c (universal_newlines s')
  end.

Definition read_text (path : string) : script string :=
  fun w =>
    match fs w !! path with
    | Some raw => (Return (universal_newlines raw), w)
    | None => (Raise (ReadError path), w)
    end.

(** Writing in text mode, on POSIX, writes the text as it is. *)
Definition write_text (path text : string) : script unit :=
  fun w => (Return tt, {| fs := <[path := text]> (fs w); stdout := stdout w |}).

Definition print (line : string) : script unit :=
  fun w => (Return tt, {| fs := fs w; stdout := stdout w ++ [line] |}).

(** [f'version = "{new_version}"'] *)
Definition version_line (new_version : string) : string :=
  "version = " +:+ dquote +:+ new_version +:+ dquote.

Definition write_version (path new_version : string) : script unit :=
  text ← read_text path;
  let '(new_text, count) := re_subn1 VERSION_RE (version_line new_version) text in
  if negb (count =? 1) then
    raise (ValueError "Failed to update version in pyproject.toml")
  else write_text path new_text.

(** The values [--bump] may take: [choices=["major", "minor", "patch"]]. *)
Inductive bump_choice := Major | Minor | Patch.

Definition choice_name (b : bump_choice) : string :=
  match b with
  | Major => "major"
  | Minor => "minor"
  | Patch => "patch"
  end.

(** The parsed command line. *)
Record Args := { file : string; bump : option bump_choice; current : bool }.

Definition main (args : Args) : script Z :=
  let path := file args in
  text ← read_text path;
  current ← lift (read_version text);
  if BumpVersion.current args then
    print current;; mret 0
  else
    match bump args with
    | None => raise (SystemExit "--bump is required unless --current is set")
    | Some b =>
        new_version ← lift (bump_version current (choice_name b));
        write_version path new_version;;
        print new_version;;
        mret 0
    end.

(** [raise SystemExit(main())]: the status the process ends with. *)
Definition exit_status (r : outcome exn Z) : Z :=
  match r with
  | Return n => n
  | Raise _ => 1
  end.

(** *** What the specification asks for

    These definitions follow the words of the specification, not the
    script: they are what the script is compared with. *)

(** The number a run of decimal digits denotes. *)
Fixpoint digits_value_from (acc : Z) (s : string) : Z :=
  match s with
  | "" => acc
  | String c s' => digits_value_from (10 * acc + digit_value c) s'
  end.

Definition digits_value (s : string) : Z := digits_value_from 0 s.

(** The version asked for, from the three numbers of the current one: the
    requested component plus one, the components below it zero, written as
    decimal numerals with dots between them. *)
Definition bumped (b : bump_choice) (x y z : Z) : string :=
  match b with
  | Major => str_of_Z (x + 1) +:+ ".0.0"
  | Minor => str_of_Z x +:+ "." +:+ str_of_Z (y + 1) +:+ ".0"
  | Patch => str_of_Z x +:+ "." +:+ str_of_Z y +:+ "." +:+ str_of_Z (z + 1)
  end.

(** The component a bump adds one to. *)
Definition bumped_component (b : bump_choice) (x y z : Z) : Z :=
  match b with
  | Major => x
  | Minor => y
  | Patch => z
  end.

(** The version can be read and the version asked for can be printed: no
    component has more than [max_str_digits] digits, nor has the component
    plus one. *)
Definition within_limits (b : bump_choice) (X Y Z : string) : bool :=
  (String.length X <=? max_str_digits)%nat
  && (String.length Y <=? max_str_digits)%nat
  && (String.length Z <=? max_str_digits)%nat
  && fits (bumped_component b (digits_value X) (digits_value Y) (digits_value Z) + 1).

(** The three numbers of the version asked for. *)
Definition bumped_numbers (b : bump_choice) (x y z : Z) : Z * Z * Z :=
  match b with
  | Major => (x + 1, 0, 0)
  | Minor => (x, y + 1, 0)
  | Patch => (x, y, z + 1)
  end.

(** The manifest asked for: the text before the version line, the line
    [version = "<new>"], the text after it. *)
Definition manifest_with (pre new post : string) : string :=
  pre +:+ "version = " +:+ dquote +:+ new +:+ dquote +:+ post.

(** An item that cannot consume the character [c]: [c] is in no literal
    and in no class of it. *)
Definition avoids (c : ascii) (it : item) : bool :=
  match it with
  | Lit l => all_chars (fun x => negb (Ascii.eqb x c)) l
  | Star k | Plus k => negb (in_class k c)
  | Bol | Eol | GroupOpen | GroupClose => true
  end.

Definition cannot_consume (c : ascii) (items : list item) : bool :=
  forallb (avoids c) items.

(** *** A sample manifest *)

Definition LF : string := String newline "".

Definition quoted (s : string) : string := dquote +:+ s +:+ dquote.

Definition pyproject : string :=
  "[project]" +:+ LF +:+ "name = " +:+ quoted "pdfo" +:+ LF
  +:+ "version = " +:+ quoted "1.2.3" +:+ LF
  +:+ "description = " +:+ quoted "Fast PDF compression" +:+ LF.

Definition pyproject_bumped : string :=
  "[project]" +:+ LF +:+ "name = " +:+ quoted "pdfo" +:+ LF
  +:+ "version = " +:+ quoted "1.3.0" +:+ LF
  +:+ "description = " +:+ quoted "Fast PDF compression" +:+ LF.

Definition world_manifest : World :=
  {| fs := {[ "pyproject.toml" := pyproject ]}; stdout := [] |}.

(** A manifest without a version line, beside the sample one. *)
Definition world_two_files : World :=
  {| fs := {[ "pyproject.toml" := pyproject;
              "other.toml" := "[project]" +:+ LF ]};
     stdout := [] |}.

(** [n] times the digit [c]. *)
Fixpoint digit_run (n : nat) (c : ascii) : string :=
  match n with
  | O => ""
  | S n' => String c (digit_run n' c)
  end.

(** A manifest whose version has a patch component of 4301 digits. *)
Definition pyproject_long : string :=
  "[project]" +:+ LF
  +:+ "version = " +:+ quoted ("1.2." +:+ digit_run 4301 "7") +:+ LF.

Definition world_long_version : World :=
  {| fs := {[ "pyproject.toml" := pyproject_long ]}; stdout := [] |}.

(** A manifest whose version has a patch component of 4300 nines. *)
Definition pyproject_nines : string :=
  "[project]" +:+ LF
  +:+ "version = " +:+ quoted ("1.2." +:+ digit_run 4300 "9") +:+ LF.

Definition world_nines : World :=
  {| fs := {[ "pyproject.toml" := pyproject_nines ]}; stdout := [] |}.

End BumpVersion.

Module Pdfo.

(** *** [pathlib] paths

    A path is the tuple of its parts, as [PurePosixPath.parts] gives it: an
    absolute path starts with the part ["/"]. *)
Abbreviation Path := (list string).

Definition has_anchor (p : Path) : bool :=
  match p with
  | a :: _ => String.eqb a "/"
  | [] => false
  end.

Definition name (p : Path) : string :=
  if (length p =? (if has_anchor p then 1 else 0))%nat then "" else List.last p "".

(** [s.rfind(".")]; [None] stands for -1. *)
Fixpoint rfind_dot (s : string) : option nat :=
  match s with
  | "" => None
  | String c s' =>
      match rfind_dot s' with
      | Some i => Some (S i)
      | None => if Ascii.eqb c "." then Some 0%nat else None
      end
  end.

Definition suffix (p : Path) : string :=
  let n := name p in
  match rfind_dot n with
  | Some i =>
      if (0 <? i)%nat && (i <? String.length n - 1)%nat then drop_str i n else ""
  | None => ""
  end.

Definition stem (p : Path) : string :=
  let n := name p in
  match rfind_dot n with
  | Some i =>
      if (0 <? i)%nat && (i <? String.length n - 1)%nat then take_str i n else n
  | None => n
  end.

Definition parent (p : Path) : Path :=
  if (length p =? 1)%nat && has_anchor p then p else removelast p.

(** [p / child] for a [child] that is one plain component. *)
Definition joinpath (p : Path) (child : string) : Path := p ++ [child].

Fixpoint join_parts (l : list string) : string :=
  match l with
  | [] => ""
  | [a] => a
  | a :: l' => a +:+ "/" +:+ join_parts l'
  end.

Definition path_str (p : Path) : string :=
  match p with
  | [] => "."
  | a :: l => if String.eqb a "/" then "/" +:+ join_parts l else join_parts p
  end.

(** [str.lower] on one character: A..Z and the capital letters of Latin-1. *)
Definition lower_char (c : ascii) : ascii :=
  let n := code c in
  if ((65 <=? n) && (n <=? 90))%nat
     || ((192 <=? n) && (n <=? 222) && negb (n =? 215))%nat
  then ascii_of_nat (n + 32) else c.

Fixpoint lower (s : string) : string :=
  match s with
  | "" => ""
  | String c s' => String (lower_char c) (lower s')
  end.

(** *** The world the program runs in *)

Abbreviation file := (list Byte.byte).

Inductive exn :=
| Exception (msg : string)
| ZeroDivisionError
| FileNotFoundError (what : string)
| CalledProcessError (returncode : Z)
| LibraryError (msg : string)
| SystemExit (code : Z).

(** [except Exception] catches everything but [SystemExit]. *)
Definition is_Exception (e : exn) : bool :=
  match e with
  | SystemExit _ => false
  | _ => true
  end.

(** One [click.echo] call of the program each, with the values its format
    string interpolates; [MsgNoSuchPath] is the usage error that [click]
    itself writes when [INPUT_FILE] names nothing that exists. *)
Inductive message :=
| MsgNoSuchPath (input_file : Path)
| MsgInputNotPdf
| MsgOutputExists (output : Path)
| MsgCompressing (input_name : string)
| MsgMethodGhostscript (quality : Z)
| MsgMethodPypdf
| MsgBefore (input_size : Z)
| MsgSuccess
| MsgAfter (output_size : Z)
| MsgSaved (reduction : pyfloat)
| MsgFile (output : Path)
| MsgError (e : exn).


Inductive backend := Ghostscript | Pypdf.

(** What the program asked of its surroundings, in order. *)
Inductive event :=
| Probe
| Run (b : backend) (input output : Path).

(** The files by path, the messages the program has echoed on the output
    stream and those it has echoed on the error stream ([err=True]), and
    the trace.  A file is known by the spelling of its path: two spellings
    are two files, so links and [..] components are not described.  The
    two lists are what the program itself writes: what a library writes on
    the error stream of the process on its own account (log lines,
    warnings) is not part of them. *)
Record World := {
  fs : gmap Path file;
  stdout : list message;
  stderr : list message;
  trace : list event
}.

Abbreviation prog := (M World exn).

(** How a subprocess ended. *)
Inductive completed :=
| NotFound
| Completed (returncode : Z) (err : string) (files : gmap Path file).

(** What pypdf makes of a document: it fails before the output is opened,
    or fails while writing, or writes the whole document. *)
Inductive rewritten :=
| ReadFails (msg : string)
| WriteFails (msg : string) (partial : file)
| Written (data : file).

(** The surroundings: the status [gs --version] exits with, [None] when
    [gs] cannot be started (a run that leaves the files as they are); what
    running [gs] with a command line does to the files; what pypdf
    produces. *)
Record Host := {
  gs_version : option Z;
  gs_exec : list string -> gmap Path file -> completed;
  pypdf_rewrite : file -> rewritten
}.

Definition set_fs (f : gmap Path file) (w : World) : World :=
  {| fs := f; stdout := stdout w; stderr := stderr w; trace := trace w |}.

Definition log (e : event) : prog unit :=
  fun w => (Return tt,
            {| fs := fs w; stdout := stdout w; stderr := stderr w;
               trace := trace w ++ [e] |}).

Definition echo (m : message) : prog unit :=
  fun w => (Return tt,
            {| fs := fs w; stdout := stdout w ++ [m]; stderr := stderr w;
               trace := trace w |}).

Definition echo_err (m : message) : prog unit :=
  fun w => (Return tt,
            {| fs := fs w; stdout := stdout w; stderr := stderr w ++ [m];
               trace := trace w |}).

Definition sys_exit {A} (code : Z) : prog A := raise (SystemExit code).

Definition st_size (f : file) : Z := Z.of_nat (length f).

(** [path.stat().st_size] *)
Definition stat_size (p : Path) : prog Z :=
  fun w =>
    match fs w !! p with
    | Some f => (Return (st_size f), w)
    | None => (Raise (FileNotFoundError (path_str p)), w)
    end.

(** [path.exists()] *)
Definition path_exists (p : Path) : prog bool :=
  fun w => (Return (bool_decide (is_Some (fs w !! p))), w).

(** *** [compress_with_ghostscript] *)

Definition quality_settings : gmap Z string :=
  {[ 1 := "printer"; 2 := "ebook"; 3 := "screen"; 4 := "screen" ]}.

Definition preset (quality : Z) : string :=
  default "ebook" (quality_settings !! quality).

Definition resolution_flag (quality : Z) : string :=
  if quality >=? 3 then "-dColorImageResolution=150"
  else "-dColorImageResolution=200".

Definition gs_cmd (input_path output_path : Path) (quality : Z) : list string :=
  [ "gs";
    "-sDEVICE=pdfwrite";
    "-dCompatibilityLevel=1.4";
    "-dPDFSETTINGS=/" +:+ preset quality;
    "-dNOPAUSE";
    "-dQUIET";
    "-dBATCH";
    "-dDetectDuplicateImages=true";
    "-dCompressFonts=true";
    "-dDownsampleColorImages=true";
    "-dDownsampleGrayImages=true";
    "-dDownsampleMonoImages=true";
    resolution_flag quality;
    "-sOutputFile=" +:+ path_str output_path;
    path_str input_path ].

Definition subprocess_run (h : Host) (cmd : list string) : prog (Z * string) :=
  fun w =>
    match gs_exec h cmd (fs w) with
    | NotFound => (Raise (FileNotFoundError "gs"), w)
    | Completed rc err f => (Return (rc, err), set_fs f w)
    end.

Definition compress_with_ghostscript (h : Host) (input_path output_path : Path)
    (quality : Z) : prog (Z * Z) :=
  log (Run Ghostscript input_path output_path);;
  '(returncode, err) ← subprocess_run h (gs_cmd input_path output_path quality);
  if negb (returncode =? 0) then raise (Exception ("Ghostscript failed: " +:+ err))
  else
    input_size ← stat_size input_path;
    output_size ← stat_size output_path;
    mret (input_size, output_size).

(** *** [compress_with_pypdf] *)

Definition pdf_rewrite_to (h : Host) (input_path output_path : Path) : prog unit :=
  fun w =>
    match fs w !! input_path with
    | None => (Raise (FileNotFoundError (path_str input_path)), w)
    | Some src =>
        match pypdf_rewrite h src with
        | ReadFails msg => (Raise (LibraryError msg), w)
        | WriteFails msg partial =>
            (Raise (LibraryError msg), set_fs (<[output_path := partial]> (fs w)) w)
        | Written data => (Return tt, set_fs (<[output_path := data]> (fs w)) w)
        end
    end.

Definition compress_with_pypdf (h : Host) (input_path output_path : Path)
    (quality : Z) : prog (Z * Z) :=
  log (Run Pypdf input_path output_path);;
  pdf_rewrite_to h input_path output_path;;
  input_size ← stat_size input_path;
  output_size ← stat_size output_path;
  mret (input_size, output_size).

(** *** [has_ghostscript] and [main] *)

(** [subprocess.run(["gs", "--version"], capture_output=True, check=True)] *)
Definition run_gs_version (h : Host) : prog unit :=
  log Probe;;
  match gs_version h with
  | None => raise (FileNotFoundError "gs")
  | Some returncode =>
      if negb (returncode =? 0) then raise (CalledProcessError returncode)
      else mret tt
  end.

Definition has_ghostscript (h : Host) : prog bool :=
  try_except
    (run_gs_version h;; mret true)
    (fun _ => true)
    (fun _ => mret false).

(** [gs] is present: [gs --version] starts and exits with status 0. *)
Definition gs_present (h : Host) : bool :=
  match gs_version h with
  | Some returncode => returncode =? 0
  | None => false
  end.

(** [a / b] on two [int]s. *)
Definition true_div (a b : Z) : prog pyfloat :=
  if b =? 0 then raise ZeroDivisionError else mret (int_truediv a b).

(** The output path once [main] has given it its default. *)
Definition resolve_output (input_file : Path) (output : option Path) : Path :=
  match output with
  | None =>
      joinpath (parent input_file)
        (stem input_file +:+ "_compressed" +:+ suffix input_file)
  | Some o => o
  end.

Definition main (h : Host) (input_file : Path) (output : option Path)
    (quality : Z) (force no_gs : bool) : prog unit :=
  if negb (String.eqb (lower (suffix input_file)) ".pdf") then
    echo_err MsgInputNotPdf;; sys_exit 1
  else
    let output := resolve_output input_file output in
    output_exists ← path_exists output;
    if output_exists && negb force then
      echo_err (MsgOutputExists output);; sys_exit 1
    else
      gs ← has_ghostscript h;
      let use_gs := gs && negb no_gs in
      echo (MsgCompressing (name input_file));;
      (if use_gs then echo (MsgMethodGhostscript quality) else echo MsgMethodPypdf);;
      input_size ← stat_size input_file;
      echo (MsgBefore input_size);;
      try_except
        ('(input_size_check, output_size) ←
           (if use_gs then compress_with_ghostscript h input_file output quality
            else compress_with_pypdf h input_file output quality);
         quotient ← true_div (input_size - output_size) input_size;
         let reduction := float_mul_int quotient 100 in
         echo MsgSuccess;;
         echo (MsgAfter output_size);;
         echo (MsgSaved reduction);;
         echo (MsgFile output))
        is_Exception
        (fun e => echo_err (MsgError e);; sys_exit 1).

(** The command that [click] makes of [main]: [INPUT_FILE] has the type
    [click.Path(exists=True)], so for a path that names nothing [click]
    writes a usage error and exits with status 2 before [main] is called.
    The other parameters are taken as [click] has parsed them. *)
Definition command (h : Host) (input_file : Path) (output : option Path)
    (quality : Z) (force no_gs : bool) : prog unit :=
  input_exists ← path_exists input_file;
  if negb input_exists then
    echo_err (MsgNoSuchPath input_file);; sys_exit 2
  else main h input_file output quality force no_gs.

(** The status the process ends with. *)
Definition exit_code (r : outcome exn unit) : Z :=
  match r with
  | Return _ => 0
  | Raise (SystemExit c) => c
  | Raise _ => 1
  end.

(** *** Sample surroundings and requests *)

Definition doc_pdf : Path := ["doc.pdf"].
Definition doc_compressed_pdf : Path := ["doc_compressed.pdf"].

(** A host where [gs] is installed and always writes the same four bytes to
    [doc_compressed.pdf], and where pypdf writes its input back. *)
Definition host_gs : Host :=
  {| gs_version := Some 0;
     gs_exec := fun _ f =>
       Completed 0 "" (<[doc_compressed_pdf := [Byte.x25; Byte.x50; Byte.x44; Byte.x46]]> f);
     pypdf_rewrite := fun src => Written src |}.

Definition world_of (f : gmap Path file) : World :=
  {| fs := f; stdout := []; stderr := []; trace := [] |}.

(** [doc.pdf] is an empty file. *)
Definition world_empty_input : World := world_of {[ doc_pdf := [] ]}.

(** [doc.pdf] holds two bytes. *)
Definition world_small_input : World :=
  world_of {[ doc_pdf := [Byte.x25; Byte.x50] ]}.

(** A host where [gs] is installed but exits with status 1 on every
    document, leaving the files as they are. *)
Definition host_gs_fails : Host :=
  {| gs_version := Some 0;
     gs_exec := fun _ f => Completed 1 "Error: /undefinedfilename" f;
     pypdf_rewrite := fun src => Written src |}.

(** A host where [gs] exits with status 0 and writes nothing. *)
Definition host_gs_silent : Host :=
  {| gs_version := Some 0;
     gs_exec := fun _ f => Completed 0 "" f;
     pypdf_rewrite := fun src => Written src |}.

(** A host without [gs], where pypdf keeps the first byte of a document. *)
Definition host_pypdf : Host :=
  {| gs_version := None;
     gs_exec := fun _ _ => NotFound;
     pypdf_rewrite := fun src => Written (take 1 src) |}.

(** A host without [gs], where pypdf cannot read any document. *)
Definition host_pypdf_broken : Host :=
  {| gs_version := None;
     gs_exec := fun _ _ => NotFound;
     pypdf_rewrite := fun _ => ReadFails "EOF marker not found" |}.

(** [doc.pdf] holds two bytes and [doc_compressed.pdf] is there already. *)
Definition world_output_there : World :=
  world_of {[ doc_pdf := [Byte.x25; Byte.x50]; doc_compressed_pdf := [Byte.x00] ]}.

(** [scan.PDF] holds two bytes. *)
Definition world_upper_case : World :=
  world_of {[ ["scan.PDF"] := [Byte.x25; Byte.x50] ]}.

(** [notes.txt] holds one byte and [doc_compressed.pdf] is there already. *)
Definition world_text_input : World :=
  world_of {[ ["notes.txt"] := [Byte.x25]; doc_compressed_pdf := [Byte.x00] ]}.



End Pdfo.

(** * Properties of [scripts/bump_version.py] *)

Module BumpVersionSpec.
Import BumpVersion.

#[local] Arguments String.append !_ _ : simpl nomatch.

(** ** Sample runs *)

Example search_finds_version :
  option_map (fun m => (m_start m, group1 m)) (re_search VERSION_RE pyproject)
  = Some (24%nat, "1.2.3").
Proof. vm_compute. reflexivity. Qed.

Example search_needs_a_whole_line :
  re_search VERSION_RE ("my_version = " +:+ quoted "1.2.3") = None
  /\ re_search VERSION_RE (version_line "1.2" +:+ LF) = None
  /\ re_search VERSION_RE (version_line "1.2.3" +:+ " # comment") = None.
Proof. repeat split; vm_compute; reflexivity. Qed.

(** The white space that [\s*$] takes after the closing quote is part of
    the match, so a newline that ends the text goes with it. *)
Example subn_takes_trailing_space :
  re_subn1 VERSION_RE (version_line "1.3.0") (version_line "1.2.3" +:+ LF)
  = (version_line "1.3.0", 1).
Proof. vm_compute. reflexivity. Qed.

Example bump_version_samples :
  bump_version "1.2.3" "major" = Return "2.0.0"
  /\ bump_version "1.2.3" "minor" = Return "1.3.0"
  /\ bump_version "1.2.3" "patch" = Return "1.2.4"
  /\ bump_version "1.02.9" "patch" = Return "1.2.10"
  /\ bump_version "9.9.9" "major" = Return "10.0.0"
  /\ bump_version "1.2" "patch" = Raise (ValueError_unpack 2)
  /\ bump_version "1.2.x" "patch" = Raise (ValueError_int "x")
  /\ bump_version (String (ascii_of_nat 28) "1.2.3") "patch"
     = Raise (ValueError_int (String (ascii_of_nat 28) "1"))
  /\ bump_version "1.2.3" "build" = Raise (ValueError "Unknown bump type: build").
Proof. repeat split; vm_compute; reflexivity. Qed.

(** Beyond 4300 digits [int()] refuses to read a component and [str()] to
    print one: the script then fails after the version line is found,
    before anything is written. *)
Example bump_refuses_too_many_digits :
  main {| file := "pyproject.toml"; bump := Some Major; current := false |}
    world_long_version
  = (Raise (ValueError_int (digit_run 4301 "7")), world_long_version)
  /\ main {| file := "pyproject.toml"; bump := Some Patch; current := false |}
       world_nines
     = (Raise ValueError_str, world_nines)
  /\ fst (main {| file := "pyproject.toml"; bump := Some Minor; current := false |}
            world_nines)
     = Return 0.
Proof. repeat split; vm_compute; reflexivity. Qed.

Example bump_is_required :
  fst (main {| file := "pyproject.toml"; bump := None; current := false |}
         world_manifest)
  = Raise (SystemExit "--bump is required unless --current is set").
Proof. vm_compute. reflexivity. Qed.

(** ** Strings *)

Lemma app_str_nil_r (s : string) : s +:+ "" = s.
Proof. induction s as [| c s IH]; simpl; [reflexivity | rewrite IH; reflexivity]. Qed.

Lemma app_str_assoc (a b c : string) : (a +:+ b) +:+ c = a +:+ b +:+ c.
Proof. induction a as [| x a IH]; simpl; [reflexivity | rewrite IH; reflexivity]. Qed.

Lemma take_app_str (pre s : string) : take_str (String.length pre) (pre +:+ s) = pre.
Proof. induction pre as [| c pre IH]; simpl; [destruct s | rewrite IH]; reflexivity. Qed.

Lemma drop_app_str (pre s : string) : drop_str (String.length pre) (pre +:+ s) = s.
Proof. induction pre as [| c pre IH]; simpl; [destruct s; reflexivity | exact IH]. Qed.

Lemma take_drop_str (n : nat) (s : string) : take_str n s +:+ drop_str n s = s.
Proof.
  revert s. induction n as [| n IH]; intros [| c s]; simpl; try reflexivity.
  rewrite IH. reflexivity.
Qed.

Lemma drop_drop_str (n m : nat) (s : string) :
  drop_str (n + m) s = drop_str m (drop_str n s).
Proof.
  revert s. induction n as [| n IH]; intros s; simpl.
  - reflexivity.
  - destruct s as [| c s]; simpl; [destruct m; reflexivity | apply IH].
Qed.

Lemma all_chars_app (cls : ascii -> bool) (a b : string) :
  all_chars cls (a +:+ b) = all_chars cls a && all_chars cls b.
Proof.
  induction a as [| c a IH]; simpl; [reflexivity |].
  rewrite IH, andb_assoc. reflexivity.
Qed.

Lemma all_chars_impl (p q : ascii -> bool) (s : string) :
  (forall c, p c = true -> q c = true) ->
  all_chars p s = true -> all_chars q s = true.
Proof.
  intros Hpq. induction s as [| c s IH]; simpl; [reflexivity |].
  intros H. apply andb_true_iff in H as [Hc Hs].
  rewrite (Hpq c Hc), (IH Hs). reflexivity.
Qed.

Lemma last_char_app (a b : string) (prev : option ascii) :
  last_char (a +:+ b) prev = last_char b (last_char a prev).
Proof. revert prev. induction a as [| c a IH]; intros prev; simpl; [reflexivity | apply IH]. Qed.

(** ** The matcher consumes what the pattern allows *)

Lemma strip_prefix_sound (p s r : string) : strip_prefix p s = Some r -> s = p +:+ r.
Proof.
  revert s. induction p as [| a p IH]; intros s; simpl.
  - intros H. injection H as ->. reflexivity.
  - destruct s as [| b s]; [discriminate |].
    destruct (Ascii.eqb_spec a b) as [-> | Hne]; [| discriminate].
    intros H. rewrite (IH s H). reflexivity.
Qed.

Lemma cons_piece_Some (p : string) (r : option (list string)) (ps : list string) :
  cons_piece p r = Some ps -> exists ps', r = Some ps' /\ ps = p :: ps'.
Proof. destruct r as [ps' |]; simpl; intros H; [| discriminate]. injection H as <-. eauto. Qed.

Lemma grow_piece_Some (c : ascii) (r : option (list string)) (ps : list string) :
  grow_piece c r = Some ps ->
  exists p ps', r = Some (p :: ps') /\ ps = String c p :: ps'.
Proof.
  destruct r as [[| p ps'] |]; simpl; intros H; try discriminate.
  injection H as <-. eauto.
Qed.

Lemma match_star_sound (k : option ascii -> string -> option (list string))
    (cls : ascii -> bool) (s : string) :
  forall (prev : option ascii) (r : list string),
    match_star k cls prev s = Some r ->
    exists p ps rest,
      r = p :: ps /\ all_chars cls p = true /\ s = p +:+ rest
      /\ k (last_char p prev) rest = Some ps.
Proof.
  induction s as [| c s IH]; intros prev r; simpl.
  - intros H. apply cons_piece_Some in H as (ps & Hk & ->).
    exists "", ps, "". auto.
  - assert (Hstop : cons_piece "" (k prev (String c s)) = Some r ->
                    exists p ps rest,
                      r = p :: ps /\ all_chars cls p = true
                      /\ String c s = p +:+ rest
                      /\ k (last_char p prev) rest = Some ps).
    { intros H. apply cons_piece_Some in H as (ps & Hk & ->).
      exists "", ps, (String c s). auto. }
    destruct (cls c) eqn:Hc; [| exact Hstop].
    destruct (grow_piece c (match_star k cls (Some c) s)) as [r' |] eqn:Hgrow;
      [| exact Hstop].
    intros H. injection H as <-.
    apply grow_piece_Some in Hgrow as (p & ps & Hstar & ->).
    destruct (IH (Some c) (p :: ps) Hstar) as (p' & ps' & rest & Heq & Hall & -> & Hk).
    injection Heq as <- <-.
    exists (String c p), ps, rest. simpl. rewrite Hc, Hall. auto.
Qed.

Lemma match_items_sound (items : list item) :
  forall (prev : option ascii) (s : string) (ps : list string),
    match_items items prev s = Some ps ->
    Forall2 piece_ok items ps /\ exists rest, s = concat_str ps +:+ rest.
Proof.
  induction items as [| it tl IH]; intros prev s ps; simpl.
  - intros H. injection H as <-. split; [constructor | exists s; reflexivity].
  - destruct it as [| | l | k | k | |].
    + destruct (at_bol prev); [| discriminate].
      intros H. apply cons_piece_Some in H as (ps' & Hk & ->).
      destruct (IH _ _ _ Hk) as (Hok & rest & ->).
      split; [constructor; [reflexivity | exact Hok] | exists rest; reflexivity].
    + destruct (at_eol s); [| discriminate].
      intros H. apply cons_piece_Some in H as (ps' & Hk & ->).
      destruct (IH _ _ _ Hk) as (Hok & rest & ->).
      split; [constructor; [reflexivity | exact Hok] | exists rest; reflexivity].
    + destruct (strip_prefix l s) as [r |] eqn:Hl; [| discriminate].
      intros H. apply cons_piece_Some in H as (ps' & Hk & ->).
      apply strip_prefix_sound in Hl as ->.
      destruct (IH _ _ _ Hk) as (Hok & rest & ->).
      split; [constructor; [reflexivity | exact Hok] |].
      exists rest. simpl. rewrite app_str_assoc. reflexivity.
    + intros H. apply match_star_sound in H as (p & ps' & r & -> & Hall & -> & Hk).
      destruct (IH _ _ _ Hk) as (Hok & rest & ->).
      split; [constructor; [exact Hall | exact Hok] |].
      exists rest. simpl. rewrite app_str_assoc. reflexivity.
    + destruct s as [| c s]; [discriminate |].
      destruct (in_class k c) eqn:Hc; [| discriminate].
      intros H. apply grow_piece_Some in H as (p & ps' & Hstar & ->).
      apply match_star_sound in Hstar as (p' & ps'' & r & Heq & Hall & -> & Hk).
      injection Heq as <- <-.
      destruct (IH _ _ _ Hk) as (Hok & rest & ->).
      split.
      * constructor; [| exact Hok]. simpl. rewrite Hc, Hall. split; [discriminate | reflexivity].
      * exists rest. simpl. rewrite app_str_assoc. reflexivity.
    + intros H. apply cons_piece_Some in H as (ps' & Hk & ->).
      destruct (IH _ _ _ Hk) as (Hok & rest & ->).
      split; [constructor; [reflexivity | exact Hok] | exists rest; reflexivity].
    + intros H. apply cons_piece_Some in H as (ps' & Hk & ->).
      destruct (IH _ _ _ Hk) as (Hok & rest & ->).
      split; [constructor; [reflexivity | exact Hok] | exists rest; reflexivity].
Qed.

Lemma search_from_sound (items : list item) (s : string) :
  forall (prev : option ascii) (pos : nat) (m : Match),
    search_from items prev s pos = Some m ->
    Forall2 piece_ok items (m_pieces m)
    /\ exists pre rest,
         s = pre +:+ matched m +:+ rest
         /\ m_start m = (pos + String.length pre)%nat.
Proof.
  induction s as [| c s IH]; intros prev pos m; simpl.
  - destruct (match_items items prev "") as [ps |] eqn:Hm; [| discriminate].
    intros H. injection H as <-. simpl.
    destruct (match_items_sound _ _ _ _ Hm) as (Hok & rest & Hs).
    split; [exact Hok |]. exists "", rest. simpl. split; [exact Hs | lia].
  - destruct (match_items items prev (String c s)) as [ps |] eqn:Hm.
    + intros H. injection H as <-. simpl.
      destruct (match_items_sound _ _ _ _ Hm) as (Hok & rest & Hs).
      split; [exact Hok |]. exists "", rest. simpl. split; [exact Hs | lia].
    + intros H. destruct (IH _ _ _ H) as (Hok & pre & rest & -> & Hstart).
      split; [exact Hok |]. exists (String c pre), rest. simpl.
      split; [reflexivity | lia].
Qed.

Lemma is_digits_plus (p : string) :
  p <> "" /\ all_chars is_digit p = true -> is_digits p = true.
Proof. intros [Hne Hall]. destruct p; [contradiction | exact Hall]. Qed.

(** A match of [VERSION_RE]: the matched text is a version line and the
    group is three decimal components separated by dots. *)
Lemma version_match_shape (text : string) (m : Match) :
  re_search VERSION_RE text = Some m ->
  exists pre post ws1 ws2 ws3 X Y Z : string,
    text = pre +:+ matched m +:+ post
    /\ m_start m = String.length pre
    /\ matched m
       = "version" +:+ ws1 +:+ "=" +:+ ws2 +:+ dquote
         +:+ (X +:+ "." +:+ Y +:+ "." +:+ Z) +:+ dquote +:+ ws3
    /\ group1 m = X +:+ "." +:+ Y +:+ "." +:+ Z
    /\ all_chars is_space ws1 = true
    /\ all_chars is_space ws2 = true
    /\ all_chars is_space ws3 = true
    /\ is_digits X = true /\ is_digits Y = true /\ is_digits Z = true.
Proof.
  intros Hsearch. unfold re_search in Hsearch.
  apply search_from_sound in Hsearch as (Hok & pre & post & Htext & Hstart).
  exists pre, post.
  unfold matched, group1 in *. destruct m as [st ps]; simpl in *.
  unfold VERSION_RE in *.
  repeat match goal with
         | H : Forall2 _ (_ :: _) _ |- _ => inversion H; clear H; subst
         | H : Forall2 _ [] _ |- _ => inversion H; clear H; subst
         end.
  unfold piece_ok in *. subst.
  repeat match goal with
         | H : _ <> "" /\ _ |- _ => apply is_digits_plus in H
         end.
  match goal with
  | |- context [concat_str [""; "version"; ?w1; "="; ?w2; _; ""; ?X; "."; ?Y; "."; ?Z; ""; _; ?w3; ""]] =>
      exists w1, w2, w3, X, Y, Z
  end.
  split; [reflexivity |]. split; [simpl in *; lia |].
  split.
  { repeat (progress (simpl; rewrite ?app_str_assoc, ?app_str_nil_r)). reflexivity. }
  split.
  { repeat (progress (simpl; rewrite ?app_str_assoc, ?app_str_nil_r)). reflexivity. }
  auto 10.
Qed.

(** ** [int()] and [split] on decimal components *)

Lemma digit_char (c : ascii) :
  is_digit c = true ->
  is_space c = false
  /\ Ascii.eqb c "." = false /\ Ascii.eqb c "+" = false
  /\ Ascii.eqb c "-" = false /\ 0 <= digit_value c <= 9.
Proof.
  destruct c as [[] [] [] [] [] [] [] []]; vm_compute; intros H;
    first [discriminate H | repeat split; discriminate].
Qed.

Lemma digit_not_int_space (c : ascii) : is_digit c = true -> int_space c = false.
Proof.
  destruct c as [[] [] [] [] [] [] [] []]; vm_compute; intros H;
    first [discriminate H | reflexivity].
Qed.

Lemma split_on_plain (sep : ascii) (X : string) :
  all_chars (fun c => negb (Ascii.eqb c sep)) X = true -> split_on sep X = [X].
Proof.
  induction X as [| c X IH]; simpl; [reflexivity |].
  intros H. apply andb_true_iff in H as [Hc HX].
  apply negb_true_iff in Hc. rewrite Hc, (IH HX). reflexivity.
Qed.

Lemma split_on_app (sep : ascii) (X rest : string) :
  all_chars (fun c => negb (Ascii.eqb c sep)) X = true ->
  split_on sep (X +:+ String sep rest) = X :: split_on sep rest.
Proof.
  induction X as [| c X IH]; simpl.
  - intros _. rewrite Ascii.eqb_refl. reflexivity.
  - intros H. apply andb_true_iff in H as [Hc HX].
    apply negb_true_iff in Hc. rewrite Hc, (IH HX). reflexivity.
Qed.

Lemma digits_no_dot (X : string) :
  all_chars is_digit X = true ->
  all_chars (fun c => negb (Ascii.eqb c ".")) X = true.
Proof.
  apply all_chars_impl. intros c Hc.
  destruct (digit_char c Hc) as (_ & -> & _). reflexivity.
Qed.

Lemma is_digits_all (X : string) : is_digits X = true -> all_chars is_digit X = true.
Proof. destruct X; [discriminate | auto]. Qed.

Lemma split_version (X Y Z : string) :
  is_digits X = true -> is_digits Y = true -> is_digits Z = true ->
  split_on "." (X +:+ "." +:+ Y +:+ "." +:+ Z) = [X; Y; Z].
Proof.
  intros HX HY HZ.
  apply is_digits_all, digits_no_dot in HX, HY, HZ.
  change ("." +:+ Y +:+ "." +:+ Z) with (String "." (Y +:+ String "." Z)).
  rewrite (split_on_app _ _ _ HX), (split_on_app _ _ _ HY), (split_on_plain _ _ HZ).
  reflexivity.
Qed.

Lemma lstrip_digits (X : string) : is_digits X = true -> lstrip X = X.
Proof.
  destruct X as [| c X]; [discriminate |]. simpl. intros H.
  apply andb_true_iff in H as [Hc _].
  rewrite (digit_not_int_space c Hc). reflexivity.
Qed.

Lemma rstrip_digits (X : string) : all_chars is_digit X = true -> rstrip X = X.
Proof.
  induction X as [| c X IH]; simpl; [reflexivity |].
  intros H. apply andb_true_iff in H as [Hc HX]. rewrite (IH HX).
  rewrite (digit_not_int_space c Hc). destruct X; reflexivity.
Qed.

Lemma count_digits_all (X : string) :
  all_chars is_digit X = true -> count_digits X = String.length X.
Proof.
  induction X as [| c X IH]; simpl; [reflexivity |].
  intros H. apply andb_true_iff in H as [Hc HX].
  rewrite Hc, (IH HX). reflexivity.
Qed.

Lemma parse_digits_cons (c : ascii) (s : string) (acc : Z) :
  is_digit c = true ->
  parse_digits (String c s) acc = parse_digits s (10 * acc + digit_value c).
Proof. intros Hc. simpl. rewrite Hc. reflexivity. Qed.

(** On a run of digits, [int()] computes the number the run denotes. *)
Lemma parse_digits_value (s : string) :
  all_chars is_digit s = true ->
  forall acc, parse_digits s acc = Some (digits_value_from acc s).
Proof.
  induction s as [| c s IH]; intros Hall acc; [reflexivity |].
  simpl in Hall. apply andb_true_iff in Hall as [Hc Hs].
  rewrite (parse_digits_cons c s acc Hc). apply (IH Hs).
Qed.

Lemma digits_value_from_nonneg (s : string) :
  all_chars is_digit s = true ->
  forall acc, 0 <= acc -> 0 <= digits_value_from acc s.
Proof.
  induction s as [| c s IH]; intros Hall acc Hacc; [exact Hacc |].
  simpl in Hall. apply andb_true_iff in Hall as [Hc Hs].
  destruct (digit_char c Hc) as (_ & _ & _ & _ & Hv).
  simpl. apply (IH Hs). lia.
Qed.

Lemma digits_value_nonneg (X : string) :
  is_digits X = true -> 0 <= digits_value X.
Proof.
  intros HX. apply digits_value_from_nonneg; [apply is_digits_all; exact HX | lia].
Qed.

(** On a decimal component within the limit, [int()] has nothing to strip
    and no sign to read. *)
Lemma py_int_unsigned (X : string) :
  is_digits X = true ->
  (String.length X <= max_str_digits)%nat ->
  py_int X = parse_unsigned X.
Proof.
  intros HX Hlen. unfold py_int. cbv zeta.
  rewrite (lstrip_digits X HX), (rstrip_digits X (is_digits_all X HX)).
  rewrite (count_digits_all X (is_digits_all X HX)).
  destruct (Nat.ltb_spec max_str_digits (String.length X)) as [Hlt | _]; [lia |].
  destruct X as [| c X]; [discriminate |].
  simpl in HX. apply andb_true_iff in HX as [Hc _].
  destruct (digit_char c Hc) as (_ & _ & -> & -> & _). reflexivity.
Qed.

(** [int()] refuses a decimal component beyond the limit. *)
Lemma py_int_long (X : string) :
  is_digits X = true ->
  (max_str_digits < String.length X)%nat ->
  py_int X = None.
Proof.
  intros HX Hlen. unfold py_int. cbv zeta.
  rewrite (lstrip_digits X HX), (rstrip_digits X (is_digits_all X HX)).
  rewrite (count_digits_all X (is_digits_all X HX)).
  destruct (Nat.ltb_spec max_str_digits (String.length X)) as [_ | Hge]; [reflexivity | lia].
Qed.

Lemma py_int_digits (X : string) :
  is_digits X = true ->
  (String.length X <= max_str_digits)%nat ->
  py_int X = Some (digits_value X).
Proof.
  intros HX Hlen. rewrite (py_int_unsigned X HX Hlen).
  destruct X as [| c X]; [discriminate |].
  simpl in HX. apply andb_true_iff in HX as [Hc HX].
  unfold parse_unsigned. rewrite Hc.
  rewrite (parse_digits_value X HX). reflexivity.
Qed.

(** ** [int()] reads back what [str()] prints *)

Lemma uint_digits (d : uint) :
  all_chars is_digit (NilEmpty.string_of_uint d) = true.
Proof. induction d as [| d IH | d IH | d IH | d IH | d IH | d IH | d IH | d IH | d IH | d IH];
  simpl; [reflexivity | rewrite IH; reflexivity ..].
Qed.

Ltac digit_step IH :=
  rewrite parse_digits_cons by reflexivity;
  match goal with
  | |- context [digit_value ?c] =>
      let v := eval vm_compute in (digit_value c) in
      change (digit_value c) with v
  end;
  rewrite <- IH; f_equal; lia.

Lemma parse_digits_acc (d : uint) :
  forall acc : positive,
    parse_digits (NilEmpty.string_of_uint d) (Z.pos acc)
    = Some (Z.pos (Pos.of_uint_acc d acc)).
Proof.
  induction d as [| d IH | d IH | d IH | d IH | d IH | d IH | d IH | d IH | d IH | d IH];
    intros acc; simpl NilEmpty.string_of_uint; simpl Pos.of_uint_acc;
    [reflexivity | digit_step IH ..].
Qed.

Lemma parse_digits_zero (d : uint) :
  parse_digits (NilEmpty.string_of_uint d) 0 = Some (Z.of_uint d).
Proof.
  induction d as [| d IH | d IH | d IH | d IH | d IH | d IH | d IH | d IH | d IH | d IH];
    simpl NilEmpty.string_of_uint;
    [reflexivity
    | rewrite parse_digits_cons by reflexivity; exact IH
    | rewrite parse_digits_cons by reflexivity; apply parse_digits_acc ..].
Qed.

Lemma uint_roundtrip (d : uint) :
  is_digits (NilZero.string_of_uint d) = true
  /\ parse_unsigned (NilZero.string_of_uint d) = Some (Z.of_uint d).
Proof.
  destruct d as [| d | d | d | d | d | d | d | d | d | d];
    (split;
     [ try reflexivity; simpl; rewrite uint_digits; reflexivity
     | try reflexivity ]).
  - apply (parse_digits_zero d).
  - apply (parse_digits_acc d 1).
  - apply (parse_digits_acc d 2).
  - apply (parse_digits_acc d 3).
  - apply (parse_digits_acc d 4).
  - apply (parse_digits_acc d 5).
  - apply (parse_digits_acc d 6).
  - apply (parse_digits_acc d 7).
  - apply (parse_digits_acc d 8).
  - apply (parse_digits_acc d 9).
Qed.

Lemma fits_length (n : Z) :
  0 <= n -> fits n = true -> (String.length (str_of_Z n) <= max_str_digits)%nat.
Proof.
  intros Hn Hfit. unfold fits in Hfit. rewrite Z.abs_eq in Hfit by exact Hn.
  apply Nat.leb_le. exact Hfit.
Qed.

Lemma str_of_Z_roundtrip (n : Z) :
  0 <= n -> fits n = true ->
  is_digits (str_of_Z n) = true /\ py_int (str_of_Z n) = Some n.
Proof.
  intros Hn Hfit. pose proof (fits_length n Hn Hfit) as Hlen. revert Hlen.
  unfold str_of_Z.
  assert (Hd : exists d, Z.to_int n = Pos d) by (destruct n; simpl; eauto; lia).
  destruct Hd as [d Hd].
  pose proof (DecimalZ.of_to n) as Hback. rewrite Hd in Hback |- *. simpl in Hback.
  simpl NilZero.string_of_int. intros Hlen.
  destruct (uint_roundtrip d) as [Hdig Hparse].
  split; [exact Hdig |].
  rewrite (py_int_unsigned _ Hdig Hlen), Hparse, Hback. reflexivity.
Qed.

(** ** [str()] prints no more digits than the literal [int()] has read *)

Lemma digits_uint (X : string) :
  all_chars is_digit X = true -> exists d, NilEmpty.string_of_uint d = X.
Proof.
  induction X as [| c X IH]; [exists Nil; reflexivity |].
  simpl. intros H. apply andb_true_iff in H as [Hc HX].
  destruct (IH HX) as [d <-]. revert Hc.
  destruct c as [[] [] [] [] [] [] [] []]; vm_compute; intros Hc;
    try discriminate Hc;
    first [ exists (D0 d); reflexivity | exists (D1 d); reflexivity
          | exists (D2 d); reflexivity | exists (D3 d); reflexivity
          | exists (D4 d); reflexivity | exists (D5 d); reflexivity
          | exists (D6 d); reflexivity | exists (D7 d); reflexivity
          | exists (D8 d); reflexivity | exists (D9 d); reflexivity ].
Qed.

Lemma length_string_of_uint (d : uint) :
  String.length (NilEmpty.string_of_uint d) = nb_digits d.
Proof.
  induction d as [| d IH | d IH | d IH | d IH | d IH | d IH | d IH | d IH | d IH | d IH];
    simpl; [reflexivity | rewrite IH; reflexivity ..].
Qed.

Lemma digits_value_uint (d : uint) :
  digits_value (NilEmpty.string_of_uint d) = Z.of_uint d.
Proof.
  pose proof (parse_digits_zero d) as H.
  rewrite (parse_digits_value _ (uint_digits d)) in H.
  injection H as H. exact H.
Qed.

Lemma str_of_Z_of_uint (d : uint) :
  str_of_Z (Z.of_uint d) = NilZero.string_of_uint (unorm d).
Proof.
  unfold str_of_Z. change (Z.of_uint d) with (Z.of_int (Pos d)).
  rewrite DecimalZ.to_of. reflexivity.
Qed.

Lemma length_str_of_digits (X : string) :
  is_digits X = true ->
  (String.length (str_of_Z (digits_value X)) <= String.length X)%nat.
Proof.
  intros HX. destruct (digits_uint X (is_digits_all X HX)) as [d Hd].
  subst X. rewrite digits_value_uint, str_of_Z_of_uint, length_string_of_uint.
  assert (Hnil : d <> Nil) by (intros ->; discriminate HX).
  pose proof (nb_digits_unorm d Hnil) as Hle.
  assert (H1 : (1 <= nb_digits d)%nat) by (destruct d; simpl; [contradiction | lia ..]).
  unfold NilZero.string_of_uint.
  destruct (unorm d) as [| u | u | u | u | u | u | u | u | u | u];
    [simpl; exact H1 | rewrite length_string_of_uint; exact Hle ..].
Qed.

Lemma fits_digits_value (X : string) :
  is_digits X = true ->
  (String.length X <= max_str_digits)%nat ->
  fits (digits_value X) = true.
Proof.
  intros HX Hlen. unfold fits.
  rewrite Z.abs_eq by (apply digits_value_nonneg; exact HX).
  apply Nat.leb_le. pose proof (length_str_of_digits X HX). lia.
Qed.

(** ** [bump_version] on three decimal components *)

Lemma int_digits (X : string) :
  is_digits X = true ->
  (String.length X <= max_str_digits)%nat ->
  int_ X = Return (digits_value X).
Proof. intros HX Hlen. unfold int_. rewrite (py_int_digits X HX Hlen). reflexivity. Qed.

Lemma int_long (X : string) :
  is_digits X = true ->
  (max_str_digits < String.length X)%nat ->
  int_ X = Raise (ValueError_int X).
Proof. intros HX Hlen. unfold int_. rewrite (py_int_long X HX Hlen). reflexivity. Qed.

Lemma py_str_fits (n : Z) : fits n = true -> py_str n = Return (str_of_Z n).
Proof. intros H. unfold py_str. rewrite H. reflexivity. Qed.

Lemma py_str_zero : py_str 0 = Return "0".
Proof. vm_compute. reflexivity. Qed.

Lemma format_version_fits (x y z : Z) :
  fits x = true -> fits y = true -> fits z = true ->
  format_version x y z
  = Return (str_of_Z x +:+ "." +:+ str_of_Z y +:+ "." +:+ str_of_Z z).
Proof.
  intros Hx Hy Hz. unfold format_version, mbind, outcome_bind.
  rewrite (py_str_fits x Hx), (py_str_fits y Hy), (py_str_fits z Hz). reflexivity.
Qed.

(** What [format_version] returns, when it returns. *)
Lemma format_version_Return (x y z : Z) (s : string) :
  format_version x y z = Return s ->
  fits x = true /\ fits y = true /\ fits z = true
  /\ s = str_of_Z x +:+ "." +:+ str_of_Z y +:+ "." +:+ str_of_Z z.
Proof.
  unfold format_version, py_str, mbind, outcome_bind.
  destruct (fits x); [| discriminate].
  destruct (fits y); [| discriminate].
  destruct (fits z); [| discriminate].
  intros H. injection H as <-. auto.
Qed.

(** When [format_version] raises, it is [str()] that has refused. *)
Lemma format_version_Raise (x y z : Z) (e : exn) :
  format_version x y z = Raise e ->
  e = ValueError_str /\ fits x && fits y && fits z = false.
Proof.
  unfold format_version, py_str, mbind, outcome_bind.
  destruct (fits x); [| intros H; injection H as <-; auto].
  destruct (fits y); [| intros H; injection H as <-; auto].
  destruct (fits z); [discriminate | intros H; injection H as <-; auto].
Qed.

(** On three decimal components, [bump_version] converts them in turn and
    formats the three numbers the bump gives. *)
Lemma bump_version_digits (b : bump_choice) (X Y Z : string) :
  is_digits X = true -> is_digits Y = true -> is_digits Z = true ->
  bump_version (X +:+ "." +:+ Y +:+ "." +:+ Z) (choice_name b)
  = (x ← int_ X; y ← int_ Y; z ← int_ Z;
     let '(major, minor, patch) := bumped_numbers b x y z in
     format_version major minor patch).
Proof.
  intros HX HY HZ. unfold bump_version.
  rewrite (split_version X Y Z HX HY HZ).
  unfold unpack3, mbind, outcome_bind.
  destruct (int_ X); [| reflexivity].
  destruct (int_ Y); [| reflexivity].
  destruct (int_ Z); [| reflexivity].
  destruct b; reflexivity.
Qed.

Lemma format_bumped (b : bump_choice) (x y z : Z) :
  fits x = true -> fits y = true -> fits z = true ->
  fits (bumped_component b x y z + 1) = true ->
  (let '(major, minor, patch) := bumped_numbers b x y z in
   format_version major minor patch) = Return (bumped b x y z).
Proof.
  intros Hx Hy Hz Hb. destruct b; simpl in *.
  - rewrite (format_version_fits (x + 1) 0 0 Hb eq_refl eq_refl). reflexivity.
  - rewrite (format_version_fits x (y + 1) 0 Hx Hb eq_refl). reflexivity.
  - rewrite (format_version_fits x y (z + 1) Hx Hy Hb). reflexivity.
Qed.

Lemma format_bumped_refused (b : bump_choice) (x y z : Z) :
  fits (bumped_component b x y z + 1) = false ->
  exists e,
    (let '(major, minor, patch) := bumped_numbers b x y z in
     format_version major minor patch) = Raise e
    /\ e = ValueError_str.
Proof.
  intros Hb.
  assert (H : forall a b' c, fits a && fits b' && fits c = false ->
                exists e, format_version a b' c = Raise e /\ e = ValueError_str).
  { intros a b' c Hf. destruct (format_version a b' c) as [s | e] eqn:Hfmt.
    - apply format_version_Return in Hfmt as (Ha & Hb' & Hc & _).
      rewrite Ha, Hb', Hc in Hf. discriminate Hf.
    - exists e. split; [reflexivity |]. apply (format_version_Raise _ _ _ _ Hfmt). }
  destruct b; simpl in *; apply H; rewrite Hb; simpl;
    rewrite ?andb_false_r; reflexivity.
Qed.

(** What [bump_version] gives on three decimal components: within the
    limits on digits, the version the specification asks for; beyond them,
    the [ValueError] of [int()] or of [str()]. *)
Lemma bump_version_components (b : bump_choice) (X Y Z : string) :
  is_digits X = true -> is_digits Y = true -> is_digits Z = true ->
  let x := digits_value X in
  let y := digits_value Y in
  let z := digits_value Z in
  if within_limits b X Y Z then
    bump_version (X +:+ "." +:+ Y +:+ "." +:+ Z) (choice_name b)
    = Return (bumped b x y z)
  else
    exists e,
      (e = ValueError_str \/ exists literal, e = ValueError_int literal)
      /\ bump_version (X +:+ "." +:+ Y +:+ "." +:+ Z) (choice_name b) = Raise e.
Proof.
  intros HX HY HZ x y z.
  rewrite (bump_version_digits b X Y Z HX HY HZ).
  unfold within_limits. fold x y z.
  unfold mbind, outcome_bind.
  destruct (Nat.leb_spec (String.length X) max_str_digits) as [HlX | HlX]; simpl.
  2:{ rewrite (int_long X HX HlX). eexists. split; [right; eauto | reflexivity]. }
  rewrite (int_digits X HX HlX).
  destruct (Nat.leb_spec (String.length Y) max_str_digits) as [HlY | HlY]; simpl.
  2:{ rewrite (int_long Y HY HlY). eexists. split; [right; eauto | reflexivity]. }
  rewrite (int_digits Y HY HlY).
  destruct (Nat.leb_spec (String.length Z) max_str_digits) as [HlZ | HlZ]; simpl.
  2:{ rewrite (int_long Z HZ HlZ). eexists. split; [right; eauto | reflexivity]. }
  rewrite (int_digits Z HZ HlZ). fold x y z.
  destruct (fits (bumped_component b x y z + 1)) eqn:Hb.
  - apply format_bumped; try exact Hb; apply fits_digits_value; assumption.
  - destruct (format_bumped_refused b x y z Hb) as (e & He & ->).
    exists ValueError_str. split; [left; reflexivity | exact He].
Qed.

(** A version that [bump_version] returns on three decimal components is
    made of three decimal components, and it is the version asked for. *)
Lemma bump_version_returns (b : bump_choice) (X Y Z' new : string) :
  is_digits X = true -> is_digits Y = true -> is_digits Z' = true ->
  bump_version (X +:+ "." +:+ Y +:+ "." +:+ Z') (choice_name b) = Return new ->
  within_limits b X Y Z' = true
  /\ new = bumped b (digits_value X) (digits_value Y) (digits_value Z')
  /\ exists x' y' z' : Z,
       bumped_numbers b (digits_value X) (digits_value Y) (digits_value Z')
       = (x', y', z')
       /\ 0 <= x' /\ 0 <= y' /\ 0 <= z'
       /\ fits x' = true /\ fits y' = true /\ fits z' = true
       /\ new = str_of_Z x' +:+ "." +:+ str_of_Z y' +:+ "." +:+ str_of_Z z'.
Proof.
  intros HX HY HZ Hret.
  pose proof (bump_version_components b X Y Z' HX HY HZ) as Hc. cbv zeta in Hc.
  destruct (within_limits b X Y Z') eqn:Hlim.
  2:{ destruct Hc as (e & _ & He). rewrite He in Hret. discriminate Hret. }
  rewrite Hc in Hret. injection Hret as <-.
  split; [reflexivity |]. split; [reflexivity |].
  pose proof (digits_value_nonneg X HX) as Hx.
  pose proof (digits_value_nonneg Y HY) as Hy.
  pose proof (digits_value_nonneg Z' HZ) as Hz.
  unfold within_limits in Hlim.
  apply andb_true_iff in Hlim as [Hlim Hb].
  apply andb_true_iff in Hlim as [Hlim HlZ].
  apply andb_true_iff in Hlim as [HlX HlY].
  apply Nat.leb_le in HlX, HlY, HlZ.
  pose proof (fits_digits_value X HX HlX) as HfX.
  pose proof (fits_digits_value Y HY HlY) as HfY.
  pose proof (fits_digits_value Z' HZ HlZ) as HfZ.
  destruct b; simpl in *; do 3 eexists; (split; [reflexivity |]);
    repeat split; try assumption; try reflexivity; lia.
Qed.

(** ** The script *)

(** The match found is the leftmost one: the pattern matches at no place
    before it. *)
Lemma search_from_first (items : list item) (s : string) :
  forall (prev : option ascii) (pos : nat) (m : Match),
    search_from items prev s pos = Some m ->
    forall n : nat,
      (pos + n < m_start m)%nat ->
      match_items items (last_char (take_str n s) prev) (drop_str n s) = None.
Proof.
  induction s as [| c s IH]; intros prev pos m; simpl.
  - destruct (match_items items prev "") as [ps |] eqn:Hm; [| discriminate].
    intros H n Hn. injection H as <-. simpl in Hn. lia.
  - destruct (match_items items prev (String c s)) as [ps |] eqn:Hm.
    + intros H n Hn. injection H as <-. simpl in Hn. lia.
    + intros H [| n] Hn; simpl; [exact Hm |].
      apply (IH (Some c) (S pos) m H n). lia.
Qed.

Lemma match_splits_text (text : string) (m : Match) :
  re_search VERSION_RE text = Some m ->
  text = take_str (m_start m) text +:+ matched m +:+ drop_str (m_end m) text.
Proof.
  intros Hs.
  destruct (version_match_shape text m Hs)
    as (pre & post & _ & _ & _ & _ & _ & _ & Htext & Hstart & _).
  unfold m_end. rewrite Hstart.
  rewrite Htext at 2 3.
  rewrite take_app_str, drop_drop_str, drop_app_str, drop_app_str.
  exact Htext.
Qed.

Lemma main_not_found (w : World) (args : Args) (raw : string) :
  fs w !! file args = Some raw ->
  re_search VERSION_RE (universal_newlines raw) = None ->
  main args w
  = (Raise (ValueError "Could not find version in pyproject.toml"), w).
Proof.
  intros Hraw Hs.
  unfold main, mbind, M_bind, bind, read_text, lift, read_version.
  rewrite Hraw, Hs. reflexivity.
Qed.

Lemma main_unreadable (w : World) (args : Args) :
  fs w !! file args = None ->
  main args w = (Raise (ReadError (file args)), w).
Proof.
  intros Hraw. unfold main, mbind, M_bind, bind, read_text. rewrite Hraw. reflexivity.
Qed.

Lemma main_current (w : World) (path : string) (b : option bump_choice)
    (raw : string) (m : Match) :
  fs w !! path = Some raw ->
  re_search VERSION_RE (universal_newlines raw) = Some m ->
  main {| file := path; bump := b; current := true |} w
  = (Return 0, {| fs := fs w; stdout := stdout w ++ [group1 m] |}).
Proof.
  intros Hraw Hs.
  unfold main, mbind, M_bind, bind, read_text, lift, read_version; simpl.
  rewrite Hraw, Hs. reflexivity.
Qed.

Lemma main_needs_bump (w : World) (path : string) (raw : string) (m : Match) :
  fs w !! path = Some raw ->
  re_search VERSION_RE (universal_newlines raw) = Some m ->
  main {| file := path; bump := None; current := false |} w
  = (Raise (SystemExit "--bump is required unless --current is set"), w).
Proof.
  intros Hraw Hs.
  unfold main, mbind, M_bind, bind, read_text, lift, read_version; simpl.
  rewrite Hraw, Hs. reflexivity.
Qed.

Lemma main_bumps (w : World) (path : string) (b : bump_choice)
    (raw : string) (m : Match) (new : string) :
  fs w !! path = Some raw ->
  re_search VERSION_RE (universal_newlines raw) = Some m ->
  bump_version (group1 m) (choice_name b) = Return new ->
  main {| file := path; bump := Some b; current := false |} w
  = (Return 0,
     {| fs := <[path := take_str (m_start m) (universal_newlines raw)
                        +:+ version_line new
                        +:+ drop_str (m_end m) (universal_newlines raw)]> (fs w);
        stdout := stdout w ++ [new] |}).
Proof.
  intros Hraw Hs Hbump.
  unfold main, write_version, mbind, M_bind, bind, read_text, lift, read_version,
    re_subn1, write_text, print, mret, M_ret, ret; simpl.
  rewrite Hraw, Hs, Hbump, Hraw, Hs. reflexivity.
Qed.

Lemma main_bump_refused (w : World) (path : string) (b : bump_choice)
    (raw : string) (m : Match) (e : exn) :
  fs w !! path = Some raw ->
  re_search VERSION_RE (universal_newlines raw) = Some m ->
  bump_version (group1 m) (choice_name b) = Raise e ->
  main {| file := path; bump := Some b; current := false |} w = (Raise e, w).
Proof.
  intros Hraw Hs Hbump.
  unfold main, mbind, M_bind, bind, read_text, lift, read_version; simpl.
  rewrite Hraw, Hs, Hbump. reflexivity.
Qed.

(** The line [write_version] puts in place of the match is the line the
    specification asks for. *)
Lemma version_line_written (pre new post : string) :
  pre +:+ version_line new +:+ post = manifest_with pre new post.
Proof.
  unfold version_line, manifest_with. rewrite !app_str_assoc. reflexivity.
Qed.

(** C8, as the specification words it, fails on a version whose patch
    component has 4301 digits: the version line is found, and [int()]
    refuses the component, so nothing is written or printed. *)
Lemma bump_refuses_long_component :
  ~ (is_Some (re_search VERSION_RE (universal_newlines pyproject_long)) ->
     exists w' : World,
       main {| file := "pyproject.toml"; bump := Some Patch; current := false |}
         world_long_version = (Return 0, w')).
Proof.
  intros H.
  assert (Hs : is_Some (re_search VERSION_RE (universal_newlines pyproject_long))).
  { vm_compute. eexists. reflexivity. }
  destruct (H Hs) as [w' Hmain].
  assert (Hr : fst (main {| file := "pyproject.toml"; bump := Some Patch;
                            current := false |} world_long_version)
               = Raise (ValueError_int (digit_run 4301 "7"))).
  { vm_compute. reflexivity. }
  rewrite Hmain in Hr. discriminate Hr.
Qed.

(** C8, amended: when the manifest has no version line, the script raises
    the version-not-found error and leaves the world as it is.  When it has
    one, the match found is the leftmost one and is a line
    [version = "X.Y.Z"] with three decimal components, and the text is the
    part before the match, the match and the part after it.  If each
    component has at most 4300 digits and the component to add one to is
    not 4300 nines, [bump_version] gives the version asked for (the
    requested component plus one, the lower ones zero, in decimal), and the
    script returns 0, prints that version and nothing else, and writes back
    the text with that one match replaced by the line [version = "..."]
    carrying it.  Otherwise the script raises the [ValueError] of [int()]
    or [str()] and leaves the world as it is.  On the sample manifest,
    ["1.2.3"] bumped by [minor] is written and printed as ["1.3.0"]. *)
Theorem bump_rewrites_one_version_line (w : World) (path : string)
    (b : bump_choice) (raw : string) :
  fs w !! path = Some raw ->
  let text := universal_newlines raw in
  let args := {| file := path; bump := Some b; current := false |} in
  match re_search VERSION_RE text with
  | None =>
      main args w
      = (Raise (ValueError "Could not find version in pyproject.toml"), w)
  | Some m =>
      exists (X Y Z' ws1 ws2 ws3 : string),
        let pre := take_str (m_start m) text in
        let post := drop_str (m_end m) text in
        let x := digits_value X in
        let y := digits_value Y in
        let z := digits_value Z' in
        text = pre +:+ matched m +:+ post
        /\ (forall n : nat,
              (n < m_start m)%nat ->
              match_items VERSION_RE (last_char (take_str n text) None)
                (drop_str n text) = None)
        /\ matched m
           = "version" +:+ ws1 +:+ "=" +:+ ws2 +:+ dquote
             +:+ (X +:+ "." +:+ Y +:+ "." +:+ Z') +:+ dquote +:+ ws3
        /\ all_chars is_space (ws1 +:+ ws2 +:+ ws3) = true
        /\ is_digits X = true /\ is_digits Y = true /\ is_digits Z' = true
        /\ if within_limits b X Y Z' then
             bump_version (X +:+ "." +:+ Y +:+ "." +:+ Z') (choice_name b)
             = Return (bumped b x y z)
             /\ main args w
                = (Return 0,
                   {| fs := <[path := manifest_with pre (bumped b x y z) post]> (fs w);
                      stdout := stdout w ++ [bumped b x y z] |})
           else
             exists e : exn,
               (e = ValueError_str \/ exists literal, e = ValueError_int literal)
               /\ main args w = (Raise e, w)
  end
  /\ bump_version "1.2.3" "major" = Return "2.0.0"
  /\ bump_version "1.2.3" "minor" = Return "1.3.0"
  /\ bump_version "1.2.3" "patch" = Return "1.2.4"
  /\ main {| file := "pyproject.toml"; bump := Some Minor; current := false |}
          world_manifest
     = (Return 0,
        {| fs := {[ "pyproject.toml" := pyproject_bumped ]}; stdout := ["1.3.0"] |}).
Proof.
  intros Hraw text args. split; [| repeat split; vm_compute; reflexivity].
  destruct (re_search VERSION_RE text) as [m |] eqn:Hs.
  - destruct (version_match_shape text m Hs)
      as (pre & post & ws1 & ws2 & ws3 & X & Y & Z' & _ & _ & Hm & Hg & H1 & H2 & H3
          & HX & HY & HZ).
    exists X, Y, Z', ws1, ws2, ws3. cbv zeta.
    split; [apply match_splits_text; exact Hs |].
    split; [intros n Hn; apply (search_from_first _ _ _ _ _ Hs n); lia |].
    split; [exact Hm |].
    split; [rewrite !all_chars_app, H1, H2, H3; reflexivity |].
    do 3 (split; [assumption |]).
    pose proof (bump_version_components b X Y Z' HX HY HZ) as Hc. cbv zeta in Hc.
    destruct (within_limits b X Y Z').
    + split; [exact Hc |].
      rewrite <- Hg in Hc. subst args.
      rewrite (main_bumps w path b raw m _ Hraw Hs Hc).
      fold text. rewrite version_line_written. reflexivity.
    + destruct Hc as (e & He & Hc). exists e. split; [exact He |].
      rewrite <- Hg in Hc.
      apply (main_bump_refused w path b raw m e Hraw Hs Hc).
  - apply (main_not_found w args raw); [exact Hraw | exact Hs].
Qed.

Lemma bump_rewrites_one_version_line_witness :
  fs world_manifest !! "pyproject.toml" = Some pyproject
  /\ bump_version "1.2.3" "minor" = Return "1.3.0"
  /\ main {| file := "pyproject.toml"; bump := Some Minor; current := false |}
          world_manifest
     = (Return 0,
        {| fs := {[ "pyproject.toml" := pyproject_bumped ]}; stdout := ["1.3.0"] |}).
Proof.
  assert (H : fs world_manifest !! "pyproject.toml" = Some pyproject).
  { vm_compute. reflexivity. }
  destruct (bump_rewrites_one_version_line world_manifest "pyproject.toml" Minor
              pyproject H) as (_ & _ & Hnum & _ & Hrun).
  split; [exact H |]. split; [exact Hnum | exact Hrun].
Defined.

(** C10: with [--current] the script never writes: the files after the run
    are the files before it, whatever [--bump] says; when the manifest is
    there and has a version line, the script prints the version found and
    returns 0. *)
Theorem current_flag_writes_nothing (w : World) (path : string)
    (b : option bump_choice) :
  let args := {| file := path; bump := b; current := true |} in
  fs (snd (main args w)) = fs w
  /\ (forall (raw : string) (m : Match),
        fs w !! path = Some raw ->
        re_search VERSION_RE (universal_newlines raw) = Some m ->
        main args w = (Return 0, {| fs := fs w; stdout := stdout w ++ [group1 m] |})
        /\ exit_status (fst (main args w)) = 0).
Proof.
  intros args. split.
  - unfold main, mbind, M_bind, bind, read_text, lift, read_version; simpl.
    destruct (fs w !! path) as [raw |]; [| reflexivity].
    destruct (re_search VERSION_RE (universal_newlines raw)); reflexivity.
  - intros raw m Hraw Hs. subst args.
    rewrite (main_current w path b raw m Hraw Hs). split; reflexivity.
Qed.

Lemma current_flag_writes_nothing_witness :
  fs world_manifest !! "pyproject.toml" = Some pyproject
  /\ main {| file := "pyproject.toml"; bump := Some Major; current := true |}
          world_manifest
     = (Return 0, {| fs := fs world_manifest; stdout := ["1.2.3"] |}).
Proof.
  assert (H : fs world_manifest !! "pyproject.toml" = Some pyproject).
  { vm_compute. reflexivity. }
  assert (Hs : exists m, re_search VERSION_RE (universal_newlines pyproject) = Some m
                         /\ group1 m = "1.2.3").
  { eexists. split; vm_compute; reflexivity. }
  destruct Hs as (m & Hs & Hg).
  destruct (current_flag_writes_nothing world_manifest "pyproject.toml" (Some Major))
    as (_ & Hrun).
  destruct (Hrun pyproject m H Hs) as (Hmain & _).
  split; [exact H |]. rewrite Hmain, Hg. reflexivity.
Defined.

End BumpVersionSpec.

(** * Properties of [pdfo.py] *)

Module PdfoSpec.
Import Pdfo.

(** ** Sample runs *)

Example suffix_samples :
  suffix ["/"; "home"; "scan.tar.PDF"] = ".PDF"
  /\ stem ["/"; "home"; "scan.tar.PDF"] = "scan.tar"
  /\ suffix [".pdf"] = ""
  /\ suffix ["notes."] = ""
  /\ suffix ["/"] = "".
Proof. repeat split; reflexivity. Qed.

Example resolve_output_samples :
  resolve_output ["/"; "home"; "scan.PDF"] None = ["/"; "home"; "scan_compressed.PDF"]
  /\ resolve_output doc_pdf None = doc_compressed_pdf
  /\ resolve_output doc_pdf (Some ["small.pdf"]) = ["small.pdf"].
Proof. repeat split; reflexivity. Qed.

Example gs_cmd_sample :
  gs_cmd ["/"; "home"; "scan.pdf"] ["out"; "small.pdf"] 3
  = [ "gs"; "-sDEVICE=pdfwrite"; "-dCompatibilityLevel=1.4";
      "-dPDFSETTINGS=/screen"; "-dNOPAUSE"; "-dQUIET"; "-dBATCH";
      "-dDetectDuplicateImages=true"; "-dCompressFonts=true";
      "-dDownsampleColorImages=true"; "-dDownsampleGrayImages=true";
      "-dDownsampleMonoImages=true"; "-dColorImageResolution=150";
      "-sOutputFile=out/small.pdf"; "/home/scan.pdf" ].
Proof. vm_compute. reflexivity. Qed.

Example run_with_ghostscript :
  let r := main host_gs doc_pdf None 2 false false world_small_input in
  fst r = Return tt
  /\ stdout (snd r)
     = [ MsgCompressing "doc.pdf"; MsgMethodGhostscript 2; MsgBefore 2;
         MsgSuccess; MsgAfter 4; MsgSaved (Float true 7036874417766400 (-46));
         MsgFile doc_compressed_pdf ]
  /\ stderr (snd r) = []
  /\ trace (snd r) = [Probe; Run Ghostscript doc_pdf doc_compressed_pdf].
Proof. repeat split; vm_compute; reflexivity. Qed.

(** The floats of the report are those of Python: for an input of 80 bytes
    and an output of 29, [(80 - 29) / 80] is the float below 0.6375, a
    hundred times it is 63.74999999999999, and the line shows 63.7; the
    exact quotient 63.75 is another float, which would show as 63.8. *)
Example float_samples :
  int_truediv 51 80 = Float false 5742089524897382 (-53)
  /\ float_mul_int (int_truediv 51 80) 100 = Float false 8972014882652159 (-47)
  /\ format_1f (float_mul_int (int_truediv 51 80) 100) = "63.7"
  /\ int_truediv 255 4 = Float false 8972014882652160 (-47)
  /\ format_1f (int_truediv 255 4) = "63.8"
  /\ format_1f (float_mul_int (int_truediv (-2) 2) 100) = "-100.0"
  /\ format_1f (float_mul_int (int_truediv 0 2) 100) = "0.0"
  /\ format_1f (float_mul_int (int_truediv 1 3) 100) = "33.3"
  /\ format_1f (int_truediv 1 4) = "0.2"
  /\ format_1f (int_truediv 3 4) = "0.8".
Proof. repeat split; vm_compute; reflexivity. Qed.

(** ** The quality table of the Ghostscript backend *)

Lemma preset_known (q : Z) (s : string) :
  quality_settings !! q = Some s -> preset q = s.
Proof. intros H. unfold preset. rewrite H. reflexivity. Qed.

Lemma preset_unknown (q : Z) : ~ (1 <= q <= 4) -> preset q = "ebook".
Proof.
  intros Hq. unfold preset, quality_settings.
  assert (q <> 1 /\ q <> 2 /\ q <> 3 /\ q <> 4) as (H1 & H2 & H3 & H4) by lia.
  rewrite !lookup_insert_ne by congruence.
  rewrite lookup_singleton_ne by congruence. reflexivity.
Qed.

Lemma resolution_flag_low (q : Z) :
  q < 3 -> resolution_flag q = "-dColorImageResolution=200".
Proof.
  intros Hq. unfold resolution_flag.
  destruct (Z.geb_spec q 3) as [Hge | Hlt]; [lia | reflexivity].
Qed.

Lemma resolution_flag_high (q : Z) :
  3 <= q -> resolution_flag q = "-dColorImageResolution=150".
Proof.
  intros Hq. unfold resolution_flag.
  destruct (Z.geb_spec q 3) as [Hge | Hlt]; [reflexivity | lia].
Qed.

(** C1, as the specification words it, does not hold: levels 2, 3 and 4
    do not share one preset (level 2 is "ebook", levels 3 and 4 are
    "screen"), so no two presets cover the table. *)
Lemma quality_presets_not_two :
  ~ ((exists hi lo : string,
        hi <> lo /\ preset 1 = hi /\ preset 2 = lo /\ preset 3 = lo /\ preset 4 = lo)
     /\ (exists r12 r34 : Z,
           r34 < r12
           /\ resolution_flag 1 = "-dColorImageResolution=" +:+ str_of_Z r12
           /\ resolution_flag 2 = "-dColorImageResolution=" +:+ str_of_Z r12
           /\ resolution_flag 3 = "-dColorImageResolution=" +:+ str_of_Z r34
           /\ resolution_flag 4 = "-dColorImageResolution=" +:+ str_of_Z r34)).
Proof.
  intros [(hi & lo & _ & _ & H2 & H3 & _) _].
  vm_compute in H2, H3. congruence.
Qed.

(** C1, amended: the table has three presets, "printer" for level 1,
    "ebook" for level 2 and "screen" for levels 3 and 4; the colour image
    resolution is 200 for levels 1 and 2 and the lower 150 for levels 3
    and 4; both are passed on the command line of [gs]. *)
Theorem quality_presets_three :
  preset 1 = "printer" /\ preset 2 = "ebook"
  /\ preset 3 = "screen" /\ preset 4 = "screen"
  /\ resolution_flag 1 = "-dColorImageResolution=" +:+ str_of_Z 200
  /\ resolution_flag 2 = "-dColorImageResolution=" +:+ str_of_Z 200
  /\ resolution_flag 3 = "-dColorImageResolution=" +:+ str_of_Z 150
  /\ resolution_flag 4 = "-dColorImageResolution=" +:+ str_of_Z 150
  /\ 150 < 200
  /\ (forall (i o : Path) (q : Z),
        gs_cmd i o q !! 3%nat = Some ("-dPDFSETTINGS=/" +:+ preset q)
        /\ gs_cmd i o q !! 12%nat = Some (resolution_flag q)).
Proof.
  repeat split; try reflexivity.
Qed.

(** C2, as the specification words it, fails at quality 5: the preset is
    the one of level 2 but the resolution flag, and so the command line, is
    not. *)
Lemma quality_5_differs_from_2 :
  ~ (~ (1 <= 5 <= 4) ->
     preset 5 = preset 2
     /\ resolution_flag 5 = resolution_flag 2
     /\ gs_cmd doc_pdf doc_compressed_pdf 5 = gs_cmd doc_pdf doc_compressed_pdf 2).
Proof.
  intros H. destruct H as (_ & H & _); [lia |].
  vm_compute in H. congruence.
Qed.

Lemma compress_with_ghostscript_cmd (h : Host) (i o : Path) (q q' : Z) :
  gs_cmd i o q = gs_cmd i o q' ->
  compress_with_ghostscript h i o q = compress_with_ghostscript h i o q'.
Proof. intros H. unfold compress_with_ghostscript. rewrite H. reflexivity. Qed.

Lemma compress_with_ghostscript_ok (h : Host) (i o : Path) (q : Z) (w : World)
    (err : string) (f : gmap Path file) (a b : file) :
  gs_exec h (gs_cmd i o q) (fs w) = Completed 0 err f ->
  f !! i = Some a -> f !! o = Some b ->
  compress_with_ghostscript h i o q w
  = (Return (st_size a, st_size b),
     {| fs := f; stdout := stdout w; stderr := stderr w;
        trace := trace w ++ [Run Ghostscript i o] |}).
Proof.
  intros Hrun Hi Ho.
  unfold compress_with_ghostscript, mbind, M_bind, bind, log, subprocess_run,
    stat_size, set_fs; simpl.
  rewrite Hrun; simpl. rewrite Hi; simpl. rewrite Ho. reflexivity.
Qed.

(** C2, amended: a quality level outside 1..4 is not rejected and gets the
    preset of level 2; the backend behaves exactly as for level 2 when the
    level is below 1, and when it is above 4 the resolution flag is the one
    of levels 3 and 4, the rest of the command line being that of level 2. *)
Theorem quality_out_of_range_falls_back (h : Host) (i o : Path) (q : Z) :
  ~ (1 <= q <= 4) ->
  preset q = preset 2
  /\ (q < 1 ->
      resolution_flag q = resolution_flag 2
      /\ compress_with_ghostscript h i o q = compress_with_ghostscript h i o 2)
  /\ (4 < q ->
      resolution_flag q = resolution_flag 3
      /\ resolution_flag q <> resolution_flag 2
      /\ gs_cmd i o q = <[12%nat := resolution_flag 3]> (gs_cmd i o 2))
  /\ (forall (w : World) (err : string) (f : gmap Path file) (a b : file),
        gs_exec h (gs_cmd i o q) (fs w) = Completed 0 err f ->
        f !! i = Some a -> f !! o = Some b ->
        fst (compress_with_ghostscript h i o q w) = Return (st_size a, st_size b)).
Proof.
  intros Hq.
  assert (Hp : preset q = preset 2).
  { rewrite (preset_unknown q Hq). reflexivity. }
  split; [exact Hp |]. split; [| split].
  - intros Hlow.
    assert (Hr : resolution_flag q = resolution_flag 2).
    { rewrite resolution_flag_low by lia. reflexivity. }
    split; [exact Hr |].
    apply compress_with_ghostscript_cmd. unfold gs_cmd. rewrite Hp, Hr. reflexivity.
  - intros Hhigh.
    assert (Hr : resolution_flag q = resolution_flag 3).
    { rewrite resolution_flag_high by lia. reflexivity. }
    split; [exact Hr |]. split.
    + rewrite Hr. vm_compute. congruence.
    + unfold gs_cmd. rewrite Hp, Hr. reflexivity.
  - intros w err f a b Hrun Hi Ho.
    rewrite (compress_with_ghostscript_ok h i o q w err f a b Hrun Hi Ho).
    reflexivity.
Qed.

Lemma quality_out_of_range_falls_back_witness :
  ~ (1 <= 7 <= 4)
  /\ preset 7 = preset 2
  /\ resolution_flag 7 = resolution_flag 3.
Proof.
  assert (H : ~ (1 <= 7 <= 4)) by lia.
  destruct (quality_out_of_range_falls_back host_gs doc_pdf doc_compressed_pdf 7 H)
    as (Hp & _ & Hhigh & _).
  split; [exact H |]. split; [exact Hp |].
  apply Hhigh. lia.
Defined.

(** ** The pypdf backend *)

(** ** The dispatcher, phase by phase *)

Ltac run_py :=
  unfold main, compress_with_ghostscript, compress_with_pypdf,
    pdf_rewrite_to, subprocess_run, stat_size, path_exists, true_div,
    try_except, echo, echo_err, log, sys_exit, set_fs,
    mbind, mret, M_bind, M_ret, bind, ret, raise in *;
  simpl in *.

Lemma has_ghostscript_run (h : Host) (w : World) :
  has_ghostscript h w
  = (Return (gs_present h),
     {| fs := fs w; stdout := stdout w; stderr := stderr w;
        trace := trace w ++ [Probe] |}).
Proof.
  unfold has_ghostscript, run_gs_version, gs_present, try_except, log,
    mbind, mret, M_bind, M_ret, bind, ret, raise; simpl.
  destruct (gs_version h) as [rc |]; simpl; [| reflexivity].
  destruct (rc =? 0); reflexivity.
Qed.

Lemma main_rejects_input (h : Host) (i : Path) (o : option Path) (q : Z)
    (f ng : bool) (w : World) :
  String.eqb (lower (suffix i)) ".pdf" = false ->
  main h i o q f ng w
  = (Raise (SystemExit 1),
     {| fs := fs w; stdout := stdout w;
        stderr := stderr w ++ [MsgInputNotPdf]; trace := trace w |}).
Proof. intros Hext. run_py. rewrite Hext. reflexivity. Qed.

Lemma main_refuses_overwrite (h : Host) (i : Path) (o : option Path) (q : Z)
    (ng : bool) (w : World) :
  String.eqb (lower (suffix i)) ".pdf" = true ->
  is_Some (fs w !! resolve_output i o) ->
  main h i o q false ng w
  = (Raise (SystemExit 1),
     {| fs := fs w; stdout := stdout w;
        stderr := stderr w ++ [MsgOutputExists (resolve_output i o)];
        trace := trace w |}).
Proof.
  intros Hext Hout. run_py. rewrite Hext; simpl.
  rewrite bool_decide_eq_true_2 by exact Hout. reflexivity.
Qed.

(** Both backends leave the two streams alone, log exactly one run, never
    raise [SystemExit], and return as output size the size of the output
    file they leave. *)
Lemma backend_frame (h : Host) (use_gs : bool) (i o : Path) (q : Z) (w : World) :
  let b := if use_gs then Ghostscript else Pypdf in
  let r := (if use_gs then compress_with_ghostscript h i o q
            else compress_with_pypdf h i o q) w in
  stdout (snd r) = stdout w
  /\ stderr (snd r) = stderr w
  /\ trace (snd r) = trace w ++ [Run b i o]
  /\ (forall e, fst r = Raise e -> is_Exception e = true)
  /\ (forall a osz, fst r = Return (a, osz) ->
        exists fo, fs (snd r) !! o = Some fo /\ osz = st_size fo).
Proof.
  destruct use_gs; run_py.
  - destruct (gs_exec h (gs_cmd i o q) (fs w)) as [| rc err f]; simpl.
    + repeat split; try reflexivity; intros; simplify_eq; eauto.
    + destruct (rc =? 0); simpl.
      * destruct (f !! i) as [fi |]; simpl;
          [destruct (f !! o) as [fo |] eqn:Ho; simpl |];
          repeat split; try reflexivity; intros; simplify_eq; eauto.
      * repeat split; try reflexivity; intros; simplify_eq; eauto.
  - destruct (fs w !! i) as [src |] eqn:Hi; simpl.
    + destruct (pypdf_rewrite h src) as [msg | msg part | data]; simpl;
        try (repeat split; try reflexivity; intros; simplify_eq; eauto; fail).
      destruct (<[o := data]> (fs w) !! i) as [fi |]; simpl;
        [destruct (<[o := data]> (fs w) !! o) as [fo |] eqn:Ho; simpl |];
        repeat split; try reflexivity; intros; simplify_eq; eauto.
    + repeat split; try reflexivity; intros; simplify_eq; eauto.
Qed.

(** Past the two guards, [main] probes for [gs], announces the method, reads
    the input size, runs one backend from that world and reports. *)
Lemma main_compresses (h : Host) (i : Path) (o : option Path) (q : Z)
    (f ng : bool) (w : World) (fi : file) :
  String.eqb (lower (suffix i)) ".pdf" = true ->
  (is_Some (fs w !! resolve_output i o) -> f = true) ->
  fs w !! i = Some fi ->
  let out := resolve_output i o in
  let use_gs := gs_present h && negb ng in
  let w1 :=
    {| fs := fs w;
       stdout := stdout w ++
         [MsgCompressing (name i);
          if use_gs then MsgMethodGhostscript q else MsgMethodPypdf;
          MsgBefore (st_size fi)];
       stderr := stderr w;
       trace := trace w ++ [Probe] |} in
  main h i o q f ng w
  = match (if use_gs then compress_with_ghostscript h i out q
           else compress_with_pypdf h i out q) w1 with
    | (Return (_, osz), w2) =>
        if st_size fi =? 0 then
          (Raise (SystemExit 1),
           {| fs := fs w2; stdout := stdout w2;
              stderr := stderr w2 ++ [MsgError ZeroDivisionError];
              trace := trace w2 |})
        else
          (Return tt,
           {| fs := fs w2;
              stdout := stdout w2 ++
                [MsgSuccess; MsgAfter osz;
                 MsgSaved (float_mul_int (int_truediv (st_size fi - osz) (st_size fi)) 100);
                 MsgFile out];
              stderr := stderr w2; trace := trace w2 |})
    | (Raise e, w2) =>
        (Raise (SystemExit 1),
         {| fs := fs w2; stdout := stdout w2;
            stderr := stderr w2 ++ [MsgError e]; trace := trace w2 |})
    end.
Proof.
  intros Hext Hguard Hi out use_gs w1.
  assert (Hg : bool_decide (is_Some (fs w !! out)) && negb f = false).
  { destruct f; [apply andb_false_r |].
    rewrite bool_decide_eq_false_2; [reflexivity |].
    intros Hsome. specialize (Hguard Hsome). discriminate. }
  pose proof (backend_frame h use_gs i out q w1) as (_ & _ & _ & Hexc & _).
  unfold main. rewrite Hext; simpl. fold out.
  unfold mbind, M_bind, bind, path_exists, log, echo, mret,
    M_ret, ret, stat_size, try_except, true_div, sys_exit, raise, echo_err;
    simpl.
  rewrite Hg, has_ghostscript_run; simpl. fold use_gs.
  subst w1. destruct use_gs; simpl in *; rewrite Hi; simpl;
    rewrite <- !app_assoc; simpl.
  - destruct (compress_with_ghostscript h i out q _) as [[[a osz] | e] w2]; simpl in *.
    + destruct (st_size fi =? 0); simpl; rewrite <- ?app_assoc; reflexivity.
    + rewrite (Hexc e eq_refl). reflexivity.
  - destruct (compress_with_pypdf h i out q _) as [[[a osz] | e] w2]; simpl in *.
    + destruct (st_size fi =? 0); simpl; rewrite <- ?app_assoc; reflexivity.
    + rewrite (Hexc e eq_refl). reflexivity.
Qed.

Lemma main_input_missing (h : Host) (i : Path) (o : option Path) (q : Z)
    (f ng : bool) (w : World) :
  String.eqb (lower (suffix i)) ".pdf" = true ->
  (is_Some (fs w !! resolve_output i o) -> f = true) ->
  fs w !! i = None ->
  main h i o q f ng w
  = (Raise (FileNotFoundError (path_str i)),
     {| fs := fs w;
        stdout := stdout w ++
          [MsgCompressing (name i);
           if gs_present h && negb ng then MsgMethodGhostscript q else MsgMethodPypdf];
        stderr := stderr w;
        trace := trace w ++ [Probe] |}).
Proof.
  intros Hext Hguard Hi.
  assert (Hg : bool_decide (is_Some (fs w !! resolve_output i o)) && negb f = false).
  { destruct f; [apply andb_false_r |].
    rewrite bool_decide_eq_false_2; [reflexivity |].
    intros Hsome. specialize (Hguard Hsome). discriminate. }
  unfold main. rewrite Hext; simpl.
  unfold mbind, M_bind, bind, path_exists, log, echo, mret,
    M_ret, ret, stat_size; simpl.
  rewrite Hg, has_ghostscript_run; simpl.
  destruct (gs_present h && negb ng); simpl; rewrite Hi; simpl;
    rewrite <- !app_assoc; reflexivity.
Qed.

Lemma guard_cases (w : World) (out : Path) (f : bool) :
  (is_Some (fs w !! out) /\ f = false) \/ (is_Some (fs w !! out) -> f = true).
Proof.
  destruct f; [right; reflexivity |].
  destruct (fs w !! out) as [x |] eqn:Hx.
  - left. split; [exists x; reflexivity | reflexivity].
  - right. intros [y Hy]. discriminate.
Qed.

Lemma eqb_pdf_true (s : string) : String.eqb s ".pdf" = true <-> s = ".pdf".
Proof. apply String.eqb_eq. Qed.

Lemma eqb_pdf_false (s : string) : String.eqb s ".pdf" = false <-> s <> ".pdf".
Proof. apply String.eqb_neq. Qed.

(** ** The claims about the dispatcher *)

(** The command line: an input path that names nothing is refused by
    [click] before [main] is called. *)
Lemma command_missing (h : Host) (i : Path) (o : option Path) (q : Z)
    (f ng : bool) (w : World) :
  fs w !! i = None ->
  command h i o q f ng w
  = (Raise (SystemExit 2),
     {| fs := fs w; stdout := stdout w;
        stderr := stderr w ++ [MsgNoSuchPath i]; trace := trace w |}).
Proof.
  intros Hi. unfold command, mbind, M_bind, bind, path_exists.
  rewrite bool_decide_eq_false_2; [reflexivity |].
  rewrite Hi. intros [x Hx]. discriminate Hx.
Qed.

Lemma command_present (h : Host) (i : Path) (o : option Path) (q : Z)
    (f ng : bool) (w : World) (fi : file) :
  fs w !! i = Some fi ->
  command h i o q f ng w = main h i o q f ng w.
Proof.
  intros Hi. unfold command, mbind, M_bind, bind, path_exists.
  rewrite bool_decide_eq_true_2; [reflexivity |].
  rewrite Hi. eexists. reflexivity.
Qed.

(** C5, as the specification words it, fails for an input that does not
    pass the extension check: with [notes.txt] as input and an output path
    that names an existing file, the error reported is the invalid-input
    error, not the output-exists error. *)
Lemma overwrite_guard_comes_second :
  ~ (is_Some (fs world_text_input
              !! resolve_output ["notes.txt"] (Some doc_compressed_pdf)) ->
     MsgOutputExists doc_compressed_pdf
       ∈ stderr (snd (command host_gs ["notes.txt"] (Some doc_compressed_pdf) 2
                        false false world_text_input))).
Proof.
  intros H.
  assert (Hout : is_Some (fs world_text_input
                          !! resolve_output ["notes.txt"] (Some doc_compressed_pdf))).
  { exists [Byte.x00]. vm_compute. reflexivity. }
  specialize (H Hout).
  assert (Herr : stderr (snd (command host_gs ["notes.txt"] (Some doc_compressed_pdf) 2
                                false false world_text_input))
                 = [MsgInputNotPdf]) by (vm_compute; reflexivity).
  rewrite Herr in H. apply list_elem_of_singleton in H. discriminate H.
Qed.

(** C5, amended: when the resolved output path names an existing file and
    the force flag is not set, the process ends with a status other than 0,
    the files (so the existing output file) are what they were, nothing was
    probed or run and nothing was printed on the output stream.  The error
    is the output-exists error, with status 1, when the input exists and
    passes the extension check; it is the invalid-input error, with status
    1, when the input exists and does not pass it, and the usage error of
    the command line, with status 2, when the input does not exist. *)
Theorem overwrite_guard (h : Host) (i : Path) (o : option Path) (q : Z)
    (ng : bool) (w : World) :
  is_Some (fs w !! resolve_output i o) ->
  let r := command h i o q false ng w in
  exit_code (fst r) <> 0
  /\ fs (snd r) = fs w
  /\ trace (snd r) = trace w
  /\ stdout (snd r) = stdout w
  /\ (is_Some (fs w !! i) ->
      lower (suffix i) = ".pdf" ->
      fst r = Raise (SystemExit 1)
      /\ exit_code (fst r) = 1
      /\ stderr (snd r) = stderr w ++ [MsgOutputExists (resolve_output i o)])
  /\ (is_Some (fs w !! i) ->
      lower (suffix i) <> ".pdf" ->
      exit_code (fst r) = 1
      /\ stderr (snd r) = stderr w ++ [MsgInputNotPdf])
  /\ (fs w !! i = None ->
      exit_code (fst r) = 2
      /\ stderr (snd r) = stderr w ++ [MsgNoSuchPath i]).
Proof.
  intros Hout r. subst r.
  destruct (fs w !! i) as [fi |] eqn:Hi.
  - rewrite (command_present h i o q false ng w fi Hi).
    destruct (String.eqb (lower (suffix i)) ".pdf") eqn:Hext.
    + rewrite (main_refuses_overwrite h i o q ng w Hext Hout). simpl.
      apply eqb_pdf_true in Hext.
      do 4 (split; [first [discriminate | reflexivity] |]).
      split; [intros _ _; repeat split; reflexivity |].
      split; [intros _ Hne; contradiction | discriminate].
    + rewrite (main_rejects_input h i o q false ng w Hext). simpl.
      apply eqb_pdf_false in Hext.
      do 4 (split; [first [discriminate | reflexivity] |]).
      split; [intros _ Hpdf; contradiction |].
      split; [intros _ _; split; reflexivity | discriminate].
  - rewrite (command_missing h i o q false ng w Hi). simpl.
    do 4 (split; [first [discriminate | reflexivity] |]).
    split; [intros [x Hx]; discriminate Hx |].
    split; [intros [x Hx]; discriminate Hx |].
    intros _. split; reflexivity.
Qed.

Lemma overwrite_guard_witness :
  is_Some (fs world_output_there !! resolve_output doc_pdf None)
  /\ exit_code (fst (command host_gs doc_pdf None 2 false false world_output_there)) = 1
  /\ stderr (snd (command host_gs doc_pdf None 2 false false world_output_there))
     = [MsgOutputExists doc_compressed_pdf]
  /\ fs (snd (command host_gs doc_pdf None 2 false false world_output_there))
     = fs world_output_there.
Proof.
  assert (H : is_Some (fs world_output_there !! resolve_output doc_pdf None)).
  { exists [Byte.x00]. vm_compute. reflexivity. }
  assert (Hi : is_Some (fs world_output_there !! doc_pdf)).
  { exists [Byte.x25; Byte.x50]. vm_compute. reflexivity. }
  destruct (overwrite_guard host_gs doc_pdf None 2 false world_output_there H)
    as (_ & Hfs & _ & _ & Hpdf & _).
  destruct (Hpdf Hi eq_refl) as (_ & Hcode & Herr).
  split; [exact H |]. split; [exact Hcode |]. split; [exact Herr | exact Hfs].
Defined.

(** C6: for a request that passed the two guards, the trace gains one probe
    and exactly one backend run; the backend is Ghostscript if and only if
    the probe found [gs] and [--no-gs] was not given, and pypdf otherwise. *)
Theorem backend_selection (h : Host) (i : Path) (o : option Path) (q : Z)
    (f ng : bool) (w : World) (fi : file) :
  lower (suffix i) = ".pdf" ->
  (is_Some (fs w !! resolve_output i o) -> f = true) ->
  fs w !! i = Some fi ->
  exists b : backend,
    trace (snd (main h i o q f ng w))
    = trace w ++ [Probe; Run b i (resolve_output i o)]
    /\ b = (if gs_present h && negb ng then Ghostscript else Pypdf)
    /\ (b = Ghostscript <-> gs_present h = true /\ ng = false)
    /\ (b = Pypdf <-> ~ (gs_present h = true /\ ng = false)).
Proof.
  intros Hext Hguard Hi. apply eqb_pdf_true in Hext.
  exists (if gs_present h && negb ng then Ghostscript else Pypdf).
  split; [| split; [reflexivity |]].
  - rewrite (main_compresses h i o q f ng w fi Hext Hguard Hi).
    match goal with
    | |- context [(if ?u then compress_with_ghostscript _ _ ?out _ else _) ?w1] =>
        pose proof (backend_frame h u i out q w1) as (_ & _ & Htr & _);
        destruct ((if u then compress_with_ghostscript h i out q
                   else compress_with_pypdf h i out q) w1) as [[[a osz] | e] w2]
    end; simpl in *.
    + destruct (st_size fi =? 0); simpl; rewrite Htr, <- app_assoc; reflexivity.
    + rewrite Htr, <- app_assoc. reflexivity.
  - destruct (gs_present h), ng; simpl; intuition congruence.
Qed.

Lemma backend_selection_witness :
  lower (suffix doc_pdf) = ".pdf"
  /\ trace (snd (main host_gs doc_pdf None 2 false true world_small_input))
     = [Probe; Run Pypdf doc_pdf doc_compressed_pdf].
Proof.
  assert (Hext : lower (suffix doc_pdf) = ".pdf") by reflexivity.
  assert (Hg : is_Some (fs world_small_input !! resolve_output doc_pdf None) -> false = true).
  { intros [x Hx]. vm_compute in Hx. discriminate. }
  assert (Hi : fs world_small_input !! doc_pdf = Some [Byte.x25; Byte.x50]).
  { vm_compute. reflexivity. }
  destruct (backend_selection host_gs doc_pdf None 2 false true world_small_input
              [Byte.x25; Byte.x50] Hext Hg Hi) as (b & Htr & Hb & _).
  split; [exact Hext |]. rewrite Htr, Hb. reflexivity.
Defined.

(** What the streams and the trace look like once the two guards are
    passed. *)
Lemma main_past_guards (h : Host) (i : Path) (o : option Path) (q : Z)
    (f ng : bool) (w : World) :
  String.eqb (lower (suffix i)) ".pdf" = true ->
  (is_Some (fs w !! resolve_output i o) -> f = true) ->
  exists (errs : list message) (tr : list event),
    stderr (snd (main h i o q f ng w)) = stderr w ++ errs
    /\ (errs = [] \/ exists e, errs = [MsgError e])
    /\ trace (snd (main h i o q f ng w)) = trace w ++ Probe :: tr.
Proof.
  intros Hext Hguard.
  destruct (fs w !! i) as [fi |] eqn:Hi.
  - rewrite (main_compresses h i o q f ng w fi Hext Hguard Hi).
    match goal with
    | |- context [(if ?u then compress_with_ghostscript _ _ ?out _ else _) ?w1] =>
        pose proof (backend_frame h u i out q w1) as (_ & Herr & Htr & _);
        destruct ((if u then compress_with_ghostscript h i out q
                   else compress_with_pypdf h i out q) w1) as [[[a osz] | e] w2]
    end; simpl in *.
    + destruct (st_size fi =? 0); simpl; rewrite Herr, Htr, <- app_assoc.
      * do 2 eexists. split; [reflexivity |]. split; [right; eauto | reflexivity].
      * exists []. eexists. rewrite app_nil_r.
        split; [reflexivity |]. split; [left; reflexivity | reflexivity].
    + rewrite Herr, Htr, <- app_assoc.
      do 2 eexists. split; [reflexivity |]. split; [right; eauto | reflexivity].
  - rewrite (main_input_missing h i o q f ng w Hext Hguard Hi). simpl.
    exists [], []. rewrite app_nil_r.
    split; [reflexivity |]. split; [left; reflexivity | reflexivity].
Qed.

Lemma lower_char_dot (c : ascii) : lower_char c = "."%char -> c = "."%char.
Proof.
  destruct c as [[] [] [] [] [] [] [] []]; vm_compute; intros H;
    first [reflexivity | discriminate H].
Qed.

Lemma lower_char_p (c : ascii) :
  lower_char c = "p"%char -> c = "p"%char \/ c = "P"%char.
Proof.
  destruct c as [[] [] [] [] [] [] [] []]; vm_compute; intros H;
    first [left; reflexivity | right; reflexivity | discriminate H].
Qed.

Lemma lower_char_d (c : ascii) :
  lower_char c = "d"%char -> c = "d"%char \/ c = "D"%char.
Proof.
  destruct c as [[] [] [] [] [] [] [] []]; vm_compute; intros H;
    first [left; reflexivity | right; reflexivity | discriminate H].
Qed.

Lemma lower_char_f (c : ascii) :
  lower_char c = "f"%char -> c = "f"%char \/ c = "F"%char.
Proof.
  destruct c as [[] [] [] [] [] [] [] []]; vm_compute; intros H;
    first [left; reflexivity | right; reflexivity | discriminate H].
Qed.

(** The strings that [lower] sends to ".pdf" are its eight spellings. *)
Lemma lower_is_pdf (s : string) :
  lower s = ".pdf" <->
  exists a b c : ascii,
    s = String "." (String a (String b (String c "")))
    /\ (a = "p"%char \/ a = "P"%char)
    /\ (b = "d"%char \/ b = "D"%char)
    /\ (c = "f"%char \/ c = "F"%char).
Proof.
  split.
  - destruct s as [| c0 [| c1 [| c2 [| c3 [| c4 s]]]]]; simpl; intros H;
      try discriminate H.
    injection H as H0 H1 H2 H3.
    apply lower_char_dot in H0. apply lower_char_p in H1.
    apply lower_char_d in H2. apply lower_char_f in H3.
    subst c0. exists c1, c2, c3. auto.
  - intros (a & b & c & -> & [-> | ->] & [-> | ->] & [-> | ->]); reflexivity.
Qed.

(** C7, as the specification words it, fails for an input path that names
    no file: [click] refuses it with a usage error before the extension is
    looked at, so a missing [scan.txt] does not get the invalid-input
    error. *)
Lemma missing_input_is_a_usage_error :
  ~ (lower (suffix ["scan.txt"]) <> ".pdf" ->
     MsgInputNotPdf
       ∈ stderr (snd (command host_gs ["scan.txt"] None 2 false false
                        world_small_input))).
Proof.
  intros H.
  assert (Hext : lower (suffix ["scan.txt"]) <> ".pdf") by (vm_compute; discriminate).
  specialize (H Hext).
  assert (Herr : stderr (snd (command host_gs ["scan.txt"] None 2 false false
                                world_small_input))
                 = [MsgNoSuchPath ["scan.txt"]]) by (vm_compute; reflexivity).
  rewrite Herr in H. apply list_elem_of_singleton in H. discriminate H.
Qed.

(** C7, amended: for an input path that names an existing file, the
    extension check compares the lower-cased suffix with ".pdf".  When they
    are equal, which is so for the eight spellings of ".pdf" and for those
    only, neither a usage error nor an invalid-input error is reported and
    the run goes on to the overwrite guard and, past it, to the probe;
    otherwise the run ends with status 1 and the invalid-input error, with
    no file touched and nothing probed or run.  An input path that names
    no file is refused before that, whatever its extension, with the usage
    error of the command line and status 2. *)
Theorem input_validation (h : Host) (i : Path) (o : option Path) (q : Z)
    (f ng : bool) (w : World) :
  let r := command h i o q f ng w in
  (is_Some (fs w !! i) ->
   lower (suffix i) = ".pdf" ->
     exists errs : list message,
       stderr (snd r) = stderr w ++ errs
       /\ (MsgInputNotPdf ∉ errs)
       /\ (MsgNoSuchPath i ∉ errs)
       /\ ((is_Some (fs w !! resolve_output i o) -> f = true) ->
           exists tr, trace (snd r) = trace w ++ Probe :: tr))
  /\ (is_Some (fs w !! i) ->
      lower (suffix i) <> ".pdf" ->
      fst r = Raise (SystemExit 1)
      /\ exit_code (fst r) = 1
      /\ stderr (snd r) = stderr w ++ [MsgInputNotPdf]
      /\ stdout (snd r) = stdout w
      /\ trace (snd r) = trace w
      /\ fs (snd r) = fs w)
  /\ (fs w !! i = None ->
      fst r = Raise (SystemExit 2)
      /\ exit_code (fst r) = 2
      /\ stderr (snd r) = stderr w ++ [MsgNoSuchPath i]
      /\ stdout (snd r) = stdout w
      /\ trace (snd r) = trace w
      /\ fs (snd r) = fs w)
  /\ (forall s : string,
        lower s = ".pdf" <->
        exists a b c : ascii,
          s = String "." (String a (String b (String c "")))
          /\ (a = "p"%char \/ a = "P"%char)
          /\ (b = "d"%char \/ b = "D"%char)
          /\ (c = "f"%char \/ c = "F"%char))
  /\ lower (suffix ["scan.PDF"]) = ".pdf".
Proof.
  intros r. subst r.
  split; [| split; [| split; [| split; [apply lower_is_pdf | reflexivity]]]].
  - intros [fi Hi] Hpdf. rewrite (command_present h i o q f ng w fi Hi).
    apply eqb_pdf_true in Hpdf.
    destruct (guard_cases w (resolve_output i o) f) as [[Hout ->] | Hguard].
    + rewrite (main_refuses_overwrite h i o q ng w Hpdf Hout). simpl.
      eexists. split; [reflexivity |]. split; [| split].
      * intros Hin. apply list_elem_of_singleton in Hin. discriminate Hin.
      * intros Hin. apply list_elem_of_singleton in Hin. discriminate Hin.
      * intros Hg. specialize (Hg Hout). discriminate Hg.
    + destruct (main_past_guards h i o q f ng w Hpdf Hguard)
        as (errs & tr & Herr & Hshape & Htr).
      exists errs. split; [exact Herr |]. split; [| split].
      * destruct Hshape as [-> | [e ->]].
        -- apply not_elem_of_nil.
        -- intros Hin. apply list_elem_of_singleton in Hin. discriminate Hin.
      * destruct Hshape as [-> | [e ->]].
        -- apply not_elem_of_nil.
        -- intros Hin. apply list_elem_of_singleton in Hin. discriminate Hin.
      * intros _. exists tr. exact Htr.
  - intros [fi Hi] Hpdf. rewrite (command_present h i o q f ng w fi Hi).
    apply eqb_pdf_false in Hpdf.
    rewrite (main_rejects_input h i o q f ng w Hpdf). simpl.
    repeat split; reflexivity.
  - intros Hi. rewrite (command_missing h i o q f ng w Hi). simpl.
    repeat split; reflexivity.
Qed.

Lemma input_validation_witness :
  is_Some (fs world_upper_case !! ["scan.PDF"])
  /\ lower (suffix ["scan.PDF"]) = ".pdf"
  /\ exists errs : list message,
       stderr (snd (command host_gs ["scan.PDF"] None 2 false false world_upper_case))
       = stderr world_upper_case ++ errs
       /\ (MsgInputNotPdf ∉ errs)
       /\ (MsgNoSuchPath ["scan.PDF"] ∉ errs).
Proof.
  assert (Hi : is_Some (fs world_upper_case !! ["scan.PDF"])).
  { exists [Byte.x25; Byte.x50]. vm_compute. reflexivity. }
  assert (Hext : lower (suffix ["scan.PDF"]) = ".pdf") by reflexivity.
  destruct (input_validation host_gs ["scan.PDF"] None 2 false false world_upper_case)
    as (Hvalid & _).
  destruct (Hvalid Hi Hext) as (errs & Herr & Hnot & Hnot' & _).
  split; [exact Hi |]. split; [exact Hext |].
  exists errs. split; [exact Herr |]. split; [exact Hnot | exact Hnot'].
Defined.

(** C9: the pypdf backend does not look at its quality argument: two runs
    that differ in it only return the same sizes and leave the same world,
    so the same output file; and a whole run of [main] that goes to pypdf
    (no [gs], or [--no-gs]) is the same for any two quality levels. *)
Theorem compress_with_pypdf_ignores_quality (h : Host) (i o : Path) (q1 q2 : Z)
    (w : World) :
  compress_with_pypdf h i o q1 w = compress_with_pypdf h i o q2 w
  /\ (forall (out : option Path) (f ng : bool),
        gs_present h && negb ng = false ->
        main h i out q1 f ng w = main h i out q2 f ng w).
Proof.
  split; [reflexivity |].
  intros out f ng Hpypdf.
  unfold main.
  destruct (negb (String.eqb (lower (suffix i)) ".pdf")); [reflexivity |].
  unfold mbind, M_bind, bind, path_exists.
  destruct (bool_decide (is_Some (fs w !! resolve_output i out)) && negb f);
    [reflexivity |].
  rewrite has_ghostscript_run, Hpypdf. reflexivity.
Qed.

Lemma compress_with_pypdf_ignores_quality_witness :
  gs_present host_gs && negb true = false
  /\ main host_gs doc_pdf None 1 false true world_small_input
     = main host_gs doc_pdf None 4 false true world_small_input.
Proof.
  assert (H : gs_present host_gs && negb true = false) by reflexivity.
  split; [exact H |].
  exact (proj2 (compress_with_pypdf_ignores_quality host_gs doc_pdf
                  doc_compressed_pdf 1 4 world_small_input) None false true H).
Defined.

(** C3, as the specification words it, fails on the empty [doc.pdf] when
    [gs] exits with status 0: the backend is run, the percentage is then
    computed, and the division by zero it raises is what is reported. *)
Lemma empty_input_divides_by_zero :
  ~ (fs world_empty_input !! doc_pdf = Some [] ->
     MsgError ZeroDivisionError
       ∉ stderr (snd (main host_gs doc_pdf None 2 false false world_empty_input))).
Proof.
  intros H. apply H.
  - vm_compute. reflexivity.
  - vm_compute. apply list_elem_of_here.
Qed.

(** C3, amended: a request whose input file is empty always ends with
    status 1; when it passes the two guards, one backend is run first and
    the error reported is the exception of that backend if it raised one,
    and the division by zero of the percentage if it returned. *)
Theorem empty_input_fails (h : Host) (i : Path) (o : option Path) (q : Z)
    (f ng : bool) (w : World) (fi : file) :
  fs w !! i = Some fi ->
  st_size fi = 0 ->
  let r := main h i o q f ng w in
  let out := resolve_output i o in
  let use_gs := gs_present h && negb ng in
  let w1 :=
    {| fs := fs w;
       stdout := stdout w ++
         [MsgCompressing (name i);
          if use_gs then MsgMethodGhostscript q else MsgMethodPypdf;
          MsgBefore 0];
       stderr := stderr w;
       trace := trace w ++ [Probe] |} in
  exit_code (fst r) = 1
  /\ (lower (suffix i) = ".pdf" ->
      (is_Some (fs w !! out) -> f = true) ->
      fst r = Raise (SystemExit 1)
      /\ trace (snd r)
         = trace w ++ [Probe; Run (if use_gs then Ghostscript else Pypdf) i out]
      /\ match fst ((if use_gs then compress_with_ghostscript h i out q
                     else compress_with_pypdf h i out q) w1) with
         | Return _ => stderr (snd r) = stderr w ++ [MsgError ZeroDivisionError]
         | Raise e => stderr (snd r) = stderr w ++ [MsgError e]
         end).
Proof.
  intros Hi Hsize r out use_gs w1.
  assert (Hrun : String.eqb (lower (suffix i)) ".pdf" = true ->
                 (is_Some (fs w !! out) -> f = true) ->
                 fst r = Raise (SystemExit 1)
                 /\ trace (snd r)
                    = trace w ++ [Probe; Run (if use_gs then Ghostscript else Pypdf) i out]
                 /\ match fst ((if use_gs then compress_with_ghostscript h i out q
                                else compress_with_pypdf h i out q) w1) with
                    | Return _ => stderr (snd r) = stderr w ++ [MsgError ZeroDivisionError]
                    | Raise e => stderr (snd r) = stderr w ++ [MsgError e]
                    end).
  { intros Hext Hguard. subst r.
    rewrite (main_compresses h i o q f ng w fi Hext Hguard Hi).
    rewrite Hsize. fold out use_gs w1.
    pose proof (backend_frame h use_gs i out q w1) as (_ & Herr & Htr & _).
    destruct ((if use_gs then compress_with_ghostscript h i out q
               else compress_with_pypdf h i out q) w1) as [[[a osz] | e] w2];
      simpl in *; rewrite Herr, Htr, <- app_assoc; repeat split; reflexivity. }
  split.
  - destruct (String.eqb (lower (suffix i)) ".pdf") eqn:Hext.
    + destruct (guard_cases w out f) as [[Hout ->] | Hguard].
      * subst r. rewrite (main_refuses_overwrite h i o q ng w Hext Hout). reflexivity.
      * destruct (Hrun eq_refl Hguard) as (-> & _). reflexivity.
    + subst r. rewrite (main_rejects_input h i o q f ng w Hext). reflexivity.
  - intros Hext Hguard. apply eqb_pdf_true in Hext. exact (Hrun Hext Hguard).
Qed.

Lemma empty_input_fails_witness :
  fs world_empty_input !! doc_pdf = Some []
  /\ exit_code (fst (main host_gs doc_pdf None 2 false false world_empty_input)) = 1.
Proof.
  assert (Hi : fs world_empty_input !! doc_pdf = Some []) by (vm_compute; reflexivity).
  assert (Hsize : st_size [] = 0) by reflexivity.
  destruct (empty_input_fails host_gs doc_pdf None 2 false false world_empty_input
              [] Hi Hsize) as (Hcode & _).
  split; [exact Hi | exact Hcode].
Defined.

(** ** The floats of the report *)










End PdfoSpec.

(** * Further properties of [scripts/bump_version.py] *)

Module BumpVersionMore.
Import BumpVersion BumpVersionSpec.

#[local] Arguments String.append !_ _ : simpl nomatch.

(** ** One item at a time *)

Lemma match_items_step (it : item) (tl : list item) (prev : option ascii)
    (s : string) (ps : list string) :
  match_items (it :: tl) prev s = Some ps ->
  exists (p : string) (ps' : list string) (s' : string),
    ps = p :: ps' /\ piece_ok it p /\ s = p +:+ s'
    /\ match_items tl (last_char p prev) s' = Some ps'
    /\ (it = Bol -> at_bol prev = true)
    /\ (it = Eol -> at_eol s = true).
Proof.
  simpl. destruct it as [| | l | k | k | |].
  - destruct (at_bol prev) eqn:Hb; [| discriminate].
    intros H. apply cons_piece_Some in H as (ps' & Hk & ->).
    exists "", ps', s. repeat split; auto; discriminate.
  - destruct (at_eol s) eqn:He; [| discriminate].
    intros H. apply cons_piece_Some in H as (ps' & Hk & ->).
    exists "", ps', s. repeat split; auto; discriminate.
  - destruct (strip_prefix l s) as [r |] eqn:Hl; [| discriminate].
    intros H. apply cons_piece_Some in H as (ps' & Hk & ->).
    apply strip_prefix_sound in Hl as ->.
    exists l, ps', r. repeat split; auto; discriminate.
  - intros H. apply match_star_sound in H as (p & ps' & r & -> & Hall & -> & Hk).
    exists p, ps', r. repeat split; auto; discriminate.
  - destruct s as [| c s]; [discriminate |].
    destruct (in_class k c) eqn:Hc; [| discriminate].
    intros H. apply grow_piece_Some in H as (p & ps' & Hstar & ->).
    apply match_star_sound in Hstar as (p' & ps'' & r & Heq & Hall & -> & Hk).
    injection Heq as <- <-.
    exists (String c p), ps', r. simpl. rewrite Hc, Hall.
    repeat split; auto; discriminate.
  - intros H. apply cons_piece_Some in H as (ps' & Hk & ->).
    exists "", ps', s. repeat split; auto; discriminate.
  - intros H. apply cons_piece_Some in H as (ps' & Hk & ->).
    exists "", ps', s. repeat split; auto; discriminate.
Qed.

(** What is left after a match of a pattern that ends with [$] is at the
    end of a line. *)
Lemma match_items_eol (items : list item) :
  forall (prev : option ascii) (s : string) (ps : list string),
    match_items items prev s = Some ps ->
    exists rest : string,
      s = concat_str ps +:+ rest
      /\ (forall its, items = its ++ [Eol] -> at_eol rest = true).
Proof.
  induction items as [| it tl IH]; intros prev s ps H.
  - simpl in H. injection H as <-. exists s. split; [reflexivity |].
    intros [| x its] Heq; discriminate Heq.
  - apply match_items_step in H as (p & ps' & s' & -> & Hok & -> & Htl & _ & Heol).
    destruct (IH _ _ _ Htl) as (rest & -> & Hrest).
    exists rest. split; [simpl; rewrite app_str_assoc; reflexivity |].
    intros [| x its] Heq; simpl in Heq; injection Heq as -> ->.
    + simpl in Htl. injection Htl as <-. simpl in Hok. subst p. simpl in *.
      apply Heol. reflexivity.
    + apply (Hrest its). reflexivity.
Qed.

(** Where [search_from] stops, the pattern matches. *)
Lemma search_from_at (items : list item) (s : string) :
  forall (prev : option ascii) (pos : nat) (m : Match),
    search_from items prev s pos = Some m ->
    exists pre tail : string,
      s = pre +:+ tail
      /\ m_start m = (pos + String.length pre)%nat
      /\ match_items items (last_char pre prev) tail = Some (m_pieces m).
Proof.
  induction s as [| c s IH]; intros prev pos m; simpl.
  - destruct (match_items items prev "") as [ps |] eqn:Hm; [| discriminate].
    intros H. injection H as <-. exists "", "". simpl.
    split; [reflexivity |]. split; [lia | exact Hm].
  - destruct (match_items items prev (String c s)) as [ps |] eqn:Hm.
    + intros H. injection H as <-. exists "", (String c s). simpl.
      split; [reflexivity |]. split; [lia | exact Hm].
    + intros H. destruct (IH _ _ _ H) as (pre & tail & -> & Hstart & Hmatch).
      exists (String c pre), tail. simpl.
      split; [reflexivity |]. split; [lia | exact Hmatch].
Qed.

Lemma length_app_str (a b : string) :
  String.length (a +:+ b) = (String.length a + String.length b)%nat.
Proof. induction a as [| c a IH]; simpl; [reflexivity | rewrite IH; reflexivity]. Qed.

(** The parts of a text around a match of [VERSION_RE]. *)
Lemma version_match_parts (text : string) (m : Match) :
  re_search VERSION_RE text = Some m ->
  exists pre post : string,
    text = pre +:+ matched m +:+ post
    /\ take_str (m_start m) text = pre
    /\ drop_str (m_end m) text = post
    /\ m_start m = String.length pre
    /\ at_bol (last_char pre None) = true
    /\ at_eol post = true.
Proof.
  intros Hs. unfold re_search in Hs.
  apply search_from_at in Hs as (pre & tail & -> & Hstart & Hm).
  simpl in Hstart.
  destruct (match_items_eol _ _ _ _ Hm) as (post & -> & Hpost).
  apply match_items_step in Hm as (_ & _ & _ & _ & _ & _ & _ & Hbol & _).
  exists pre, post. fold (matched m).
  split; [reflexivity |].
  split; [rewrite Hstart; apply take_app_str |].
  split.
  { unfold m_end. rewrite Hstart, drop_drop_str, drop_app_str, drop_app_str.
    reflexivity. }
  split; [exact Hstart |].
  split; [apply Hbol; reflexivity |].
  apply (Hpost (removelast VERSION_RE)). reflexivity.
Qed.

Lemma last_char_Some (s : string) :
  forall (prev : option ascii) (c : ascii),
    last_char s prev = Some c ->
    (s = "" /\ prev = Some c) \/ exists s', s = s' +:+ String c "".
Proof.
  induction s as [| x s IH]; intros prev c; simpl.
  - intros ->. left. split; reflexivity.
  - intros H. right. destruct (IH _ _ H) as [[-> Hx] | [s' ->]].
    + injection Hx as ->. exists "". reflexivity.
    + exists (String x s'). reflexivity.
Qed.

Lemma last_char_None (s : string) : last_char s None = None -> s = "".
Proof.
  destruct s as [| x s]; [reflexivity |]. simpl.
  assert (H : forall t c, last_char t (Some c) <> None).
  { induction t as [| y t IH]; intros c; simpl; [discriminate | apply IH]. }
  intros Hn. destruct (H s x Hn).
Qed.

(** X1: The version line is matched as a whole line: the match starts at the
    start of the text or right after a newline, and ends at the end of the
    text or right before a newline. *)
Theorem version_match_is_whole_lines (text : string) (m : Match) :
  re_search VERSION_RE text = Some m ->
  let pre := take_str (m_start m) text in
  let post := drop_str (m_end m) text in
  text = pre +:+ matched m +:+ post
  /\ (pre = "" \/ exists pre', pre = pre' +:+ LF)
  /\ (post = "" \/ exists post', post = LF +:+ post').
Proof.
  intros Hs pre post.
  destruct (version_match_parts text m Hs)
    as (pre0 & post0 & Htext & Hpre & Hpost & _ & Hbol & Heol).
  subst pre post. rewrite Hpre, Hpost.
  split; [exact Htext |]. split.
  - destruct (last_char pre0 None) as [c |] eqn:Hl.
    + simpl in Hbol. apply Ascii.eqb_eq in Hbol. subst c.
      destruct (last_char_Some _ _ _ Hl) as [[_ Hx] | [s' ->]]; [discriminate |].
      right. exists s'. reflexivity.
    + left. apply last_char_None. exact Hl.
  - destruct post0 as [| c post']; [left; reflexivity |].
    simpl in Heol. apply Ascii.eqb_eq in Heol. subst c.
    right. exists post'. reflexivity.
Qed.

Lemma version_match_is_whole_lines_witness :
  exists m : Match,
    re_search VERSION_RE pyproject = Some m
    /\ (take_str (m_start m) pyproject = ""
        \/ exists pre', take_str (m_start m) pyproject = pre' +:+ LF).
Proof.
  destruct (re_search VERSION_RE pyproject) as [m |] eqn:Hs;
    [| vm_compute in Hs; discriminate Hs].
  exists m. split; [reflexivity |].
  exact (proj1 (proj2 (version_match_is_whole_lines pyproject m Hs))).
Defined.

(** ** The matcher looks no further than a character it cannot consume *)

Lemma strip_prefix_local (c : ascii) (l : string) :
  all_chars (fun x => negb (Ascii.eqb x c)) l = true ->
  forall a b : string,
    strip_prefix l (a +:+ String c b)
    = option_map (fun r => r +:+ String c b) (strip_prefix l a).
Proof.
  induction l as [| x l IH]; intros Hl a b; simpl.
  - reflexivity.
  - simpl in Hl. apply andb_true_iff in Hl as [Hx Hl].
    apply negb_true_iff in Hx.
    destruct a as [| y a]; simpl.
    + rewrite Hx. reflexivity.
    + destruct (Ascii.eqb x y); [apply (IH Hl) | reflexivity].
Qed.

Lemma match_star_local (k : option ascii -> string -> option (list string))
    (cls : ascii -> bool) (c : ascii) :
  (forall prev a b b', k prev (a +:+ String c b) = k prev (a +:+ String c b')) ->
  cls c = false ->
  forall (a : string) (prev : option ascii) (b b' : string),
    match_star k cls prev (a +:+ String c b)
    = match_star k cls prev (a +:+ String c b').
Proof.
  intros Hk Hc. induction a as [| x a IH]; intros prev b b'; simpl.
  - pose proof (Hk prev "" b b') as Hhere. simpl in Hhere.
    rewrite Hc, Hhere. reflexivity.
  - rewrite (IH (Some x) b b').
    pose proof (Hk prev (String x a) b b') as Hfall. simpl in Hfall.
    rewrite Hfall. reflexivity.
Qed.

Lemma match_items_local (c : ascii) (items : list item) :
  cannot_consume c items = true ->
  forall (prev : option ascii) (a b b' : string),
    match_items items prev (a +:+ String c b)
    = match_items items prev (a +:+ String c b').
Proof.
  induction items as [| it tl IH]; intros Hc prev a b b'; [reflexivity |].
  simpl in Hc. apply andb_true_iff in Hc as [Hit Htl].
  specialize (IH Htl).
  destruct it as [| | l | k | k | |]; simpl in *.
  - rewrite (IH prev a b b'). reflexivity.
  - rewrite (IH prev a b b'). destruct a; reflexivity.
  - rewrite !(strip_prefix_local c l Hit).
    destruct (strip_prefix l a) as [r |]; simpl; [| reflexivity].
    rewrite (IH _ r b b'). reflexivity.
  - apply negb_true_iff in Hit. apply match_star_local; assumption.
  - apply negb_true_iff in Hit.
    destruct a as [| x a]; simpl; [rewrite Hit; reflexivity |].
    rewrite (match_star_local (match_items tl) (in_class k) c IH Hit a (Some x) b b').
    reflexivity.
  - rewrite (IH prev a b b'). reflexivity.
  - rewrite (IH prev a b b'). reflexivity.
Qed.

(** A pattern [^c l ...] whose only way to consume [c] is its first
    character: started before an occurrence of [c], it does not look past
    that occurrence. *)
Lemma anchored_local (c : ascii) (l : string) (tl : list item)
    (prev : option ascii) (a b b' : string) :
  all_chars (fun x => negb (Ascii.eqb x c)) l = true ->
  cannot_consume c tl = true ->
  a <> "" ->
  match_items (Bol :: Lit (String c l) :: tl) prev (a +:+ String c b)
  = match_items (Bol :: Lit (String c l) :: tl) prev (a +:+ String c b').
Proof.
  intros Hl Htl Ha. destruct a as [| x a]; [contradiction |].
  simpl. destruct (at_bol prev); [| reflexivity].
  destruct (Ascii.eqb c x); [| reflexivity].
  rewrite !(strip_prefix_local c l Hl).
  destruct (strip_prefix l a) as [r |]; simpl; [| reflexivity].
  rewrite (match_items_local c tl Htl _ r b b'). reflexivity.
Qed.

(** ** Building a match *)

Lemma strip_prefix_app (l s : string) : strip_prefix l (l +:+ s) = Some s.
Proof.
  induction l as [| x l IH]; simpl; [reflexivity |].
  rewrite Ascii.eqb_refl. exact IH.
Qed.

Lemma bol_matches (tl : list item) (prev : option ascii) (s : string)
    (ps : list string) :
  at_bol prev = true ->
  match_items tl prev s = Some ps ->
  match_items (Bol :: tl) prev s = Some ("" :: ps).
Proof. intros Hb Hm. simpl. rewrite Hb, Hm. reflexivity. Qed.

Lemma lit_matches (l : string) (tl : list item) (prev : option ascii)
    (s : string) (ps : list string) :
  match_items tl (last_char l prev) s = Some ps ->
  match_items (Lit l :: tl) prev (l +:+ s) = Some (l :: ps).
Proof. intros Hm. simpl. rewrite strip_prefix_app, Hm. reflexivity. Qed.

Lemma group_open_matches (tl : list item) (prev : option ascii) (s : string)
    (ps : list string) :
  match_items tl prev s = Some ps ->
  match_items (GroupOpen :: tl) prev s = Some ("" :: ps).
Proof. intros Hm. simpl. rewrite Hm. reflexivity. Qed.

Lemma group_close_matches (tl : list item) (prev : option ascii) (s : string)
    (ps : list string) :
  match_items tl prev s = Some ps ->
  match_items (GroupClose :: tl) prev s = Some ("" :: ps).
Proof. intros Hm. simpl. rewrite Hm. reflexivity. Qed.

(** The greedy repetition takes a whole run of the class when the rest of
    the pattern matches after the run. *)
Lemma star_greedy (k : option ascii -> string -> option (list string))
    (cls : ascii -> bool) (s : string) (ps : list string) :
  (forall c s', s = String c s' -> cls c = false) ->
  forall (D : string) (prev : option ascii),
    all_chars cls D = true ->
    k (last_char D prev) s = Some ps ->
    match_star k cls prev (D +:+ s) = Some (D :: ps).
Proof.
  intros Hstop. induction D as [| x D IH]; intros prev Hall Hk; simpl in *.
  - destruct s as [| c s']; simpl; [rewrite Hk; reflexivity |].
    rewrite (Hstop c s' eq_refl), Hk. reflexivity.
  - apply andb_true_iff in Hall as [Hx HD].
    rewrite Hx, (IH (Some x) HD Hk). reflexivity.
Qed.

Lemma star_matches (k : charclass) (tl : list item) (prev : option ascii)
    (D s : string) (ps : list string) :
  all_chars (in_class k) D = true ->
  (forall c s', s = String c s' -> in_class k c = false) ->
  match_items tl (last_char D prev) s = Some ps ->
  match_items (Star k :: tl) prev (D +:+ s) = Some (D :: ps).
Proof. intros HD Hstop Hm. simpl. apply star_greedy; assumption. Qed.

Lemma plus_matches (tl : list item) (prev : option ascii)
    (D s : string) (ps : list string) :
  is_digits D = true ->
  (forall c s', s = String c s' -> is_digit c = false) ->
  match_items tl (last_char D prev) s = Some ps ->
  match_items (Plus Digit :: tl) prev (D +:+ s) = Some (D :: ps).
Proof.
  intros HD Hstop Hm. destruct D as [| x D]; [discriminate |].
  simpl in HD. apply andb_true_iff in HD as [Hx HD].
  simpl. rewrite Hx.
  rewrite (star_greedy (match_items tl) (in_class Digit) s ps Hstop D (Some x) HD Hm).
  reflexivity.
Qed.

Lemma star_eol_matches (k : charclass) (prev : option ascii) (s : string) :
  at_eol s = true ->
  exists ws, match_items [Star k; Eol] prev s = Some [ws; ""].
Proof.
  intros He.
  assert (Hsome : exists r, match_items [Star k; Eol] prev s = Some r).
  { simpl. destruct s as [| c s']; simpl.
    - eauto.
    - simpl in He. destruct (in_class k c).
      + destruct (grow_piece c _) as [r |]; [eauto |]. rewrite He. eauto.
      + rewrite He. eauto. }
  destruct Hsome as [r Hr]. rewrite Hr.
  apply match_items_step in Hr as (p & ps' & s' & -> & _ & _ & Htl & _).
  apply match_items_step in Htl as (p' & ps'' & s'' & -> & Hok & _ & Hnil & _).
  simpl in Hok, Hnil. subst p'. injection Hnil as <-.
  exists p. reflexivity.
Qed.

(** A version line written by [write_version] matches [VERSION_RE] where
    a line starts, when what follows it is at the end of a line. *)
Lemma version_line_matches (prev : option ascii) (X Y Z post : string) :
  at_bol prev = true ->
  at_eol post = true ->
  is_digits X = true -> is_digits Y = true -> is_digits Z = true ->
  exists ps : list string,
    match_items VERSION_RE prev
      (version_line (X +:+ "." +:+ Y +:+ "." +:+ Z) +:+ post) = Some ps
    /\ group_of VERSION_RE ps false = X +:+ "." +:+ Y +:+ "." +:+ Z.
Proof.
  intros Hbol Heol HX HY HZ.
  destruct (star_eol_matches Space
              (last_char dquote (last_char Z (last_char "."
                 (last_char Y (last_char "." (last_char X
                    (last_char dquote (last_char " " (last_char "="
                       (last_char " " (last_char "version" prev)))))))))))
              post Heol) as (ws & Hws).
  exists [""; "version"; " "; "="; " "; dquote; ""; X; "."; Y; "."; Z; ""; dquote; ws; ""].
  split.
  - replace (version_line (X +:+ "." +:+ Y +:+ "." +:+ Z) +:+ post)
      with ("version" +:+ " " +:+ "=" +:+ " " +:+ dquote +:+ X +:+ "."
            +:+ Y +:+ "." +:+ Z +:+ dquote +:+ post).
    2:{ unfold version_line. rewrite !app_str_assoc. reflexivity. }
    unfold VERSION_RE.
    apply bol_matches; [exact Hbol |].
    apply lit_matches.
    apply star_matches; [reflexivity | intros c s' H; injection H as <- _; reflexivity |].
    apply lit_matches.
    apply star_matches;
      [reflexivity | intros c s' H; injection H as <- _; reflexivity |].
    apply lit_matches.
    apply group_open_matches.
    apply plus_matches;
      [exact HX | intros c s' H; injection H as <- _; reflexivity |].
    apply lit_matches.
    apply plus_matches;
      [exact HY | intros c s' H; injection H as <- _; reflexivity |].
    apply lit_matches.
    apply plus_matches;
      [exact HZ | intros c s' H; injection H as <- _; reflexivity |].
    apply group_close_matches.
    apply lit_matches.
    exact Hws.
  - simpl. rewrite !app_str_nil_r. reflexivity.
Qed.

(** ** [search] finds the leftmost place where the pattern matches *)

Lemma search_from_complete (items : list item) (ps : list string) :
  forall (k : nat) (s : string) (prev : option ascii) (pos : nat),
    (forall n, (n < k)%nat ->
       match_items items (last_char (take_str n s) prev) (drop_str n s) = None) ->
    (k <= String.length s)%nat ->
    match_items items (last_char (take_str k s) prev) (drop_str k s) = Some ps ->
    search_from items prev s pos = Some {| m_start := pos + k; m_pieces := ps |}.
Proof.
  induction k as [| k IH]; intros s prev pos Hnone Hlen Hhere.
  - replace (pos + 0)%nat with pos by lia.
    destruct s as [| c s]; simpl in *; rewrite Hhere; reflexivity.
  - destruct s as [| c s]; [simpl in Hlen; lia |].
    pose proof (Hnone 0%nat ltac:(lia)) as H0. simpl in H0.
    simpl. rewrite H0.
    replace (pos + S k)%nat with (S pos + k)%nat by lia.
    apply IH.
    + intros n Hn. apply (Hnone (S n)). lia.
    + simpl in Hlen. lia.
    + exact Hhere.
Qed.

Lemma take_str_app_le (n : nat) (a b : string) :
  (n <= String.length a)%nat -> take_str n (a +:+ b) = take_str n a.
Proof.
  revert a. induction n as [| n IH]; intros a Hn.
  - destruct a, b; reflexivity.
  - destruct a as [| x a]; [simpl in Hn; lia |].
    simpl. rewrite IH by (simpl in Hn; lia). reflexivity.
Qed.

Lemma drop_str_app_lt (n : nat) (a b : string) :
  (n < String.length a)%nat ->
  exists a', a' <> "" /\ drop_str n (a +:+ b) = a' +:+ b.
Proof.
  revert a. induction n as [| n IH]; intros a Hn.
  - destruct a as [| x a]; [simpl in Hn; lia |].
    exists (String x a). split; [discriminate | reflexivity].
  - destruct a as [| x a]; [simpl in Hn; lia |].
    simpl. apply IH. simpl in Hn. lia.
Qed.

(** ** Text read in text mode holds no carriage return *)

Lemma universal_newlines_cons (n : nat) :
  forall s : string,
    (String.length s <= n)%nat ->
    all_chars (fun c => negb (Ascii.eqb c carriage_return)) (universal_newlines s)
    = true.
Proof.
  induction n as [| n IH]; intros s Hlen.
  - destruct s; [reflexivity | simpl in Hlen; lia].
  - destruct s as [| c s]; [reflexivity |].
    simpl in Hlen. simpl.
    destruct (Ascii.eqb c carriage_return) eqn:Hc.
    + destruct s as [| d s]; [reflexivity |].
      destruct (Ascii.eqb d newline); simpl.
      * apply IH. simpl in Hlen. lia.
      * apply (IH (String d s)). simpl in *. lia.
    + simpl. rewrite Hc. simpl. apply IH. lia.
Qed.

Lemma universal_newlines_no_cr (s : string) :
  all_chars (fun c => negb (Ascii.eqb c carriage_return)) (universal_newlines s)
  = true.
Proof. apply (universal_newlines_cons (String.length s)). lia. Qed.

Lemma universal_newlines_id (s : string) :
  all_chars (fun c => negb (Ascii.eqb c carriage_return)) s = true ->
  universal_newlines s = s.
Proof.
  induction s as [| c s IH]; simpl; [reflexivity |].
  intros H. apply andb_true_iff in H as [Hc Hs].
  apply negb_true_iff in Hc. rewrite Hc, (IH Hs). reflexivity.
Qed.

Lemma all_chars_take (cls : ascii -> bool) (n : nat) (s : string) :
  all_chars cls s = true -> all_chars cls (take_str n s) = true.
Proof.
  revert s. induction n as [| n IH]; intros [| c s]; simpl; try reflexivity.
  intros H. apply andb_true_iff in H as [Hc Hs]. rewrite Hc, (IH s Hs). reflexivity.
Qed.

Lemma all_chars_drop (cls : ascii -> bool) (n : nat) (s : string) :
  all_chars cls s = true -> all_chars cls (drop_str n s) = true.
Proof.
  revert s. induction n as [| n IH]; intros [| c s]; simpl; try reflexivity; auto.
  intros H. apply andb_true_iff in H as [Hc Hs]. apply (IH s Hs).
Qed.

Lemma digits_no_cr (X : string) :
  is_digits X = true ->
  all_chars (fun c => negb (Ascii.eqb c carriage_return)) X = true.
Proof.
  intros HX. apply is_digits_all in HX. revert HX.
  apply all_chars_impl. intros c Hc.
  destruct c as [[] [] [] [] [] [] [] []]; vm_compute in Hc |- *;
    first [reflexivity | discriminate Hc].
Qed.

Lemma drop_str_app_le (n : nat) (a b : string) :
  (n <= String.length a)%nat -> drop_str n (a +:+ b) = drop_str n a +:+ b.
Proof.
  revert a. induction n as [| n IH]; intros a Hn.
  - destruct a; reflexivity.
  - destruct a as [| x a]; [simpl in Hn; lia |].
    simpl. apply IH. simpl in Hn. lia.
Qed.

Lemma drop_str_nonempty (n : nat) (a : string) :
  (n < String.length a)%nat -> drop_str n a <> "".
Proof.
  revert a. induction n as [| n IH]; intros a Hn.
  - destruct a; [simpl in Hn; lia | discriminate].
  - destruct a as [| x a]; [simpl in Hn; lia |].
    simpl. apply IH. simpl in Hn. lia.
Qed.

(** ** Reading back a rewritten manifest *)

(** Replacing the match by a version line keeps the place of the first
    match and makes its group the version written. *)
Lemma rewrite_read_back (text : string) (m : Match) (X Y Z : string) :
  re_search VERSION_RE text = Some m ->
  is_digits X = true -> is_digits Y = true -> is_digits Z = true ->
  exists m' : Match,
    re_search VERSION_RE
      (take_str (m_start m) text
       +:+ version_line (X +:+ "." +:+ Y +:+ "." +:+ Z)
       +:+ drop_str (m_end m) text) = Some m'
    /\ m_start m' = m_start m
    /\ group1 m' = X +:+ "." +:+ Y +:+ "." +:+ Z.
Proof.
  intros Hs HX HY HZ.
  destruct (version_match_parts text m Hs)
    as (pre & post & Htext & Hpre & Hpost & Hstart & Hbol & Heol).
  destruct (version_match_shape text m Hs)
    as (_ & _ & ws1 & ws2 & ws3 & X0 & Y0 & Z0 & _ & _ & Hm & _).
  destruct (version_line_matches (last_char pre None) X Y Z post Hbol Heol HX HY HZ)
    as (ps & Hps & Hgroup).
  rewrite Hpre, Hpost.
  exists {| m_start := 0 + String.length pre; m_pieces := ps |}.
  split; [| split; [simpl; lia | exact Hgroup]].
  unfold re_search. apply search_from_complete.
  - intros n Hn.
    rewrite take_str_app_le by lia. rewrite drop_str_app_le by lia.
    pose proof (search_from_first VERSION_RE text None 0%nat m Hs n ltac:(simpl; lia))
      as Hold.
    rewrite Htext in Hold.
    rewrite take_str_app_le in Hold by lia. rewrite drop_str_app_le in Hold by lia.
    rewrite Hm in Hold.
    rewrite <- Hold.
    apply (anchored_local "v" "ersion"); [reflexivity | reflexivity |].
    apply drop_str_nonempty. exact Hn.
  - rewrite length_app_str. lia.
  - rewrite take_app_str, drop_app_str. exact Hps.
Qed.

Lemma version_line_no_cr (X Y Z : string) :
  is_digits X = true -> is_digits Y = true -> is_digits Z = true ->
  all_chars (fun c => negb (Ascii.eqb c carriage_return))
    (version_line (X +:+ "." +:+ Y +:+ "." +:+ Z)) = true.
Proof.
  intros HX HY HZ. unfold version_line.
  rewrite !all_chars_app.
  rewrite (digits_no_cr X HX), (digits_no_cr Y HY), (digits_no_cr Z HZ).
  reflexivity.
Qed.

Lemma rewritten_text_no_cr (raw : string) (n k : nat) (X Y Z : string) :
  is_digits X = true -> is_digits Y = true -> is_digits Z = true ->
  universal_newlines
    (take_str n (universal_newlines raw)
     +:+ version_line (X +:+ "." +:+ Y +:+ "." +:+ Z)
     +:+ drop_str k (universal_newlines raw))
  = take_str n (universal_newlines raw)
    +:+ version_line (X +:+ "." +:+ Y +:+ "." +:+ Z)
    +:+ drop_str k (universal_newlines raw).
Proof.
  intros HX HY HZ. apply universal_newlines_id.
  rewrite !all_chars_app.
  rewrite (all_chars_take _ n _ (universal_newlines_no_cr raw)).
  rewrite (all_chars_drop _ k _ (universal_newlines_no_cr raw)).
  rewrite (version_line_no_cr X Y Z HX HY HZ). reflexivity.
Qed.

(** X2: Round trip of [write_version] and [read_version]: when the manifest has
    a version line, writing a version of three decimal components succeeds,
    touches no other file, and reading the manifest again gives back the
    version written. *)
Theorem write_then_read_version (w : World) (path raw : string) (X Y Z : string) :
  fs w !! path = Some raw ->
  is_Some (re_search VERSION_RE (universal_newlines raw)) ->
  is_digits X = true -> is_digits Y = true -> is_digits Z = true ->
  let v := X +:+ "." +:+ Y +:+ "." +:+ Z in
  exists w' : World,
    write_version path v w = (Return tt, w')
    /\ stdout w' = stdout w
    /\ (forall p, p <> path -> fs w' !! p = fs w !! p)
    /\ (text ← read_text path; lift (read_version text)) w' = (Return v, w').
Proof.
  intros Hraw [m Hs] HX HY HZ v. subst v.
  destruct (rewrite_read_back _ m X Y Z Hs HX HY HZ) as (m' & Hs' & _ & Hg).
  exists {| fs := <[path := take_str (m_start m) (universal_newlines raw)
                             +:+ version_line (X +:+ "." +:+ Y +:+ "." +:+ Z)
                             +:+ drop_str (m_end m) (universal_newlines raw)]> (fs w);
            stdout := stdout w |}.
  split.
  { unfold write_version, mbind, M_bind, bind, read_text, re_subn1, write_text.
    rewrite Hraw, Hs. reflexivity. }
  split; [reflexivity |]. split.
  { intros p Hp. cbn [fs]. apply lookup_insert_ne. congruence. }
  unfold mbind, M_bind, bind, read_text, lift, read_version. cbn [fs].
  rewrite lookup_insert_eq.
  rewrite (rewritten_text_no_cr raw _ _ X Y Z HX HY HZ).
  rewrite Hs', Hg. reflexivity.
Qed.

Lemma write_then_read_version_witness :
  fs world_manifest !! "pyproject.toml" = Some pyproject
  /\ exists w' : World,
       write_version "pyproject.toml" ("10" +:+ "." +:+ "0" +:+ "." +:+ "7")
         world_manifest = (Return tt, w')
       /\ (text ← read_text "pyproject.toml"; lift (read_version text)) w'
          = (Return "10.0.7", w').
Proof.
  assert (H : fs world_manifest !! "pyproject.toml" = Some pyproject).
  { vm_compute. reflexivity. }
  assert (Hs : is_Some (re_search VERSION_RE (universal_newlines pyproject))).
  { vm_compute. eexists. reflexivity. }
  destruct (write_then_read_version world_manifest "pyproject.toml" pyproject
              "10" "0" "7" H Hs eq_refl eq_refl eq_refl)
    as (w' & Hw & _ & _ & Hr).
  split; [exact H |]. exists w'. split; [exact Hw | exact Hr].
Defined.

(** [int()] reads back the number whose numeral [str()] has printed. *)
Lemma digits_value_str (n : Z) :
  0 <= n -> fits n = true ->
  is_digits (str_of_Z n) = true /\ digits_value (str_of_Z n) = n.
Proof.
  intros Hn Hfit. destruct (str_of_Z_roundtrip n Hn Hfit) as [Hdig Hint].
  split; [exact Hdig |].
  rewrite (py_int_digits _ Hdig (fits_length n Hn Hfit)) in Hint.
  injection Hint as Hint. exact Hint.
Qed.

(** What a bump that returns leaves: the manifest rewritten, its text free
    of carriage returns, its first version line carrying the version
    printed, which is the version asked for. *)
Lemma after_bump (w : World) (path : string) (b : bump_choice) (n : Z)
    (w1 : World) :
  main {| file := path; bump := Some b; current := false |} w = (Return n, w1) ->
  exists (x y z x' y' z' : Z) (new_raw : string) (m' : Match),
    0 <= x /\ 0 <= y /\ 0 <= z
    /\ bumped_numbers b x y z = (x', y', z')
    /\ 0 <= x' /\ 0 <= y' /\ 0 <= z'
    /\ fits x' = true /\ fits y' = true /\ fits z' = true
    /\ bumped b x y z = str_of_Z x' +:+ "." +:+ str_of_Z y' +:+ "." +:+ str_of_Z z'
    /\ n = 0
    /\ w1 = {| fs := <[path := new_raw]> (fs w);
               stdout := stdout w ++ [bumped b x y z] |}
    /\ universal_newlines new_raw = new_raw
    /\ re_search VERSION_RE new_raw = Some m'
    /\ group1 m' = bumped b x y z.
Proof.
  intros Hmain.
  destruct (fs w !! path) as [raw |] eqn:Hraw.
  2:{ rewrite (main_unreadable w {| file := path; bump := Some b; current := false |}
                 Hraw) in Hmain. discriminate Hmain. }
  destruct (re_search VERSION_RE (universal_newlines raw)) as [m |] eqn:Hs.
  2:{ rewrite (main_not_found w {| file := path; bump := Some b; current := false |}
                 raw Hraw Hs) in Hmain. discriminate Hmain. }
  destruct (version_match_shape _ m Hs)
    as (_ & _ & _ & _ & _ & X & Y & Z' & _ & _ & _ & Hg & _ & _ & _ & HX & HY & HZ).
  destruct (bump_version (group1 m) (choice_name b)) as [new | e] eqn:Hbump.
  2:{ rewrite (main_bump_refused w path b raw m e Hraw Hs Hbump) in Hmain.
      discriminate Hmain. }
  rewrite (main_bumps w path b raw m new Hraw Hs Hbump) in Hmain.
  injection Hmain as <- <-.
  rewrite Hg in Hbump.
  destruct (bump_version_returns b X Y Z' new HX HY HZ Hbump)
    as (_ & Hnew & x' & y' & z' & Hnum & Hx' & Hy' & Hz' & Hfx & Hfy & Hfz & Hshape).
  destruct (digits_value_str x' Hx' Hfx) as [HA _].
  destruct (digits_value_str y' Hy' Hfy) as [HB _].
  destruct (digits_value_str z' Hz' Hfz) as [HC _].
  destruct (rewrite_read_back _ m _ _ _ Hs HA HB HC) as (m' & Hs' & _ & Hg').
  exists (digits_value X), (digits_value Y), (digits_value Z'), x', y', z'.
  eexists. exists m'.
  split; [apply digits_value_nonneg; exact HX |].
  split; [apply digits_value_nonneg; exact HY |].
  split; [apply digits_value_nonneg; exact HZ |].
  split; [exact Hnum |].
  do 6 (split; [assumption |]).
  rewrite <- Hnew.
  split; [exact Hshape |]. split; [reflexivity |]. split; [reflexivity |].
  rewrite Hshape.
  split; [apply rewritten_text_no_cr; assumption |].
  split; [exact Hs' | exact Hg'].
Qed.

(** X3: A bump that returns, followed by [--current]: the second run prints
    the version the first one printed, and returns 0, whatever its
    [--bump]. *)
Theorem bump_then_current (w : World) (path : string) (b : bump_choice)
    (n : Z) (w1 : World) :
  main {| file := path; bump := Some b; current := false |} w = (Return n, w1) ->
  exists new : string,
    stdout w1 = stdout w ++ [new]
    /\ forall b' : option bump_choice,
         main {| file := path; bump := b'; current := true |} w1
         = (Return 0, {| fs := fs w1; stdout := stdout w1 ++ [new] |}).
Proof.
  intros Hmain.
  destruct (after_bump w path b n w1 Hmain)
    as (x & y & z & x' & y' & z' & new_raw & m' & _ & _ & _ & _ & _ & _ & _ & _ & _ & _
        & _ & _ & -> & Hid & Hs' & Hg').
  exists (bumped b x y z). split; [reflexivity |].
  intros b'. rewrite <- Hg'.
  apply (main_current _ path b' new_raw m').
  - simpl. apply lookup_insert_eq.
  - rewrite Hid. exact Hs'.
Qed.

Lemma bump_then_current_witness :
  exists (w1 : World) (new : string),
    main {| file := "pyproject.toml"; bump := Some Patch; current := false |}
      world_manifest = (Return 0, w1)
    /\ stdout w1 = stdout world_manifest ++ [new]
    /\ main {| file := "pyproject.toml"; bump := None; current := true |} w1
       = (Return 0, {| fs := fs w1; stdout := stdout w1 ++ [new] |}).
Proof.
  assert (H : main {| file := "pyproject.toml"; bump := Some Patch; current := false |}
                world_manifest
              = (Return 0,
                 snd (main {| file := "pyproject.toml"; bump := Some Patch;
                              current := false |} world_manifest))).
  { vm_compute. reflexivity. }
  destruct (bump_then_current world_manifest "pyproject.toml" Patch 0 _ H)
    as (new & Hout & Hcur).
  eexists. exists new. split; [exact H |]. split; [exact Hout | apply Hcur].
Defined.

(** X4: Two bumps in a row that both return: the second run bumps the
    version the first one wrote; the output is the first version asked for,
    then the version asked for from the numbers of that one. *)
Theorem bump_twice (w : World) (path : string) (b1 b2 : bump_choice)
    (n1 n2 : Z) (w1 w2 : World) :
  main {| file := path; bump := Some b1; current := false |} w = (Return n1, w1) ->
  main {| file := path; bump := Some b2; current := false |} w1 = (Return n2, w2) ->
  exists x y z : Z,
    0 <= x /\ 0 <= y /\ 0 <= z
    /\ stdout w2
       = stdout w ++
         [bumped b1 x y z;
          match b1 with
          | Major => bumped b2 (x + 1) 0 0
          | Minor => bumped b2 x (y + 1) 0
          | Patch => bumped b2 x y (z + 1)
          end].
Proof.
  intros Hmain1 Hmain2.
  destruct (after_bump w path b1 n1 w1 Hmain1)
    as (x & y & z & x' & y' & z' & new_raw & m' & Hx & Hy & Hz & Hnum
        & Hx' & Hy' & Hz' & Hfx & Hfy & Hfz & Hshape & _ & -> & Hid & Hs' & Hg').
  exists x, y, z. do 3 (split; [assumption |]).
  assert (Hraw1 : fs {| fs := <[path := new_raw]> (fs w);
                        stdout := stdout w ++ [bumped b1 x y z] |} !! path
                  = Some new_raw) by (simpl; apply lookup_insert_eq).
  rewrite <- Hid in Hs'.
  destruct (digits_value_str x' Hx' Hfx) as [HA HvA].
  destruct (digits_value_str y' Hy' Hfy) as [HB HvB].
  destruct (digits_value_str z' Hz' Hfz) as [HC HvC].
  destruct (bump_version (group1 m') (choice_name b2)) as [new2 | e] eqn:Hbump.
  2:{ rewrite (main_bump_refused _ path b2 new_raw m' e Hraw1 Hs' Hbump) in Hmain2.
      discriminate Hmain2. }
  rewrite (main_bumps _ path b2 new_raw m' new2 Hraw1 Hs' Hbump) in Hmain2.
  injection Hmain2 as <- <-. cbn [stdout].
  rewrite Hg', Hshape in Hbump.
  destruct (bump_version_returns b2 _ _ _ new2 HA HB HC Hbump) as (_ & -> & _).
  rewrite HvA, HvB, HvC, <- app_assoc.
  destruct b1; simpl in Hnum; injection Hnum as <- <- <-; reflexivity.
Qed.

Lemma bump_twice_witness :
  exists (w1 w2 : World) (x y z : Z),
    main {| file := "pyproject.toml"; bump := Some Patch; current := false |}
      world_manifest = (Return 0, w1)
    /\ main {| file := "pyproject.toml"; bump := Some Major; current := false |}
         w1 = (Return 0, w2)
    /\ stdout w2 = stdout world_manifest
                   ++ [bumped Patch x y z; bumped Major x y (z + 1)].
Proof.
  assert (H1 : main {| file := "pyproject.toml"; bump := Some Patch; current := false |}
                 world_manifest
               = (Return 0,
                  snd (main {| file := "pyproject.toml"; bump := Some Patch;
                               current := false |} world_manifest))).
  { vm_compute. reflexivity. }
  assert (H2 : main {| file := "pyproject.toml"; bump := Some Major; current := false |}
                 (snd (main {| file := "pyproject.toml"; bump := Some Patch;
                               current := false |} world_manifest))
               = (Return 0,
                  snd (main {| file := "pyproject.toml"; bump := Some Major;
                               current := false |}
                         (snd (main {| file := "pyproject.toml"; bump := Some Patch;
                                       current := false |} world_manifest))))).
  { vm_compute. reflexivity. }
  destruct (bump_twice world_manifest "pyproject.toml" Patch Major 0 0 _ _ H1 H2)
    as (x & y & z & _ & _ & _ & Hout).
  do 2 eexists. exists x, y, z.
  split; [exact H1 |]. split; [exact H2 | exact Hout].
Defined.

(** ** Bumps one after the other *)

(** On the numerals of three numbers, within the limits on digits,
    [bump_version] gives the version asked for. *)
Lemma bump_version_canonical (b : bump_choice) (x y z : Z) :
  0 <= x -> 0 <= y -> 0 <= z ->
  fits x = true -> fits y = true -> fits z = true ->
  fits (bumped_component b x y z + 1) = true ->
  bump_version (str_of_Z x +:+ "." +:+ str_of_Z y +:+ "." +:+ str_of_Z z)
    (choice_name b)
  = Return (bumped b x y z).
Proof.
  intros Hx Hy Hz Hfx Hfy Hfz Hb.
  destruct (digits_value_str x Hx Hfx) as [HA HvA].
  destruct (digits_value_str y Hy Hfy) as [HB HvB].
  destruct (digits_value_str z Hz Hfz) as [HC HvC].
  pose proof (bump_version_components b _ _ _ HA HB HC) as Hc. cbv zeta in Hc.
  unfold within_limits in Hc. rewrite HvA, HvB, HvC, Hb in Hc.
  rewrite !(proj2 (Nat.leb_le _ _)) in Hc by (apply fits_length; assumption).
  exact Hc.
Qed.

(** X7: A higher bump forgets the lower bumps made before it: [major] after
    [minor] or [patch] gives what [major] alone gives, and [minor] after
    [patch] what [minor] alone gives; the other way round the bumps add up.
    This holds as long as [int()] and [str()] accept the numbers met, that
    is below the limit on digits. *)
Theorem higher_bump_absorbs_lower (x y z : Z) :
  0 <= x -> 0 <= y -> 0 <= z ->
  fits x = true -> fits y = true ->
  fits (x + 1) = true -> fits (y + 1) = true -> fits (z + 1) = true ->
  bump_version (str_of_Z x +:+ "." +:+ str_of_Z (y + 1) +:+ ".0") "major"
  = Return (str_of_Z (x + 1) +:+ ".0.0")
  /\ bump_version (str_of_Z x +:+ "." +:+ str_of_Z y +:+ "." +:+ str_of_Z (z + 1)) "major"
     = Return (str_of_Z (x + 1) +:+ ".0.0")
  /\ bump_version (str_of_Z x +:+ "." +:+ str_of_Z y +:+ "." +:+ str_of_Z (z + 1)) "minor"
     = Return (str_of_Z x +:+ "." +:+ str_of_Z (y + 1) +:+ ".0")
  /\ bump_version (str_of_Z (x + 1) +:+ ".0.0") "minor"
     = Return (str_of_Z (x + 1) +:+ ".1.0")
  /\ bump_version (str_of_Z x +:+ "." +:+ str_of_Z (y + 1) +:+ ".0") "patch"
     = Return (str_of_Z x +:+ "." +:+ str_of_Z (y + 1) +:+ ".1").
Proof.
  intros Hx Hy Hz Hfx Hfy Hfx1 Hfy1 Hfz1.
  assert (H0 : fits 0 = true) by (vm_compute; reflexivity).
  assert (H1 : fits 1 = true) by (vm_compute; reflexivity).
  split; [| split; [| split; [| split]]].
  - apply (bump_version_canonical Major x (y + 1) 0); simpl; assumption || lia.
  - apply (bump_version_canonical Major x y (z + 1)); simpl; assumption || lia.
  - apply (bump_version_canonical Minor x y (z + 1)); simpl; assumption || lia.
  - apply (bump_version_canonical Minor (x + 1) 0 0); simpl; assumption || lia.
  - apply (bump_version_canonical Patch x (y + 1) 0); simpl; assumption || lia.
Qed.

Lemma higher_bump_absorbs_lower_witness :
  bump_version "1.2.4" "major" = Return "2.0.0"
  /\ bump_version "2.0.0" "minor" = Return "2.1.0".
Proof.
  destruct (higher_bump_absorbs_lower 1 2 3) as (_ & Hmajor & _ & Hminor & _);
    try lia; try (vm_compute; reflexivity).
  split; [exact Hmajor | exact Hminor].
Defined.

(** ** What a run of the script does to the world *)




(** X9: A run never touches a file other than the manifest, and a run that
    returns returns 0 and prints exactly one line. *)
Theorem main_touches_only_manifest (args : Args) (w : World) :
  (forall p : string,
     p <> file args -> fs (snd (main args w)) !! p = fs w !! p)
  /\ (forall (n : Z) (w' : World),
        main args w = (Return n, w') ->
        n = 0 /\ exists line : string, stdout w' = stdout w ++ [line]).
Proof.
  destruct args as [path b cur]. simpl.
  destruct (fs w !! path) as [raw |] eqn:Hraw.
  - destruct (re_search VERSION_RE (universal_newlines raw)) as [m |] eqn:Hs.
    + destruct cur.
      * rewrite (main_current w path b raw m Hraw Hs). simpl.
        split; [reflexivity |]. intros n w' H. injection H as <- <-. eauto.
      * destruct b as [b |].
        -- destruct (bump_version (group1 m) (choice_name b)) as [new | e] eqn:Hbump.
           ++ rewrite (main_bumps w path b raw m new Hraw Hs Hbump). simpl. split.
              ** intros p Hp. apply lookup_insert_ne. congruence.
              ** intros n w' H. injection H as <- <-. eauto.
           ++ rewrite (main_bump_refused w path b raw m e Hraw Hs Hbump). simpl.
              split; [reflexivity | discriminate].
        -- rewrite (main_needs_bump w path raw m Hraw Hs). simpl.
           split; [reflexivity | discriminate].
    + rewrite (main_not_found w {| file := path; bump := b; current := cur |}
                 raw Hraw Hs).
      simpl. split; [reflexivity | discriminate].
  - rewrite (main_unreadable w {| file := path; bump := b; current := cur |} Hraw).
    simpl. split; [reflexivity | discriminate].
Qed.

Lemma main_touches_only_manifest_witness :
  "other.toml" <> "pyproject.toml"
  /\ fs (snd (main {| file := "pyproject.toml"; bump := Some Major; current := false |}
                world_two_files)) !! "other.toml"
     = fs world_two_files !! "other.toml".
Proof.
  assert (H : "other.toml" <> "pyproject.toml") by discriminate.
  split; [exact H |].
  exact (proj1 (main_touches_only_manifest
                  {| file := "pyproject.toml"; bump := Some Major; current := false |}
                  world_two_files) "other.toml" H).
Defined.

(** X10: [write_version] on its own, for a version that holds no backslash
    (which [re] then inserts as it is): it prints nothing and touches no
    other file; it fails, leaving the files as they are, exactly when the
    manifest cannot be read or has no version line (the update error);
    otherwise it returns and the manifest is the text read with the first
    version line replaced. *)
Theorem write_version_outcomes (path new_version : string) (w : World) :
  plain new_version = true ->
  stdout (snd (write_version path new_version w)) = stdout w
  /\ (forall p, p <> path -> fs (snd (write_version path new_version w)) !! p = fs w !! p)
  /\ match fs w !! path with
     | None =>
         write_version path new_version w = (Raise (ReadError path), w)
     | Some raw =>
         match re_search VERSION_RE (universal_newlines raw) with
         | None =>
             write_version path new_version w
             = (Raise (ValueError "Failed to update version in pyproject.toml"), w)
         | Some m =>
             fst (write_version path new_version w) = Return tt
             /\ fs (snd (write_version path new_version w)) !! path
                = Some (manifest_with (take_str (m_start m) (universal_newlines raw))
                          new_version
                          (drop_str (m_end m) (universal_newlines raw)))
         end
     end.
Proof.
  intros _.
  unfold write_version, mbind, M_bind, bind, read_text, re_subn1, write_text, raise.
  destruct (fs w !! path) as [raw |] eqn:Hraw; cbn [fst snd fs stdout].
  - destruct (re_search VERSION_RE (universal_newlines raw)) as [m |] eqn:Hs;
      cbn [fst snd fs stdout negb Z.eqb Pos.eqb].
    + split; [reflexivity |]. split.
      * intros p Hp. apply lookup_insert_ne. congruence.
      * split; [reflexivity |].
        rewrite version_line_written. apply lookup_insert_eq.
    + repeat split; reflexivity.
  - repeat split; reflexivity.
Qed.

Lemma write_version_outcomes_witness :
  plain "2.0.0rc1" = true
  /\ write_version "other.toml" "2.0.0rc1" world_two_files
     = (Raise (ValueError "Failed to update version in pyproject.toml"),
        world_two_files).
Proof.
  assert (H : plain "2.0.0rc1" = true) by reflexivity.
  split; [exact H |].
  exact (proj2 (proj2 (write_version_outcomes "other.toml" "2.0.0rc1"
                         world_two_files H))).
Defined.

End BumpVersionMore.

(** * Further properties of [pdfo.py] *)

Module PdfoMore.
Import Pdfo PdfoSpec.

#[local] Arguments String.append !_ _ : simpl nomatch.

(** ** Names, stems and suffixes *)

Lemma str_length_app (a b : string) :
  String.length (a +:+ b) = (String.length a + String.length b)%nat.
Proof. induction a as [| c a IH]; simpl; [reflexivity | rewrite IH; reflexivity]. Qed.

Lemma str_take_drop (n : nat) (s : string) : take_str n s +:+ drop_str n s = s.
Proof.
  revert s. induction n as [| n IH]; intros [| c s]; simpl; try reflexivity.
  rewrite IH. reflexivity.
Qed.

Lemma str_take_app (a b : string) : take_str (String.length a) (a +:+ b) = a.
Proof. induction a as [| c a IH]; simpl; [destruct b | rewrite IH]; reflexivity. Qed.

Lemma str_drop_app (a b : string) : drop_str (String.length a) (a +:+ b) = b.
Proof. induction a as [| c a IH]; simpl; [destruct b; reflexivity | exact IH]. Qed.

Lemma str_drop_length (n : nat) (s : string) :
  String.length (drop_str n s) = (String.length s - n)%nat.
Proof.
  revert s. induction n as [| n IH]; intros [| c s]; simpl; try reflexivity.
  apply IH.
Qed.

Lemma app_str_assoc_local (a b c : string) : (a +:+ b) +:+ c = a +:+ b +:+ c.
Proof. induction a as [| x a IH]; simpl; [reflexivity | rewrite IH; reflexivity]. Qed.

Lemma rfind_dot_app (a b : string) :
  rfind_dot (a +:+ b)
  = match rfind_dot b with
    | Some j => Some (String.length a + j)%nat
    | None => rfind_dot a
    end.
Proof.
  induction a as [| c a IH]; simpl.
  - destruct (rfind_dot b); reflexivity.
  - rewrite IH. destruct (rfind_dot b); reflexivity.
Qed.

Lemma rfind_dot_drop (n : string) :
  forall idx : nat, rfind_dot n = Some idx -> rfind_dot (drop_str idx n) = Some 0%nat.
Proof.
  induction n as [| c n IH]; intros idx; simpl; [discriminate |].
  destruct (rfind_dot n) as [i |] eqn:Hn.
  - intros H. injection H as <-. simpl. apply IH. reflexivity.
  - destruct (Ascii.eqb c ".") eqn:Hc; [| discriminate].
    intros H. injection H as <-. simpl. rewrite Hn, Hc. reflexivity.
Qed.

(** A path with a suffix: its name is its stem followed by its suffix, and
    the path is its parent followed by its name. *)
Lemma with_suffix (i : Path) :
  suffix i <> "" ->
  name i = stem i +:+ suffix i
  /\ rfind_dot (suffix i) = Some 0%nat
  /\ (2 <= String.length (suffix i))%nat
  /\ i = parent i ++ [name i].
Proof.
  intros Hsuf. unfold suffix, stem in *.
  destruct (rfind_dot (name i)) as [idx |] eqn:Hidx; [| contradiction].
  destruct ((0 <? idx)%nat && (idx <? String.length (name i) - 1)%nat) eqn:Hc;
    [| contradiction].
  apply andb_true_iff in Hc as [H0 H1].
  apply Nat.ltb_lt in H0, H1.
  split; [symmetry; apply str_take_drop |].
  split; [apply rfind_dot_drop; exact Hidx |].
  split; [rewrite str_drop_length; lia |].
  assert (Hname : name i <> "").
  { intros Hn. rewrite Hn in H1. simpl in H1. lia. }
  unfold name in *. unfold parent.
  destruct (length i =? (if has_anchor i then 1 else 0))%nat eqn:Hlen;
    [contradiction |].
  apply Nat.eqb_neq in Hlen.
  destruct i as [| a l]; [simpl in Hlen; contradiction |].
  destruct ((length (a :: l) =? 1)%nat && has_anchor (a :: l)) eqn:Hroot.
  - apply andb_true_iff in Hroot as [Hl Ha]. apply Nat.eqb_eq in Hl.
    rewrite Ha in Hlen. contradiction.
  - apply app_removelast_last. discriminate.
Qed.

(** ** The default output path *)

Lemma default_output_differs (i : Path) :
  suffix i <> "" -> resolve_output i None <> i.
Proof.
  intros Hsuf Heq.
  destruct (with_suffix i Hsuf) as (Hname & _ & _ & Hi).
  assert (Heq' : parent i ++ [stem i +:+ "_compressed" +:+ suffix i]
                 = parent i ++ [name i])
    by (rewrite <- Hi; exact Heq).
  apply app_inj_tail in Heq' as [_ Hlast].
  rewrite Hname in Hlast.
  assert (Hl : String.length (stem i +:+ "_compressed" +:+ suffix i)
               = String.length (stem i +:+ suffix i))
    by (rewrite Hlast; reflexivity).
  rewrite !str_length_app in Hl. simpl in Hl. lia.
Qed.

(** X11: For an input with a suffix (as every input that passes the extension
    check has), the default output path is another path than the input: it
    lies in the same directory, its name is the stem, [_compressed] and the
    suffix, and its suffix is the suffix of the input, so it passes the
    extension check whenever the input does. *)
Theorem default_output_is_fresh (i : Path) :
  suffix i <> "" ->
  let out := resolve_output i None in
  out <> i
  /\ parent out = parent i
  /\ name out = stem i +:+ "_compressed" +:+ suffix i
  /\ stem out = stem i +:+ "_compressed"
  /\ suffix out = suffix i.
Proof.
  intros Hsuf out.
  destruct (with_suffix i Hsuf) as (Hname & Hdot & Hlen & Hi).
  set (x := stem i +:+ "_compressed" +:+ suffix i).
  assert (Hxlen : String.length x
                  = (String.length (stem i) + 11 + String.length (suffix i))%nat).
  { unfold x. rewrite !str_length_app. simpl. lia. }
  assert (Hout : out = parent i ++ [x]) by reflexivity.
  assert (Hx1 : String.eqb x "/" = false).
  { apply String.eqb_neq. intros Hx. rewrite Hx in Hxlen. simpl in Hxlen. lia. }
  assert (Hnameout : name out = x).
  { rewrite Hout. unfold name. rewrite last_last.
    destruct (parent i) as [| a l]; simpl.
    - rewrite Hx1. reflexivity.
    - rewrite length_app. simpl.
      destruct (String.eqb a "/"); simpl;
        destruct (length l + 1)%nat eqn:Hl; try reflexivity; lia. }
  assert (Hrf : rfind_dot x = Some (String.length (stem i) + 11)%nat).
  { unfold x. rewrite <- app_str_assoc_local. rewrite rfind_dot_app, Hdot.
    rewrite str_length_app. simpl. f_equal. lia. }
  split; [apply default_output_differs; exact Hsuf |].
  split.
  { rewrite Hout. unfold parent at 1. rewrite removelast_last.
    destruct (parent i) as [| a l]; simpl.
    - rewrite Hx1. reflexivity.
    - rewrite length_app. simpl.
      destruct (length l + 1)%nat eqn:Hl; [lia |]. simpl. reflexivity. }
  split; [exact Hnameout |].
  assert (Hcond : (0 <? String.length (stem i) + 11)%nat
                  && (String.length (stem i) + 11 <? String.length x - 1)%nat = true).
  { apply andb_true_iff. split; apply Nat.ltb_lt; lia. }
  split.
  - unfold stem. rewrite Hnameout, Hrf, Hcond.
    unfold x. rewrite <- app_str_assoc_local.
    replace (String.length (stem i) + 11)%nat
      with (String.length (stem i +:+ "_compressed"))
      by (rewrite str_length_app; reflexivity).
    apply str_take_app.
  - unfold suffix at 1. rewrite Hnameout, Hrf, Hcond.
    unfold x. rewrite <- app_str_assoc_local.
    replace (String.length (stem i) + 11)%nat
      with (String.length (stem i +:+ "_compressed"))
      by (rewrite str_length_app; reflexivity).
    apply str_drop_app.
Qed.

Lemma default_output_is_fresh_witness :
  suffix ["/"; "home"; "scan.PDF"] <> ""
  /\ resolve_output ["/"; "home"; "scan.PDF"] None <> ["/"; "home"; "scan.PDF"]
  /\ suffix (resolve_output ["/"; "home"; "scan.PDF"] None)
     = suffix ["/"; "home"; "scan.PDF"].
Proof.
  assert (H : suffix ["/"; "home"; "scan.PDF"] <> "") by (vm_compute; discriminate).
  destruct (default_output_is_fresh ["/"; "home"; "scan.PDF"] H)
    as (Hne & _ & _ & _ & Hsuf).
  split; [exact H |]. split; [exact Hne | exact Hsuf].
Defined.

(** ** The probe *)

(** X12: [has_ghostscript] never raises, whether [gs] is missing or exits with
    an error: it returns, true exactly when [gs --version] exits with
    status 0, and leaves the files and both streams as they are. *)
Theorem has_ghostscript_never_raises (h : Host) (w : World) :
  exists b : bool,
    has_ghostscript h w
    = (Return b,
       {| fs := fs w; stdout := stdout w; stderr := stderr w;
          trace := trace w ++ [Probe] |})
    /\ (b = true <-> gs_version h = Some 0).
Proof.
  exists (gs_present h). split; [apply has_ghostscript_run |].
  unfold gs_present. destruct (gs_version h) as [rc |].
  - split.
    + intros H. apply Z.eqb_eq in H. subst rc. reflexivity.
    + intros H. injection H as ->. reflexivity.
  - split; discriminate.
Qed.

(** ** The pypdf backend *)

Lemma compress_with_pypdf_run (h : Host) (i o : Path) (q : Z) (w : World) :
  compress_with_pypdf h i o q w
  = match fs w !! i with
    | None =>
        (Raise (FileNotFoundError (path_str i)),
         {| fs := fs w; stdout := stdout w; stderr := stderr w;
            trace := trace w ++ [Run Pypdf i o] |})
    | Some src =>
        match pypdf_rewrite h src with
        | ReadFails msg =>
            (Raise (LibraryError msg),
             {| fs := fs w; stdout := stdout w; stderr := stderr w;
                trace := trace w ++ [Run Pypdf i o] |})
        | WriteFails msg partial =>
            (Raise (LibraryError msg),
             {| fs := <[o := partial]> (fs w); stdout := stdout w;
                stderr := stderr w; trace := trace w ++ [Run Pypdf i o] |})
        | Written data =>
            (Return (st_size (if decide (i = o) then data else src), st_size data),
             {| fs := <[o := data]> (fs w); stdout := stdout w;
                stderr := stderr w; trace := trace w ++ [Run Pypdf i o] |})
        end
    end.
Proof.
  unfold compress_with_pypdf, pdf_rewrite_to, stat_size, log, set_fs,
    mbind, mret, M_bind, M_ret, bind, ret; simpl.
  destruct (fs w !! i) as [src |] eqn:Hi; [| reflexivity].
  destruct (pypdf_rewrite h src) as [msg | msg part | data]; try reflexivity.
  simpl. destruct (decide (i = o)) as [-> | Hne].
  - rewrite lookup_insert_eq. simpl. rewrite lookup_insert_eq. reflexivity.
  - rewrite lookup_insert_ne by congruence. rewrite Hi. simpl.
    rewrite lookup_insert_eq. reflexivity.
Qed.

(** X13: The output size the pypdf backend returns is the size of the document
    it has written, which is what the output path holds afterwards; and
    the sizes are read after the writing: when the output path is the
    input path itself, the input size returned is the size of the new
    document, not the size the input had. *)
Theorem compress_with_pypdf_sizes (h : Host) (i o : Path) (q : Z) (w : World)
    (src data : file) :
  fs w !! i = Some src ->
  pypdf_rewrite h src = Written data ->
  (exists input_size : Z,
     fst (compress_with_pypdf h i o q w) = Return (input_size, st_size data))
  /\ fs (snd (compress_with_pypdf h i o q w)) !! o = Some data
  /\ fst (compress_with_pypdf h i i q w) = Return (st_size data, st_size data).
Proof.
  intros Hi Hw. rewrite !compress_with_pypdf_run, Hi, Hw. simpl.
  split; [eexists; reflexivity |].
  split; [apply lookup_insert_eq |].
  destruct (decide (i = i)); [reflexivity | contradiction].
Qed.

Lemma compress_with_pypdf_sizes_witness :
  fs world_small_input !! doc_pdf = Some [Byte.x25; Byte.x50]
  /\ fst (compress_with_pypdf host_pypdf doc_pdf doc_pdf 2 world_small_input)
     = Return (1, 1).
Proof.
  assert (Hi : fs world_small_input !! doc_pdf = Some [Byte.x25; Byte.x50])
    by (vm_compute; reflexivity).
  assert (Hw : pypdf_rewrite host_pypdf [Byte.x25; Byte.x50] = Written [Byte.x25])
    by reflexivity.
  split; [exact Hi |].
  exact (proj2 (proj2 (compress_with_pypdf_sizes host_pypdf doc_pdf doc_pdf 2
                         world_small_input _ _ Hi Hw))).
Defined.

Lemma compress_with_pypdf_fs (h : Host) (i o : Path) (q : Z) (w : World) :
  forall p, p <> o -> fs (snd (compress_with_pypdf h i o q w)) !! p = fs w !! p.
Proof.
  intros p Hp. rewrite compress_with_pypdf_run.
  destruct (fs w !! i) as [src |]; [| reflexivity].
  destruct (pypdf_rewrite h src); simpl; try reflexivity;
    apply lookup_insert_ne; congruence.
Qed.

(** The world [main] ends in has the files its backend left. *)
Lemma main_fs_after_backend (h : Host) (i : Path) (o : option Path) (q : Z)
    (f ng : bool) (w : World) (fi : file) :
  String.eqb (lower (suffix i)) ".pdf" = true ->
  (is_Some (fs w !! resolve_output i o) -> f = true) ->
  fs w !! i = Some fi ->
  fs (snd (main h i o q f ng w))
  = fs (snd ((if gs_present h && negb ng
              then compress_with_ghostscript h i (resolve_output i o) q
              else compress_with_pypdf h i (resolve_output i o) q)
               {| fs := fs w;
                  stdout := stdout w ++
                    [MsgCompressing (name i);
                     if gs_present h && negb ng
                     then MsgMethodGhostscript q else MsgMethodPypdf;
                     MsgBefore (st_size fi)];
                  stderr := stderr w;
                  trace := trace w ++ [Probe] |})).
Proof.
  intros Hext Hguard Hi.
  rewrite (main_compresses h i o q f ng w fi Hext Hguard Hi).
  match goal with
  | |- context [(if ?u then compress_with_ghostscript _ _ ?out _ else _) ?w1] =>
      destruct ((if u then compress_with_ghostscript h i out q
                 else compress_with_pypdf h i out q) w1) as [[[a osz] | e] w2]
  end; simpl; [destruct (st_size fi =? 0) |]; reflexivity.
Qed.

(** X14: When the pypdf backend is the one selected and the output path names
    no file before the run, every file that is there before the run is
    there after it with the contents it had, whatever happens; so is the
    input file in particular. *)
Theorem pypdf_run_keeps_existing_files (h : Host) (i : Path) (o : option Path)
    (q : Z) (f ng : bool) (w : World) :
  gs_present h && negb ng = false ->
  fs w !! resolve_output i o = None ->
  forall (p : Path) (fp : file),
    fs w !! p = Some fp ->
    fs (snd (main h i o q f ng w)) !! p = Some fp.
Proof.
  intros Hpypdf Hfresh p fp Hp.
  assert (Hne : p <> resolve_output i o).
  { intros ->. rewrite Hfresh in Hp. discriminate Hp. }
  rewrite <- Hp.
  destruct (String.eqb (lower (suffix i)) ".pdf") eqn:Hext;
    [| rewrite (main_rejects_input h i o q f ng w Hext); reflexivity].
  destruct (guard_cases w (resolve_output i o) f) as [[Hout ->] | Hguard];
    [rewrite (main_refuses_overwrite h i o q ng w Hext Hout); reflexivity |].
  destruct (fs w !! i) as [fi |] eqn:Hi;
    [| rewrite (main_input_missing h i o q f ng w Hext Hguard Hi); reflexivity].
  rewrite (main_fs_after_backend h i o q f ng w fi Hext Hguard Hi), Hpypdf.
  rewrite (compress_with_pypdf_fs h i (resolve_output i o) q _ p Hne).
  reflexivity.
Qed.

Lemma pypdf_run_keeps_existing_files_witness :
  gs_present host_pypdf && negb false = false
  /\ fs world_small_input !! resolve_output doc_pdf None = None
  /\ fs (snd (main host_pypdf doc_pdf None 2 false false world_small_input)) !! doc_pdf
     = Some [Byte.x25; Byte.x50].
Proof.
  assert (H : gs_present host_pypdf && negb false = false) by reflexivity.
  assert (Ho : fs world_small_input !! resolve_output doc_pdf None = None)
    by (vm_compute; reflexivity).
  assert (Hi : fs world_small_input !! doc_pdf = Some [Byte.x25; Byte.x50])
    by (vm_compute; reflexivity).
  split; [exact H |]. split; [exact Ho |].
  exact (pypdf_run_keeps_existing_files host_pypdf doc_pdf None 2 false false
           world_small_input H Ho doc_pdf _ Hi).
Defined.

(** X15: When the pypdf backend is selected and writes a document, the output
    path holds exactly that document after the run, also when a file was
    there before (which the guard lets through only with the force flag);
    the run returns unless the input is an empty file, and even then the
    output has been written. *)
Theorem pypdf_run_writes_output (h : Host) (i : Path) (o : option Path)
    (q : Z) (f ng : bool) (w : World) (src data : file) :
  gs_present h && negb ng = false ->
  lower (suffix i) = ".pdf" ->
  (is_Some (fs w !! resolve_output i o) -> f = true) ->
  fs w !! i = Some src ->
  pypdf_rewrite h src = Written data ->
  fs (snd (main h i o q f ng w)) = <[resolve_output i o := data]> (fs w)
  /\ (st_size src <> 0 -> fst (main h i o q f ng w) = Return tt)
  /\ (st_size src = 0 -> fst (main h i o q f ng w) = Raise (SystemExit 1)).
Proof.
  intros Hpypdf Hext Hguard Hi Hw. apply eqb_pdf_true in Hext.
  split.
  - rewrite (main_fs_after_backend h i o q f ng w src Hext Hguard Hi), Hpypdf.
    rewrite compress_with_pypdf_run. cbn [fs]. rewrite Hi, Hw. reflexivity.
  - rewrite (main_compresses h i o q f ng w src Hext Hguard Hi), Hpypdf.
    rewrite compress_with_pypdf_run. cbn [fs]. rewrite Hi, Hw.
    split; intros Hsz.
    + apply Z.eqb_neq in Hsz. rewrite Hsz. reflexivity.
    + apply Z.eqb_eq in Hsz. rewrite Hsz. reflexivity.
Qed.

Lemma pypdf_run_writes_output_witness :
  fs world_output_there !! doc_compressed_pdf = Some [Byte.x00]
  /\ fs (snd (main host_pypdf doc_pdf None 2 true false world_output_there))
     = <[doc_compressed_pdf := [Byte.x25]]> (fs world_output_there).
Proof.
  split; [vm_compute; reflexivity |].
  assert (Hi : fs world_output_there !! doc_pdf = Some [Byte.x25; Byte.x50])
    by (vm_compute; reflexivity).
  exact (proj1 (pypdf_run_writes_output host_pypdf doc_pdf None 2 true false
                  world_output_there [Byte.x25; Byte.x50] [Byte.x25]
                  eq_refl eq_refl (fun _ => eq_refl) Hi eq_refl)).
Defined.

(** X16: When the pypdf backend is selected and fails, the run ends with status
    1 and reports the failure.  A failure met while reading (before the
    output is opened) leaves every file as it was; a failure met while
    writing leaves at the output path what had been written: nothing is
    cleaned up. *)
Theorem pypdf_failure_is_reported (h : Host) (i : Path) (o : option Path)
    (q : Z) (f ng : bool) (w : World) (src : file) :
  gs_present h && negb ng = false ->
  lower (suffix i) = ".pdf" ->
  (is_Some (fs w !! resolve_output i o) -> f = true) ->
  fs w !! i = Some src ->
  let r := main h i o q f ng w in
  match pypdf_rewrite h src with
  | ReadFails msg =>
      fst r = Raise (SystemExit 1)
      /\ stderr (snd r) = stderr w ++ [MsgError (LibraryError msg)]
      /\ fs (snd r) = fs w
  | WriteFails msg partial =>
      fst r = Raise (SystemExit 1)
      /\ stderr (snd r) = stderr w ++ [MsgError (LibraryError msg)]
      /\ fs (snd r) = <[resolve_output i o := partial]> (fs w)
  | Written data => fs (snd r) = <[resolve_output i o := data]> (fs w)
  end.
Proof.
  intros Hpypdf Hext Hguard Hi r. subst r. apply eqb_pdf_true in Hext.
  rewrite (main_compresses h i o q f ng w src Hext Hguard Hi), Hpypdf.
  rewrite compress_with_pypdf_run. cbn [fs]. rewrite Hi.
  destruct (pypdf_rewrite h src) as [msg | msg part | data].
  - repeat split; reflexivity.
  - repeat split; reflexivity.
  - destruct (st_size src =? 0); reflexivity.
Qed.

Lemma pypdf_failure_is_reported_witness :
  gs_present host_pypdf_broken && negb false = false
  /\ fst (main host_pypdf_broken doc_pdf None 2 false false world_small_input)
     = Raise (SystemExit 1)
  /\ fs (snd (main host_pypdf_broken doc_pdf None 2 false false world_small_input))
     = fs world_small_input.
Proof.
  assert (H : gs_present host_pypdf_broken && negb false = false) by reflexivity.
  assert (Hi : fs world_small_input !! doc_pdf = Some [Byte.x25; Byte.x50])
    by (vm_compute; reflexivity).
  assert (Hg : is_Some (fs world_small_input !! resolve_output doc_pdf None)
               -> false = true).
  { intros [x Hx]. vm_compute in Hx. discriminate Hx. }
  pose proof (pypdf_failure_is_reported host_pypdf_broken doc_pdf None 2 false false
                world_small_input _ H eq_refl Hg Hi) as Hrun.
  destruct Hrun as (Hr & _ & Hfs).
  split; [exact H |]. split; [exact Hr | exact Hfs].
Defined.

(** ** The Ghostscript backend *)

(** X17: When [gs] is selected and exits with a status other than 0, the run
    ends with status 1, reports the exception whose message is
    ["Ghostscript failed: "] followed by what [gs] wrote on its error
    stream, prints no success line, and leaves the files as [gs] left them:
    nothing is cleaned up. *)
Theorem ghostscript_failure_is_reported (h : Host) (i : Path) (o : option Path)
    (q : Z) (f : bool) (w : World) (fi : file)
    (rc : Z) (err : string) (files : gmap Path file) :
  gs_present h = true ->
  lower (suffix i) = ".pdf" ->
  (is_Some (fs w !! resolve_output i o) -> f = true) ->
  fs w !! i = Some fi ->
  gs_exec h (gs_cmd i (resolve_output i o) q) (fs w) = Completed rc err files ->
  rc <> 0 ->
  main h i o q f false w
  = (Raise (SystemExit 1),
     {| fs := files;
        stdout := stdout w ++
          [MsgCompressing (name i); MsgMethodGhostscript q; MsgBefore (st_size fi)];
        stderr := stderr w ++ [MsgError (Exception ("Ghostscript failed: " +:+ err))];
        trace := trace w ++ [Probe; Run Ghostscript i (resolve_output i o)] |}).
Proof.
  intros Hgs Hext Hguard Hi Hrun Hrc. apply eqb_pdf_true in Hext.
  rewrite (main_compresses h i o q f false w fi Hext Hguard Hi), Hgs.
  cbn [negb andb].
  unfold compress_with_ghostscript, subprocess_run, log, set_fs,
    mbind, M_bind, bind, raise. cbn [fs stdout stderr trace].
  rewrite Hrun. apply Z.eqb_neq in Hrc. rewrite Hrc. cbn.
  rewrite <- app_assoc. reflexivity.
Qed.

Lemma ghostscript_failure_is_reported_witness :
  gs_present host_gs_fails = true
  /\ fst (main host_gs_fails doc_pdf None 2 false false world_small_input)
     = Raise (SystemExit 1)
  /\ stderr (snd (main host_gs_fails doc_pdf None 2 false false world_small_input))
     = [MsgError (Exception "Ghostscript failed: Error: /undefinedfilename")].
Proof.
  assert (Hgs : gs_present host_gs_fails = true) by reflexivity.
  assert (Hi : fs world_small_input !! doc_pdf = Some [Byte.x25; Byte.x50])
    by (vm_compute; reflexivity).
  assert (Hg : is_Some (fs world_small_input !! resolve_output doc_pdf None)
               -> false = true).
  { intros [x Hx]. vm_compute in Hx. discriminate Hx. }
  assert (Hrc : 1 <> 0) by lia.
  pose proof (ghostscript_failure_is_reported host_gs_fails doc_pdf None 2 false
                world_small_input [Byte.x25; Byte.x50] 1 "Error: /undefinedfilename"
                (fs world_small_input) Hgs eq_refl Hg Hi eq_refl Hrc) as H.
  split; [exact Hgs |]. rewrite H. split; reflexivity.
Defined.

(** X18: When [gs] is selected and exits with status 0 without leaving a file
    at the output path, the run ends with status 1 and reports the missing
    output file. *)
Theorem ghostscript_without_output (h : Host) (i : Path) (o : option Path)
    (q : Z) (f : bool) (w : World) (fi fi' : file)
    (err : string) (files : gmap Path file) :
  gs_present h = true ->
  lower (suffix i) = ".pdf" ->
  (is_Some (fs w !! resolve_output i o) -> f = true) ->
  fs w !! i = Some fi ->
  gs_exec h (gs_cmd i (resolve_output i o) q) (fs w) = Completed 0 err files ->
  files !! i = Some fi' ->
  files !! resolve_output i o = None ->
  fst (main h i o q f false w) = Raise (SystemExit 1)
  /\ stderr (snd (main h i o q f false w))
     = stderr w ++ [MsgError (FileNotFoundError (path_str (resolve_output i o)))]
  /\ fs (snd (main h i o q f false w)) = files.
Proof.
  intros Hgs Hext Hguard Hi Hrun Hin Hout. apply eqb_pdf_true in Hext.
  rewrite (main_compresses h i o q f false w fi Hext Hguard Hi), Hgs.
  cbn [negb andb].
  unfold compress_with_ghostscript, subprocess_run, stat_size, log, set_fs,
    mbind, M_bind, bind, raise. cbn [fs stdout stderr trace].
  rewrite Hrun. cbn. rewrite Hin. cbn. rewrite Hout. cbn.
  repeat split; reflexivity.
Qed.

Lemma ghostscript_without_output_witness :
  gs_present host_gs_silent = true
  /\ stderr (snd (main host_gs_silent doc_pdf None 2 false false world_small_input))
     = [MsgError (FileNotFoundError "doc_compressed.pdf")].
Proof.
  assert (Hgs : gs_present host_gs_silent = true) by reflexivity.
  assert (Hi : fs world_small_input !! doc_pdf = Some [Byte.x25; Byte.x50])
    by (vm_compute; reflexivity).
  assert (Ho : fs world_small_input !! resolve_output doc_pdf None = None)
    by (vm_compute; reflexivity).
  assert (Hg : is_Some (fs world_small_input !! resolve_output doc_pdf None)
               -> false = true).
  { intros [x Hx]. rewrite Ho in Hx. discriminate Hx. }
  destruct (ghostscript_without_output host_gs_silent doc_pdf None 2 false
              world_small_input [Byte.x25; Byte.x50] [Byte.x25; Byte.x50] ""
              (fs world_small_input) Hgs eq_refl Hg Hi eq_refl Hi Ho)
    as (_ & Herr & _).
  split; [exact Hgs |]. rewrite Herr. reflexivity.
Defined.

(** ** One report per run *)

Lemma no_success_before_backend (nm : string) (u : bool) (q n : Z) :
  MsgSuccess ∉ [MsgCompressing nm;
                if u then MsgMethodGhostscript q else MsgMethodPypdf;
                MsgBefore n].
Proof.
  intros Hin.
  apply elem_of_cons in Hin as [Hin | Hin]; [discriminate Hin |].
  apply elem_of_cons in Hin as [Hin | Hin]; [destruct u; discriminate Hin |].
  apply elem_of_cons in Hin as [Hin | Hin]; [discriminate Hin |].
  apply elem_of_nil in Hin. exact Hin.
Qed.

(** X19: Of the messages the program itself echoes (what libraries write on
    the streams of the process is not counted), a run on an input file
    that is there makes one report.  Either it returns (status 0), has
    echoed the success line and no error message; or it exits with status
    1, has echoed exactly one error message and no success line.  What was
    echoed before the run stays. *)
Theorem main_reports_once (h : Host) (i : Path) (o : option Path) (q : Z)
    (f ng : bool) (w : World) (fi : file) :
  fs w !! i = Some fi ->
  let r := main h i o q f ng w in
  exists (outs errs : list message),
    stdout (snd r) = stdout w ++ outs
    /\ stderr (snd r) = stderr w ++ errs
    /\ ((fst r = Return tt /\ exit_code (fst r) = 0
         /\ errs = [] /\ MsgSuccess ∈ outs)
        \/ (fst r = Raise (SystemExit 1) /\ exit_code (fst r) = 1
            /\ length errs = 1%nat /\ MsgSuccess ∉ outs)).
Proof.
  intros Hi r. subst r.
  destruct (String.eqb (lower (suffix i)) ".pdf") eqn:Hext.
  - destruct (guard_cases w (resolve_output i o) f) as [[Hout ->] | Hguard].
    + rewrite (main_refuses_overwrite h i o q ng w Hext Hout). simpl.
      exists [], [MsgOutputExists (resolve_output i o)].
      rewrite app_nil_r. split; [reflexivity |]. split; [reflexivity |].
      right. repeat split; try reflexivity. apply not_elem_of_nil.
    + rewrite (main_compresses h i o q f ng w fi Hext Hguard Hi).
      match goal with
      | |- context [(if ?u then compress_with_ghostscript _ _ ?out _ else _) ?w1] =>
          pose proof (backend_frame h u i out q w1) as (Hso & Hse & _ & _ & _);
          destruct ((if u then compress_with_ghostscript h i out q
                     else compress_with_pypdf h i out q) w1) as [[[a osz] | e] w2]
      end; simpl in *.
      * destruct (st_size fi =? 0); simpl; rewrite Hso, Hse.
        -- eexists. exists [MsgError ZeroDivisionError].
           split; [reflexivity |]. split; [reflexivity |].
           right. repeat split; try reflexivity. apply no_success_before_backend.
        -- eexists. exists [].
           split; [rewrite <- app_assoc; reflexivity |].
           split; [rewrite app_nil_r; reflexivity |].
           left. repeat split; try reflexivity.
           do 3 apply list_elem_of_further. apply list_elem_of_here.
      * rewrite Hso, Hse. eexists. exists [MsgError e].
        split; [reflexivity |]. split; [reflexivity |].
        right. repeat split; try reflexivity. apply no_success_before_backend.
  - rewrite (main_rejects_input h i o q f ng w Hext). simpl.
    exists [], [MsgInputNotPdf].
    rewrite app_nil_r. split; [reflexivity |]. split; [reflexivity |].
    right. repeat split; try reflexivity. apply not_elem_of_nil.
Qed.

Lemma main_reports_once_witness :
  fs world_small_input !! doc_pdf = Some [Byte.x25; Byte.x50]
  /\ exists (outs errs : list message),
       stdout (snd (main host_gs_fails doc_pdf None 2 false false world_small_input))
       = stdout world_small_input ++ outs
       /\ stderr (snd (main host_gs_fails doc_pdf None 2 false false world_small_input))
          = stderr world_small_input ++ errs.
Proof.
  assert (Hi : fs world_small_input !! doc_pdf = Some [Byte.x25; Byte.x50])
    by (vm_compute; reflexivity).
  destruct (main_reports_once host_gs_fails doc_pdf None 2 false false
              world_small_input _ Hi) as (outs & errs & Ho & He & _).
  split; [exact Hi |]. exists outs, errs. split; [exact Ho | exact He].
Defined.

End PdfoMore.
